(** * cli-eaa: the event-log retrieval loop of [lib/eventlog.py]

    A shallow embedding of [EventLogAPI] (time windows, response
    normalisation, scroll pagination, the poll loop and its output sink)
    together with the properties of it that the specification states. *)

From Stdlib Require Import ZArith List String Ascii Bool Lia QArith Qround
  DecimalString Lqa.
Import ListNotations.

Local Open Scope string_scope.
Local Open Scope Z_scope.

Set Warnings "-register-all,-notation-for-abbreviation".

(** ** Python values and the builtins the module applies to them *)

Module Py.

(** The exceptions that can reach one of the [except Exception] clauses. *)
Inductive exn : Type :=
| AttributeError | KeyError | IndexError | TypeError | ValueError
| OverflowError | OSError | JSONDecodeError | RequestException.

Inductive res (A : Type) : Type :=
| Ok (a : A)
| Raise (e : exn).
Arguments Ok {A} a.
Arguments Raise {A} e.

Definition bind {A B : Type} (m : res A) (k : A -> res B) : res B :=
  match m with
  | Ok a => k a
  | Raise e => Raise e
  end.

(** What [resp.json()] returns: [None], booleans, integers, strings, lists
    and dicts.  A dict is an association list in insertion order, which is
    the order [items()] iterates in; a Python dict has no duplicate key.
    Strings are byte strings holding the UTF-8 encoding of the text, so that
    [String.length] is the number of bytes [write] sends to a UTF-8 sink.
    JSON numbers with a fraction or an exponent (Python floats) have no
    constructor. *)
Inductive value : Type :=
| VNone
| VBool (b : bool)
| VInt (z : Z)
| VStr (s : string)
| VList (l : list value)
| VDict (d : list (string * value)).

Fixpoint assoc (k : string) (d : list (string * value)) : option value :=
  match d with
  | [] => None
  | (k', v) :: d' => if String.eqb k k' then Some v else assoc k d'
  end.

(** [v.get(k)] *)
Definition get (v : value) (k : string) : res value :=
  match v with
  | VDict d => Ok (match assoc k d with Some x => x | None => VNone end)
  | _ => Raise AttributeError
  end.

(** [v[n]] for a non-negative integer literal [n] *)
Definition getitem (v : value) (n : nat) : res value :=
  match v with
  | VList l =>
      match nth_error l n with Some x => Ok x | None => Raise IndexError end
  | VStr s =>
      match String.get n s with
      | Some c => Ok (VStr (String c EmptyString))
      | None => Raise IndexError
      end
  | VDict _ => Raise KeyError
  | _ => Raise TypeError
  end.

(** [v[k]] for a string [k] *)
Definition subscript (v : value) (k : string) : res value :=
  match v with
  | VDict d =>
      match assoc k d with Some x => Ok x | None => Raise KeyError end
  | _ => Raise TypeError
  end.

Definition is_str (k : string) (v : value) : bool :=
  match v with
  | VStr s => String.eqb k s
  | _ => false
  end.

Fixpoint substring_of (k s : string) : bool :=
  String.prefix k s ||
  match s with
  | EmptyString => false
  | String _ s' => substring_of k s'
  end.

(** [k in v] for a string [k] *)
Definition contains (k : string) (v : value) : res bool :=
  match v with
  | VDict d => Ok (match assoc k d with Some _ => true | None => false end)
  | VList l => Ok (existsb (is_str k) l)
  | VStr s => Ok (substring_of k s)
  | _ => Raise TypeError
  end.

Fixpoint chars (s : string) : list value :=
  match s with
  | EmptyString => []
  | String c s' => VStr (String c EmptyString) :: chars s'
  end.

(** The elements [for item in v] ranges over *)
Definition iter (v : value) : res (list value) :=
  match v with
  | VList l => Ok l
  | VDict d => Ok (map (fun kv => VStr (fst kv)) d)
  | VStr s => Ok (chars s)
  | _ => Raise TypeError
  end.

(** [six.iteritems(v)], that is [v.items()] *)
Definition iteritems (v : value) : res (list (string * value)) :=
  match v with
  | VDict d => Ok d
  | _ => Raise AttributeError
  end.

Definition is_digit (c : ascii) : bool :=
  let n := nat_of_ascii c in (48 <=? n)%nat && (n <=? 57)%nat.

Fixpoint all_digits (s : string) : bool :=
  match s with
  | EmptyString => true
  | String c s' => is_digit c && all_digits s'
  end.

(** [s.isdigit()] on ASCII text: non-empty and decimal digits only.  A key
    written with digits of another script is outside the model. *)
Definition isdigit (s : string) : bool :=
  match s with
  | EmptyString => false
  | _ => all_digits s
  end.

Fixpoint int_acc (acc : Z) (s : string) : Z :=
  match s with
  | EmptyString => acc
  | String c s' => int_acc (10 * acc + (Z.of_nat (nat_of_ascii c) - 48)) s'
  end.

(** [int(s)] for a string of decimal digits *)
Definition int (s : string) : Z := int_acc 0 s.

Definition decimal (z : Z) : string := NilZero.string_of_int (Z.to_int z).

Definition nl : string := String (ascii_of_nat 10) EmptyString.
Definition squote : ascii := ascii_of_nat 39.
Definition dquote : ascii := ascii_of_nat 34.
Definition backslash : ascii := ascii_of_nat 92.

Fixpoint has_char (c : ascii) (s : string) : bool :=
  match s with
  | EmptyString => false
  | String c' s' => Ascii.eqb c c' || has_char c s'
  end.

Definition hex_digit (n : nat) : ascii :=
  if (n <? 10)%nat then ascii_of_nat (48 + n) else ascii_of_nat (87 + n).

(** One character of [repr(s)] for the quote [q] chosen for [s].  Bytes from
    128 up belong to the encoding of a non-ASCII character and are kept,
    as Python keeps the printable ones; a text with a non-ASCII character
    that is not printable (U+0085, U+200B), which Python escapes, is
    outside the model. *)
Definition repr_char (q c : ascii) : string :=
  let n := nat_of_ascii c in
  if Ascii.eqb c q || Ascii.eqb c backslash then String backslash (String c EmptyString)
  else if (n =? 9)%nat then String backslash "t"
  else if (n =? 10)%nat then String backslash "n"
  else if (n =? 13)%nat then String backslash "r"
  else if (n <? 32)%nat || (n =? 127)%nat then
    String backslash (String "x"%char (String (hex_digit (n / 16)) (String (hex_digit (n mod 16)) EmptyString)))
  else String c EmptyString.

Fixpoint repr_chars (q : ascii) (s : string) : string :=
  match s with
  | EmptyString => EmptyString
  | String c s' => repr_char q c ++ repr_chars q s'
  end.

Definition repr_str (s : string) : string :=
  let q := if has_char squote s && negb (has_char dquote s) then dquote else squote in
  String q (repr_chars q s ++ String q EmptyString).

Fixpoint repr (v : value) : string :=
  match v with
  | VNone => "None"
  | VBool true => "True"
  | VBool false => "False"
  | VInt z => decimal z
  | VStr s => repr_str s
  | VList l => "[" ++ String.concat ", " (map repr l) ++ "]"
  | VDict d =>
      "{" ++ String.concat ", "
               (map (fun kv => match kv with
                               | (k, x) => repr_str k ++ ": " ++ repr x
                               end) d) ++ "}"
  end.

(** [str(v)], also what [format] substitutes for an empty [{}] field *)
Definition str (v : value) : string :=
  match v with
  | VStr s => s
  | _ => repr v
  end.

(** [v is None] *)
Definition is_None (v : value) : bool :=
  match v with
  | VNone => true
  | _ => false
  end.

(** [isinstance(v, dict)] *)
Definition is_dict (v : value) : bool :=
  match v with
  | VDict _ => true
  | _ => false
  end.

End Py.

Notation "x <- m ;; k" := (Py.bind m (fun x => k))
  (at level 61, m at next level, right associativity).

(** ** Calendar dates: [datetime.date.fromtimestamp] and [isoformat] *)

Module Date.

Record date : Type := mkDate { year : Z; month : Z; day : Z }.

(** The proleptic Gregorian date of the day [z] days after 1970-01-01. *)
Definition civil_from_days (z : Z) : date :=
  let z := z + 719468 in
  let era := z / 146097 in
  let doe := z - era * 146097 in
  let yoe := (doe - doe / 1460 + doe / 36524 - doe / 146096) / 365 in
  let doy := doe - (365 * yoe + yoe / 4 - yoe / 100) in
  let mp := (5 * doy + 2) / 153 in
  let d := doy - (153 * mp + 2) / 5 + 1 in
  let m := if mp <? 10 then mp + 3 else mp - 9 in
  let y := yoe + era * 400 in
  mkDate (if m <=? 2 then y + 1 else y) m d.

(** [date.fromtimestamp(t)] at [t] whole seconds since the epoch, where the
    local zone is [utcoffset t] seconds east of UTC at that instant.  A date
    exists for the years 1 to 9999 only. *)
Definition fromtimestamp (utcoffset : Z -> Z) (t : Z) : Py.res date :=
  let d := civil_from_days ((t + utcoffset t) / 86400) in
  if (1 <=? year d) && (year d <=? 9999) then Py.Ok d else Py.Raise Py.OverflowError.

Definition pad2 (z : Z) : string :=
  if z <? 10 then "0" ++ Py.decimal z else Py.decimal z.

Definition pad4 (z : Z) : string :=
  if z <? 10 then "000" ++ Py.decimal z
  else if z <? 100 then "00" ++ Py.decimal z
  else if z <? 1000 then "0" ++ Py.decimal z
  else Py.decimal z.

(** [d.isoformat()] *)
Definition isoformat (d : date) : string :=
  pad4 (year d) ++ "-" ++ pad2 (month d) ++ "-" ++ pad2 (day d).

End Date.

(** ** Data of the log retrieval loop *)

Inductive EventType : Type := USER_ACCESS | ADMIN.

(** [EventType(s)]: the member whose value is [s], if there is one *)
Definition EventType_of (s : string) : option EventType :=
  if String.eqb s "access" then Some USER_ACCESS
  else if String.eqb s "admin" then Some ADMIN
  else None.

Definition SOURCE : string := "akamai-cli/eaa".
Definition PULL_INTERVAL_SEC : Z := 15.
Definition COLLECTION_DELAY_MINUTES : Z := 1.
Definition ADMINEVENT_API : string := "adminevents-reports/ops/splunk-query".
Definition ACCESSLOG_API : string := "analytics/ops".

Definition get_api_url (logtype : EventType) : string :=
  match logtype with
  | ADMIN => ADMINEVENT_API
  | USER_ACCESS => ACCESSLOG_API
  end.

(** Identity of an already open stream object; [Stdout] is [sys.stdout]. *)
Inductive handle : Type := Stdout | Fd (n : nat).

Definition handle_eqb (a b : handle) : bool :=
  match a, b with
  | Stdout, Stdout => true
  | Fd n, Fd m => Nat.eqb n m
  | _, _ => false
  end.

(** What [config.output] can hold: a path, an object with a [write]
    attribute, or an object that is neither. *)
Inductive target : Type :=
| TPath (p : string)
| TStream (h : handle)
| TOther.

(** Modelled from the spec: the values of [common.config] that the module
    reads ([tail], [start] and [end] in epoch seconds, [batch], [log_type]
    and the output target); [None] stands for an option that was not given. *)
Record config : Type := mkConfig {
  tail : bool;
  start : option Z;
  end_ : option Z;
  batch : bool;
  log_type : string;
  output : option target
}.

(** Truth value of an optional integer: [None] and [0] are false. *)
Definition truthy (o : option Z) : bool :=
  match o with
  | Some z => negb (z =? 0)
  | None => false
  end.

Definition the (o : option Z) : Z :=
  match o with
  | Some z => z
  | None => 0
  end.

(** [date_boundaries()], reading the clock at [now] seconds since the epoch:
    [time.mktime(time.localtime())] is [now] cut to whole seconds. *)
Definition date_boundaries (now : Q) (cfg : config) : Z * Z :=
  let ets := Qfloor now * 1000 - COLLECTION_DELAY_MINUTES * 60 * 1000 in
  let ets := if negb (tail cfg) && truthy (end_ cfg) then the (end_ cfg) * 1000 else ets in
  let sts := ets - PULL_INTERVAL_SEC * 1000 in
  let sts := if negb (tail cfg) && truthy (start cfg) then the (start cfg) * 1000 else sts in
  (ets, sts).

(** The transport's answer: a status code and what [json()] gives. *)
Record response : Type := mkResponse {
  status_code : Z;
  json : Py.res Py.value
}.

Record drpc_args : Type := mkArgs {
  arg_sts : string;
  arg_ets : string;
  arg_metrics : string;
  arg_es_fields : string;
  arg_limit : string;
  arg_sub_metrics : string;
  arg_source : string;
  arg_scroll_id : option string
}.

(** The request body of one page of the window [sts, ets]. *)
Definition make_drpc_args (sts ets : Z) (scroll_id : Py.value) : drpc_args :=
  mkArgs (Py.decimal sts) (Py.decimal ets) "logs" "flog" "1000" "scroll" SOURCE
         (if Py.is_None scroll_id then None else Some (Py.str scroll_id)).

(** A path of the file system: absent, a regular file, or not writable. *)
Inductive fstat : Type :=
| Absent
| Regular (content : string)
| Denied.

Definition content_of (f : fstat) : string :=
  match f with
  | Regular c => c
  | _ => EmptyString
  end.

(** An inherited stream: the bytes it has received, its position and
    whether [tell] works on it (it does not on a terminal or a pipe). *)
Record stream : Type := mkStream {
  received : string;
  position : Z;
  seekable : bool
}.

(** The object bound to [out]. *)
Inductive sink : Type :=
| SPath (p : string)
| SHandle (h : handle).

Inductive event : Type :=
| EvOpen (p : string)
| EvPost (a : drpc_args)
| EvWrite (s : string)
| EvFlush (ok : bool)
| EvClose.

(** Points of one tail cycle at which a signal can be delivered. *)
Inductive phase : Type := InFetch | BeforeWait | InWait | AfterWait.

(** The program state and the part of the outside it acts on.  [trace]
    lists the calls made on the transport and the sink, oldest first;
    [windows] the windows computed so far, oldest first. *)
Record world (backend : Type) : Type := mkWorld {
  net : backend;
  line_count : Z;
  error_count : Z;
  disk : string -> fstat;
  streams : handle -> stream;
  stop_event : bool;
  flushes : nat;
  windows : list (Z * Z);
  trace : list event
}.
Arguments mkWorld {backend}.
Arguments net {backend}.
Arguments line_count {backend}.
Arguments error_count {backend}.
Arguments disk {backend}.
Arguments streams {backend}.
Arguments stop_event {backend}.
Arguments flushes {backend}.
Arguments windows {backend}.
Arguments trace {backend}.

(** What the module cannot decide for itself: the remote service behind
    [self.post], the local time zone, the clock read at the start of each
    cycle, the signals delivered to the process and the faults of the sink. *)
Record env (backend : Type) : Type := mkEnv {
  post : backend -> string -> drpc_args -> Py.res response * backend;
  utcoffset : Z -> Z;
  now : nat -> Q;
  signal : nat -> phase -> bool;
  flush_raises : nat -> bool
}.
Arguments mkEnv {backend}.
Arguments post {backend}.
Arguments utcoffset {backend}.
Arguments now {backend}.
Arguments signal {backend}.
Arguments flush_raises {backend}.

Inductive outcome (A : Type) : Type :=
| Ret (a : A)
| Exc (e : Py.exn)
| Diverge.
Arguments Ret {A} a.
Arguments Exc {A} e.
Arguments Diverge {A}.

(** The three lines [cli.print] shows after a bounded run. *)
Record summary : Type := mkSummary {
  sum_start : Z;
  sum_end : Z;
  sum_events : Z;
  sum_errors : Z;
  sum_bytes : Z
}.

Record report : Type := mkReport {
  printed : option summary;
  fault : option Py.exn
}.

(** ** The sink and the counters *)

Section Sink.

Context {backend : Type}.
Notation world := (world backend).

Definition log_event (e : event) (w : world) : world :=
  mkWorld (net w) (line_count w) (error_count w) (disk w) (streams w)
          (stop_event w) (flushes w) (windows w) (trace w ++ [e]).

Definition set_net (b : backend) (w : world) : world :=
  mkWorld b (line_count w) (error_count w) (disk w) (streams w)
          (stop_event w) (flushes w) (windows w) (trace w).

Definition incr_line_count (w : world) : world :=
  mkWorld (net w) (line_count w + 1) (error_count w) (disk w) (streams w)
          (stop_event w) (flushes w) (windows w) (trace w).

Definition incr_error_count (w : world) : world :=
  mkWorld (net w) (line_count w) (error_count w + 1) (disk w) (streams w)
          (stop_event w) (flushes w) (windows w) (trace w).

Definition set_file (p : string) (f : fstat) (w : world) : world :=
  mkWorld (net w) (line_count w) (error_count w)
          (fun q => if String.eqb q p then f else disk w q) (streams w)
          (stop_event w) (flushes w) (windows w) (trace w).

Definition set_stream (h : handle) (s : stream) (w : world) : world :=
  mkWorld (net w) (line_count w) (error_count w) (disk w)
          (fun k => if handle_eqb k h then s else streams w k)
          (stop_event w) (flushes w) (windows w) (trace w).

Definition set_stop (w : world) : world :=
  mkWorld (net w) (line_count w) (error_count w) (disk w) (streams w)
          true (flushes w) (windows w) (trace w).

Definition count_flush (w : world) : world :=
  mkWorld (net w) (line_count w) (error_count w) (disk w) (streams w)
          (stop_event w) (S (flushes w)) (windows w) (trace w).

Definition push_window (sts ets : Z) (w : world) : world :=
  mkWorld (net w) (line_count w) (error_count w) (disk w) (streams w)
          (stop_event w) (flushes w) (windows w ++ [(sts, ets)]) (trace w).

(** [open(p, 'w+', encoding='utf-8')]: the file is created or cut to
    length zero. *)
Definition open_wplus (p : string) (w : world) : world * Py.res sink :=
  match disk w p with
  | Denied => (w, Py.Raise Py.OSError)
  | _ => (log_event (EvOpen p) (set_file p (Regular EmptyString) w), Py.Ok (SPath p))
  end.

(** [out.write(s)] on a sink that takes the line.  A write that raises
    (which the handler around it would log, the line not being counted)
    is not modelled: the trace lists the writes that returned, and the
    content of the sink is what it was handed, flushed or not. *)
Definition write (out : sink) (s : string) (w : world) : world :=
  log_event (EvWrite s)
    match out with
    | SPath p => set_file p (Regular (content_of (disk w p) ++ s)) w
    | SHandle h =>
        let st := streams w h in
        set_stream h (mkStream (received st ++ s)
                               (position st + Z.of_nat (String.length s))
                               (seekable st)) w
    end.

(** [out.tell()] *)
Definition tell (out : sink) (w : world) : Py.res Z :=
  match out with
  | SPath p => Py.Ok (Z.of_nat (String.length (content_of (disk w p))))
  | SHandle h =>
      if seekable (streams w h) then Py.Ok (position (streams w h))
      else Py.Raise Py.OSError
  end.

End Sink.

(** What the sink still holds of the lines handed to it by the calls [evs]:
    a write leaves its line in the buffer of the sink, a flush that
    succeeds empties it, a flush that fails leaves it as it is. *)
Definition buffered (evs : list event) : bool :=
  fold_left (fun b e => match e with
                        | EvWrite _ => true
                        | EvFlush true => false
                        | _ => b
                        end) evs false.

(** ** [EventLogAPI] *)

Section EventLogAPI.

Context {backend : Type} (E : env backend).
Notation world := (world backend).

(** [out.flush()]; the environment says which flushes fail. *)
Definition flush (out : sink) (w : world) : world * Py.res unit :=
  let ok := negb (flush_raises E (flushes w)) in
  (log_event (EvFlush ok) (count_flush w),
   if ok then Py.Ok tt else Py.Raise Py.OSError).

(** [out.close()] at the end of a run whose calls on the sink were [mine].
    What the sink still holds is flushed first; when that flush fails the
    sink is closed all the same and the exception is raised by [close].
    The sink holds nothing of before the run: a path is opened anew, and
    an inherited stream is taken to have been flushed. *)
Definition close (mine : list event) (out : sink) (w : world) : world * Py.res unit :=
  (log_event EvClose w,
   if buffered mine && flush_raises E (flushes w) then Py.Raise Py.OSError
   else Py.Ok tt).

(** Lines 91 to 99 of [get_logs]: the value [scroll_id] holds when the block
    is left, and [msg] unless the block raised. *)
Definition scroll_and_msg (logtype : EventType) (resj : Py.value)
  : Py.value * Py.res Py.value :=
  match logtype with
  | USER_ACCESS =>
      match (m <- Py.get resj "message" ;; a <- Py.getitem m 0 ;; Py.getitem a 1) with
      | Py.Raise e => (Py.VNone, Py.Raise e)
      | Py.Ok msg =>
          match Py.get msg "scroll_id" with
          | Py.Raise e => (Py.VNone, Py.Raise e)
          | Py.Ok sid => (sid, Py.Ok msg)
          end
      end
  | ADMIN =>
      match Py.get resj "message" with
      | Py.Raise e => (Py.VNone, Py.Raise e)
      | Py.Ok msg =>
          match (md <- Py.get msg "metadata" ;; Py.contains "scroll_id" md) with
          | Py.Raise e => (Py.VNone, Py.Raise e)
          | Py.Ok false => (Py.VNone, Py.Ok msg)
          | Py.Ok true =>
              match (md <- Py.get msg "metadata" ;; Py.get md "scroll_id") with
              | Py.Raise e => (Py.VNone, Py.Raise e)
              | Py.Ok sid => (sid, Py.Ok msg)
              end
          end
      end
  end.

(** The body of the [try] for one item of a user access page: [Ok None]
    when it ends without a line, [Ok (Some line)] when it writes [line]. *)
Definition access_line (timestamp : string) (response : Py.value)
  : Py.res (option string) :=
  if negb (Py.isdigit timestamp) then Py.Ok None
  else
    _ <- Py.subscript response "flog" ;;
    local_time <- Date.fromtimestamp (utcoffset E) (Py.int timestamp / 1000) ;;
    match response with
    | Py.VDict d =>
        match Py.assoc "flog" d with
        | Some (Py.VStr flog) =>
            Py.Ok (Some (Date.isoformat local_time ++ " " ++ flog ++ Py.nl))
        | Some _ => Py.Raise Py.TypeError
        | None => Py.Ok None
        end
    | _ => Py.Ok None
    end.

Fixpoint access_records (items : list (string * Py.value)) (output : sink)
                        (w : world) : world :=
  match items with
  | [] => w
  | (timestamp, response) :: rest =>
      access_records rest output
        match access_line timestamp response with
        | Py.Ok (Some line) => incr_line_count (write output line w)
        | Py.Ok None => w
        | Py.Raise _ => w
        end
  end.

(** [int(ts/1000)] *)
Definition seconds_of (ts : Py.value) : Py.res Z :=
  match ts with
  | Py.VInt z => Py.Ok (Z.quot z 1000)
  | Py.VBool _ => Py.Ok 0
  | _ => Py.Raise Py.TypeError
  end.

(** The body of the [try] for one item of an admin page. *)
Definition admin_line (item : Py.value) : Py.res string :=
  ts <- Py.get item "ts" ;;
  secs <- seconds_of ts ;;
  local_time <- Date.fromtimestamp (utcoffset E) secs ;;
  splunk_line <- Py.get item "splunk_line" ;;
  Py.Ok (Date.isoformat local_time ++ "," ++ Py.str splunk_line ++ Py.nl).

(** The admin loop.  Its handler evaluates [item.get('splunk_line')] for
    the message it logs, and what that raises leaves the loop. *)
Fixpoint admin_records (items : list Py.value) (output : sink) (w : world)
  : world * Py.res unit :=
  match items with
  | [] => (w, Py.Ok tt)
  | item :: rest =>
      match admin_line item with
      | Py.Ok line => admin_records rest output (incr_line_count (write output line w))
      | Py.Raise _ =>
          match Py.get item "splunk_line" with
          | Py.Ok _ => admin_records rest output w
          | Py.Raise e => (w, Py.Raise e)
          end
      end
  end.

Definition get_logs (args : drpc_args) (logtype : EventType) (output : sink)
                    (w : world) : world * Py.value :=
  let (r, b) := post E (net w) (get_api_url logtype) args in
  let w := log_event (EvPost args) (set_net b w) in
  match r with
  | Py.Raise _ => (w, Py.VNone)
  | Py.Ok resp =>
      if negb (status_code resp =? 200) then (w, Py.VNone)
      else
        match json resp with
        | Py.Raise _ => (w, Py.VNone)
        | Py.Ok resj =>
            match Py.contains "message" resj with
            | Py.Raise _ => (w, Py.VNone)
            | Py.Ok false => (incr_error_count w, Py.VNone)
            | Py.Ok true =>
                match scroll_and_msg logtype resj with
                | (scroll_id, Py.Raise _) => (w, scroll_id)
                | (scroll_id, Py.Ok msg) =>
                    match logtype with
                    | USER_ACCESS =>
                        match Py.iteritems msg with
                        | Py.Raise _ => (w, scroll_id)
                        | Py.Ok items => (access_records items output w, scroll_id)
                        end
                    | ADMIN =>
                        match (data <- Py.get msg "data" ;; Py.iter data) with
                        | Py.Raise _ => (w, scroll_id)
                        | Py.Ok items => (fst (admin_records items output w), scroll_id)
                        end
                    end
                end
            end
        end
  end.

(** The inner [while True] of [fetch_logs]: the pages of one window. *)
Fixpoint drain (fuel : nat) (log_type : EventType) (sts ets : Z) (out : sink)
               (scroll_id : Py.value) (w : world) : world * outcome unit :=
  match fuel with
  | O => (w, Diverge)
  | S fuel' =>
      let (w1, scroll_id') := get_logs (make_drpc_args sts ets scroll_id) log_type out w in
      match flush out w1 with
      | (w2, Py.Raise e) => (w2, Exc e)
      | (w2, Py.Ok _) =>
          if Py.is_None scroll_id' then (w2, Ret tt)
          else drain fuel' log_type sts ets out scroll_id' w2
      end
  end.

(** Modelled from the spec: [exit_fn], the handler installed for SIGTERM and
    SIGINT, sets the stop flag.  [deliver i p] runs it if a signal arrives
    at point [p] of cycle [i]. *)
Definition deliver (i : nat) (p : phase) (w : world) : world :=
  if signal E i p then set_stop w else w.

(** Modelled from the spec: [stop_event] is a flag with a timed wait that
    can be cut short (a [threading.Event]).  [stop_event.wait(timeout)]
    returns at once when the flag is set on entry, otherwise it blocks
    until the flag is set or the time is over. *)
Definition Event_wait (i : nat) (w : world) : world :=
  if stop_event w then w else deliver i InWait w.

(** The outer [while True] of [fetch_logs], from cycle [i] on.  The summary
    is what the three [cli.print] calls show; [time.gmtime] and
    [time.strftime] are taken to accept the bounds of the window. *)
Fixpoint poll (fuel : nat) (i : nat) (cfg : config) (log_type : EventType)
              (out : sink) (start_position : Z) (w : world)
  : world * outcome (option summary) :=
  match fuel with
  | O => (w, Diverge)
  | S fuel' =>
      let (ets, sts) := date_boundaries (now E i) cfg in
      match drain fuel' log_type sts ets out Py.VNone (push_window sts ets w) with
      | (w1, Diverge) => (w1, Diverge)
      | (w1, Exc e) => (w1, Exc e)
      | (w1, Ret _) =>
          let w2 := deliver i InFetch w1 in
          if negb (tail cfg) then
            if negb (batch cfg) then
              match tell out w2 with
              | Py.Raise e => (w2, Exc e)
              | Py.Ok pos =>
                  (w2, Ret (Some (mkSummary sts ets (line_count w2) (error_count w2)
                                            (pos - start_position))))
              end
            else (w2, Ret None)
          else
            let w3 := deliver i AfterWait (Event_wait i (deliver i BeforeWait w2)) in
            if stop_event w3 then (w3, Ret None)
            else poll fuel' (S i) cfg log_type out start_position w3
      end
  end.

(** [self._output] as [__init__] sets it. *)
Definition self_output (cfg : config) : target :=
  match output cfg with
  | None => TStream Stdout
  | Some (TPath EmptyString) => TStream Stdout
  | Some t => t
  end.

Definition is_stdout (t : target) : bool :=
  match t with
  | TStream Stdout => true
  | _ => false
  end.

(** The first statements of the [try]: what [out] is bound to. *)
Definition acquire (t : target) (w : world) : world * option sink * Py.res unit :=
  match t with
  | TPath p =>
      match open_wplus p w with
      | (w', Py.Ok s) => (w', Some s, Py.Ok tt)
      | (w', Py.Raise e) => (w', None, Py.Raise e)
      end
  | TStream h => (w, Some (SHandle h), Py.Ok tt)
  | TOther => (w, None, Py.Ok tt)
  end.

(** The [finally] clause and the way out of [fetch_logs], for a run
    started in [w] whose [try] was left in [w2] with [r]: the sink is
    closed unless nothing was bound to [out] or the output is
    [sys.stdout]; what [close] raises leaves the function. *)
Definition conclude (t : target) (out : option sink) (w w2 : world)
                    (r : outcome (option summary)) : world * outcome report :=
  let (w3, closed) :=
    match out with
    | Some o =>
        if is_stdout t then (w2, Py.Ok tt)
        else close (skipn (List.length (trace w)) (trace w2)) o w2
    | None => (w2, Py.Ok tt)
    end in
  match r, closed with
  | Diverge, _ => (w2, Diverge)
  | _, Py.Raise e => (w3, Exc e)
  | Ret s, Py.Ok _ => (w3, Ret (mkReport s None))
  | Exc e, Py.Ok _ => (w3, Ret (mkReport None (Some e)))
  end.

(** [fetch_logs].  [Exc] is an exception that leaves the function: that of
    an unknown log type, or that of [out.close()] in the [finally] clause;
    [Diverge] a run that is still in one of its loops when [fuel] is used
    up; [fault] is the exception the [except] clause logged, if any. *)
Definition fetch_logs (fuel : nat) (cfg : config) (w : world)
  : world * outcome report :=
  match EventType_of (log_type cfg) with
  | None => (w, Exc Py.ValueError)
  | Some lt =>
      let '(w1, out, opened) := acquire (self_output cfg) w in
      let (w2, r) :=
        match opened, out with
        | Py.Raise e, _ => (w1, Exc e)
        | Py.Ok _, None => (w1, Exc Py.AttributeError)
        | Py.Ok _, Some o =>
            match tell o w1 with
            | Py.Raise e => (w1, Exc e)
            | Py.Ok start_position => poll fuel O cfg lt o start_position w1
            end
        end in
      conclude (self_output cfg) out w w2 r
  end.

End EventLogAPI.

(** ** Vocabulary of the properties *)

(** The lines written and the requests sent, as a trace records them. *)
Fixpoint writes (evs : list event) : list string :=
  match evs with
  | [] => []
  | EvWrite s :: evs' => s :: writes evs'
  | _ :: evs' => writes evs'
  end.

Fixpoint posts (evs : list event) : list drpc_args :=
  match evs with
  | [] => []
  | EvPost a :: evs' => a :: posts evs'
  | _ :: evs' => posts evs'
  end.

Definition joined (ls : list string) : string :=
  fold_right String.append EmptyString ls.

(** A trace made of whole pages: one request, the lines of its page, one
    flush. *)
Inductive paged : list event -> Prop :=
| paged_nil : paged []
| paged_page (a : drpc_args) (ls : list string) (ok : bool) (rest : list event) :
    paged rest ->
    paged (EvPost a :: map EvWrite ls ++ EvFlush ok :: rest).

(** What the sink holds, where it stands, and whether [tell] answers. *)
Definition content {backend : Type} (out : sink) (w : world backend) : string :=
  match out with
  | SPath p => content_of (disk w p)
  | SHandle h => received (streams w h)
  end.

Definition offset {backend : Type} (out : sink) (w : world backend) : Z :=
  match out with
  | SPath p => Z.of_nat (String.length (content_of (disk w p)))
  | SHandle h => position (streams w h)
  end.

Definition can_tell {backend : Type} (out : sink) (w : world backend) : bool :=
  match out with
  | SPath _ => true
  | SHandle h => seekable (streams w h)
  end.

(** A sink that is a path names a regular file. *)
Definition is_regular {backend : Type} (out : sink) (w : world backend) : bool :=
  match out with
  | SPath p => match disk w p with Regular _ => true | _ => false end
  | SHandle _ => true
  end.

(** [stepped out evs w w']: from [w] to [w'] the calls [evs] were made, and
    the sink [out] received what they wrote. *)
Record stepped {backend : Type} (out : sink) (evs : list event)
               (w w' : world backend) : Prop := mkStepped {
  st_trace : trace w' = (trace w ++ evs)%list;
  st_content : content out w' = content out w ++ joined (writes evs);
  st_offset : offset out w' = offset out w + Z.of_nat (String.length (joined (writes evs)));
  st_can_tell : can_tell out w' = can_tell out w;
  st_lines : line_count w' = line_count w + Z.of_nat (List.length (writes evs));
  st_regular : is_regular out w = true -> is_regular out w' = true
}.

(** [untouched w w']: only the windows and the stop flag may differ. *)
Record untouched {backend : Type} (w w' : world backend) : Prop := mkUntouched {
  un_trace : trace w' = trace w;
  un_disk : disk w' = disk w;
  un_streams : streams w' = streams w;
  un_lines : line_count w' = line_count w;
  un_errors : error_count w' = error_count w;
  un_net : net w' = net w;
  un_flushes : flushes w' = flushes w
}.

(** The cursor [get_logs] returns for an answer of the transport. *)
Definition page_cursor (logtype : EventType) (r : Py.res response) : Py.value :=
  match r with
  | Py.Raise _ => Py.VNone
  | Py.Ok resp =>
      if negb (status_code resp =? 200) then Py.VNone
      else
        match json resp with
        | Py.Raise _ => Py.VNone
        | Py.Ok resj =>
            match Py.contains "message" resj with
            | Py.Ok true => fst (scroll_and_msg logtype resj)
            | _ => Py.VNone
            end
        end
  end.

(** [served E lt sts ets b c cs]: asked for the window with cursor [c] in
    state [b], and then with each cursor it returned, the service returns
    the cursors [cs] one after the other. *)
Inductive served {backend : Type} (E : env backend) (lt : EventType) (sts ets : Z)
  : backend -> Py.value -> list Py.value -> Prop :=
| served_done (b : backend) (c : Py.value) : served E lt sts ets b c []
| served_page (b : backend) (c : Py.value) (r : Py.res response) (b' : backend)
              (cs : list Py.value) :
    post E b (get_api_url lt) (make_drpc_args sts ets c) = (r, b') ->
    served E lt sts ets b' (page_cursor lt r) cs ->
    served E lt sts ets b c (page_cursor lt r :: cs).

(** The answers that carry no cursor: a status other than 200, a body
    without [message], a user access mapping without [scroll_id], admin
    metadata without [scroll_id]. *)
Inductive no_cursor (lt : EventType) : Py.res response -> Prop :=
| no_cursor_status (resp : response) :
    status_code resp <> 200 -> no_cursor lt (Py.Ok resp)
| no_cursor_message (resp : response) (d : list (string * Py.value)) :
    json resp = Py.Ok (Py.VDict d) -> Py.assoc "message" d = None ->
    no_cursor lt (Py.Ok resp)
| no_cursor_access (resp : response) (d m : list (string * Py.value))
                   (x : Py.value) (r1 r2 : list Py.value) :
    lt = USER_ACCESS ->
    json resp = Py.Ok (Py.VDict d) ->
    Py.assoc "message" d = Some (Py.VList (Py.VList (x :: Py.VDict m :: r1) :: r2)) ->
    Py.assoc "scroll_id" m = None ->
    no_cursor lt (Py.Ok resp)
| no_cursor_admin (resp : response) (d m md : list (string * Py.value)) :
    lt = ADMIN ->
    json resp = Py.Ok (Py.VDict d) ->
    Py.assoc "message" d = Some (Py.VDict m) ->
    Py.assoc "metadata" m = Some (Py.VDict md) ->
    Py.assoc "scroll_id" md = None ->
    no_cursor lt (Py.Ok resp).

(** Record processing of an admin page raises: [msg.get('data')] cannot be
    iterated, or the handler of one item raises. *)
Definition admin_processing_raises {backend : Type} (E : env backend)
    (msg : Py.value) (out : sink) (w : world backend) : Prop :=
  match (data <- Py.get msg "data" ;; Py.iter data) with
  | Py.Raise _ => True
  | Py.Ok items => exists e, snd (admin_records E items out w) = Py.Raise e
  end.

(** [framed w w']: no window was opened and the stop flag was not touched. *)
Record framed {backend : Type} (w w' : world backend) : Prop := mkFramed {
  fr_windows : windows w' = windows w;
  fr_stop : stop_event w' = stop_event w
}.

(** The answers [get_logs] counts as an error: a page of status 200 whose
    body passes the test ['message' in resj] with the answer no. *)
Definition lacks_message (r : Py.res response) : bool :=
  match r with
  | Py.Raise _ => false
  | Py.Ok resp =>
      (status_code resp =? 200) &&
      match json resp with
      | Py.Ok resj =>
          match Py.contains "message" resj with
          | Py.Ok false => true
          | _ => false
          end
      | Py.Raise _ => false
      end
  end.

(** The calls that open and close the sink in a run started in [w]: a path
    that can be written is opened and closed, a stream other than
    [sys.stdout] is closed. *)
Definition opening {backend : Type} (t : target) (w : world backend) : list event :=
  match t with
  | TPath p => match disk w p with Denied => [] | _ => [EvOpen p] end
  | _ => []
  end.

Definition closing {backend : Type} (t : target) (w : world backend) : list event :=
  match t with
  | TPath p => match disk w p with Denied => [] | _ => [EvClose] end
  | TStream Stdout => []
  | TStream (Fd _) => [EvClose]
  | TOther => []
  end.

(** The lines a user access page yields, in the order of its items: the
    line of each item whose [try] block writes one. *)
Fixpoint access_lines {backend : Type} (E : env backend)
                      (items : list (string * Py.value)) : list string :=
  match items with
  | [] => []
  | (timestamp, response) :: rest =>
      match access_line E timestamp response with
      | Py.Ok (Some line) => line :: access_lines E rest
      | _ => access_lines E rest
      end
  end.

(** The lines an admin page yields: the line of each record, up to the
    first record whose handler raises. *)
Fixpoint admin_lines {backend : Type} (E : env backend)
                     (items : list Py.value) : list string :=
  match items with
  | [] => []
  | item :: rest =>
      match admin_line E item with
      | Py.Ok line => line :: admin_lines E rest
      | Py.Raise _ =>
          match Py.get item "splunk_line" with
          | Py.Ok _ => admin_lines E rest
          | Py.Raise _ => []
          end
      end
  end.

(** The answers [get_logs] gives up on before it looks for [message]: the
    transport raised, the status is not 200, or the body is no JSON. *)
Inductive unusable : Py.res response -> Prop :=
| unusable_transport (e : Py.exn) : unusable (Py.Raise e)
| unusable_status (resp : response) :
    status_code resp <> 200 -> unusable (Py.Ok resp)
| unusable_body (resp : response) (e : Py.exn) :
    json resp = Py.Raise e -> unusable (Py.Ok resp).

(** The window of cycle [j], start first, as [windows] records it. *)
Definition window_of {backend : Type} (E : env backend) (cfg : config) (j : nat)
  : Z * Z :=
  (snd (date_boundaries (now E j) cfg), fst (date_boundaries (now E j) cfg)).

(** What [out] is bound to in a run started in [w], and the world once it
    is bound. *)
Definition sink_of {backend : Type} (t : target) (w : world backend) : option sink :=
  match t with
  | TPath p => match disk w p with Denied => None | _ => Some (SPath p) end
  | TStream h => Some (SHandle h)
  | TOther => None
  end.

Definition prepared {backend : Type} (t : target) (w : world backend) : world backend :=
  match t with
  | TPath p =>
      match disk w p with
      | Denied => w
      | _ => log_event (EvOpen p) (set_file p (Regular EmptyString) w)
      end
  | _ => w
  end.

(** The fields of a request that do not change within a window. *)
Definition of_window (sts ets : Z) (a : drpc_args) : Prop :=
  arg_sts a = Py.decimal sts /\ arg_ets a = Py.decimal ets /\
  arg_metrics a = "logs" /\ arg_es_fields a = "flog" /\ arg_limit a = "1000" /\
  arg_sub_metrics a = "scroll" /\ arg_source a = SOURCE.

(** A trace in which a flush that fails, if there is one, is the last call. *)
Definition fault_is_last (evs : list event) : Prop :=
  forall before after, evs = (before ++ EvFlush false :: after)%list -> after = [].

(** ** Fixtures: a scripted service and sample pages *)

(** A service that answers the requests with the listed answers, in order,
    and fails once they are used up. *)
Definition scripted (b : list (Py.res response)) (_ : string) (_ : drpc_args)
  : Py.res response * list (Py.res response) :=
  match b with
  | [] => (Py.Raise Py.RequestException, [])
  | r :: b' => (r, b')
  end.

(** UTC, a clock that stands at 1700000100 s, no signal, no sink fault. *)
Definition quiet : env (list (Py.res response)) :=
  mkEnv scripted (fun _ => 0) (fun _ => 1700000100 # 1) (fun _ _ => false) (fun _ => false).

(** As [quiet], with a signal during the wait of the second cycle. *)
Definition interrupted : env (list (Py.res response)) :=
  mkEnv scripted (fun _ => 0) (fun _ => 1700000100 # 1)
        (fun i p => match i, p with 1%nat, InWait => true | _, _ => false end)
        (fun _ => false).

(** As [quiet], with a sink whose second flush fails. *)
Definition faulty : env (list (Py.res response)) :=
  mkEnv scripted (fun _ => 0) (fun _ => 1700000100 # 1) (fun _ _ => false)
        (fun n => Nat.eqb n 1).

(** As [quiet], with a sink on which every flush fails (a full device). *)
Definition full : env (list (Py.res response)) :=
  mkEnv scripted (fun _ => 0) (fun _ => 1700000100 # 1) (fun _ _ => false)
        (fun _ => true).

(** A fresh [EventLogAPI] object in front of the service [b]: the file
    [eaa.log] exists already, the streams are seekable and empty. *)
Definition fresh (b : list (Py.res response)) : world (list (Py.res response)) :=
  mkWorld b 0 0
          (fun p => if String.eqb p "eaa.log" then Regular "old content" else Absent)
          (fun _ => mkStream EmptyString 0 true)
          false 0 [] [].

Definition ok200 (body : Py.value) : Py.res response :=
  Py.Ok (mkResponse 200 (Py.Ok body)).

Definition access_message (m : list (string * Py.value)) : Py.value :=
  Py.VDict [("message", Py.VList [Py.VList [Py.VStr "logs"; Py.VDict m]])].

Definition admin_message (m : list (string * Py.value)) : Py.value :=
  Py.VDict [("message", Py.VDict m)].

Definition line_A : string * Py.value :=
  ("1700000000000", Py.VDict [("flog", Py.VStr "line-A")]).

(** Three user access pages with the cursors [c1], [c2] and none. *)
Definition page_c1 : Py.res response :=
  ok200 (access_message [("scroll_id", Py.VStr "c1"); line_A]).

Definition page_c2 : Py.res response :=
  ok200 (access_message [("scroll_id", Py.VStr "c2"); line_A]).

Definition page_last : Py.res response := ok200 (access_message [line_A]).

Definition three_pages : list (Py.res response) := [page_c1; page_c2; page_last].

(** The mapping of the specification's example, as the message itself. *)
Definition flat_page : Py.res response :=
  ok200 (Py.VDict [("message",
                    Py.VDict [("metadata", Py.VDict []); line_A])]).

(** The same mapping where [get_logs] looks for it. *)
Definition nested_page : Py.res response :=
  ok200 (access_message [("metadata", Py.VDict []); line_A]).

(** An admin page whose second record has no timestamp. *)
Definition record_B : Py.value :=
  Py.VDict [("ts", Py.VInt 1700000000000); ("splunk_line", Py.VStr "line-B")].

Definition record_C : Py.value :=
  Py.VDict [("splunk_line", Py.VStr "line-C")].

Definition record_D : Py.value :=
  Py.VDict [("ts", Py.VInt 1700000000000); ("splunk_line", Py.VStr "line-D")].

Definition admin_msg : list (string * Py.value) :=
  [("metadata", Py.VDict []); ("data", Py.VList [record_B; record_C; record_D])].

Definition admin_page : Py.res response := ok200 (admin_message admin_msg).

(** An admin page with a cursor and no [data]. *)
Definition no_data_msg : list (string * Py.value) :=
  [("metadata", Py.VDict [("scroll_id", Py.VStr "c1")])].

Definition admin_no_data : Py.res response := ok200 (admin_message no_data_msg).

Definition bounded (lt : string) (o : option target) : config :=
  mkConfig false None None false lt o.

Definition tailing (lt : string) (o : option target) : config :=
  mkConfig true None None false lt o.

(** A service that answers every request with an empty user access page,
    in an environment where a signal arrives during the wait of the second
    cycle. *)
Definition idle : env unit :=
  mkEnv (fun b _ _ => (ok200 (access_message []), b))
        (fun _ => 0) (fun _ => 1700000100 # 1)
        (fun i p => match i, p with 1%nat, InWait => true | _, _ => false end)
        (fun _ => false).

Definition idle_world : world unit :=
  mkWorld tt 0 0 (fun _ => Absent) (fun _ => mkStream EmptyString 0 true)
          false 0 [] [].

(** The first request of the window the clock of the fixtures gives. *)
Definition first_request : drpc_args :=
  make_drpc_args 1700000025000 1700000040000 Py.VNone.

(** ** Strings and traces *)

Lemma append_empty_r (s : string) : s ++ EmptyString = s.
Proof.
  induction s as [|c s IH]; simpl; [reflexivity | now rewrite IH].
Qed.

Lemma append_assoc (a b c : string) : (a ++ b) ++ c = a ++ (b ++ c).
Proof.
  induction a as [|x a IH]; simpl; [reflexivity | now rewrite IH].
Qed.

Lemma length_append (a b : string) :
  String.length (a ++ b) = (String.length a + String.length b)%nat.
Proof.
  induction a as [|x a IH]; simpl; [reflexivity | now rewrite IH].
Qed.

Lemma joined_app (a b : list string) : joined (a ++ b) = joined a ++ joined b.
Proof.
  induction a as [|x a IH]; simpl; [reflexivity |].
  unfold joined in *; simpl. now rewrite IH, append_assoc.
Qed.

Lemma writes_app (a b : list event) : writes (a ++ b) = (writes a ++ writes b)%list.
Proof.
  induction a as [|e a IH]; simpl; [reflexivity |].
  destruct e; simpl; now rewrite IH.
Qed.

Lemma posts_app (a b : list event) : posts (a ++ b) = (posts a ++ posts b)%list.
Proof.
  induction a as [|e a IH]; simpl; [reflexivity |].
  destruct e; simpl; now rewrite IH.
Qed.

Lemma writes_map_EvWrite (ls : list string) : writes (map EvWrite ls) = ls.
Proof.
  induction ls as [|l ls IH]; simpl; [reflexivity | now rewrite IH].
Qed.

Lemma posts_map_EvWrite (ls : list string) : posts (map EvWrite ls) = [].
Proof.
  induction ls as [|l ls IH]; simpl; [reflexivity | exact IH].
Qed.

Lemma paged_app (a b : list event) : paged a -> paged b -> paged (a ++ b).
Proof.
  induction 1 as [|x ls ok rest _ IH]; intros Hb; simpl; [exact Hb |].
  rewrite <- app_assoc. simpl. constructor. now apply IH.
Qed.

Lemma paged_one (a : drpc_args) (ls : list string) (ok : bool) :
  paged (EvPost a :: map EvWrite ls ++ [EvFlush ok]).
Proof.
  constructor. constructor.
Qed.

Lemma handle_eqb_refl (h : handle) : handle_eqb h h = true.
Proof.
  destruct h; simpl; [reflexivity | apply Nat.eqb_refl].
Qed.

(** ** The sink receives what is written, and nothing else *)

Ltac sink_step out :=
  constructor; destruct out; simpl;
  rewrite ?String.eqb_refl, ?handle_eqb_refl; simpl;
  rewrite ?append_empty_r, ?length_append;
  try reflexivity; try lia; auto.

Section Stepped.

Context {backend : Type}.
Notation world := (world backend).
Variable out : sink.

Lemma stepped_refl (w : world) : stepped out [] w w.
Proof.
  constructor; simpl.
  - now rewrite app_nil_r.
  - now rewrite append_empty_r.
  - lia.
  - reflexivity.
  - lia.
  - trivial.
Qed.

Lemma stepped_trans (a b : list event) (w w1 w2 : world) :
  stepped out a w w1 -> stepped out b w1 w2 -> stepped out (a ++ b) w w2.
Proof.
  intros [T1 C1 O1 K1 L1 R1] [T2 C2 O2 K2 L2 R2].
  constructor.
  - now rewrite T2, T1, app_assoc.
  - now rewrite C2, C1, writes_app, joined_app, append_assoc.
  - rewrite O2, O1, writes_app, joined_app, length_append. lia.
  - now rewrite K2.
  - rewrite L2, L1, writes_app, length_app. lia.
  - auto.
Qed.

Lemma stepped_emit (s : string) (w : world) :
  stepped out [EvWrite s] w (incr_line_count (write out s w)).
Proof.
  sink_step out.
Qed.

Lemma stepped_silent (e : event) (w : world) :
  writes [e] = [] -> stepped out [e] w (log_event e w).
Proof.
  intros He. constructor; rewrite ?He; destruct out; simpl;
    rewrite ?append_empty_r; try reflexivity; try lia; auto.
Qed.

Lemma stepped_then (evs : list event) (w w1 w2 : world) :
  stepped out evs w w1 -> untouched w1 w2 -> stepped out evs w w2.
Proof.
  intros [T C O K L R] [HT HD HS HL _ _ _].
  constructor; destruct out; simpl in *; rewrite ?HT, ?HD, ?HS, ?HL; assumption.
Qed.

Lemma stepped_from (evs : list event) (w0 w w1 : world) :
  untouched w0 w -> stepped out evs w w1 -> stepped out evs w0 w1.
Proof.
  intros [HT HD HS HL _ _ _] [T C O K L R].
  constructor; destruct out; simpl in *; rewrite <- ?HT, <- ?HD, <- ?HS, <- ?HL;
    assumption.
Qed.

End Stepped.

(** ** Effects of the loops of [get_logs] and [fetch_logs] *)

Section Effects.

Context {backend : Type} (E : env backend).
Notation world := (world backend).

Arguments flush : simpl never.
Arguments get_logs : simpl never.
Arguments date_boundaries : simpl never.

Lemma framed_refl (w : world) : framed w w.
Proof.
  now constructor.
Qed.

Lemma framed_trans (w w1 w2 : world) : framed w w1 -> framed w1 w2 -> framed w w2.
Proof.
  intros [A B] [C D]. constructor; congruence.
Qed.

Lemma framed_emit (out : sink) (s : string) (w : world) :
  framed w (incr_line_count (write out s w)).
Proof.
  constructor; destruct out; reflexivity.
Qed.

Lemma error_count_emit (out : sink) (s : string) (w : world) :
  error_count (incr_line_count (write out s w)) = error_count w.
Proof.
  destruct out; reflexivity.
Qed.

Lemma access_records_stepped (out : sink) (items : list (string * Py.value)) (w : world) :
  exists ls,
    stepped out (map EvWrite ls) w (access_records E items out w) /\
    framed w (access_records E items out w) /\
    error_count (access_records E items out w) = error_count w /\
    net (access_records E items out w) = net w.
Proof.
  revert w. induction items as [|[k v] items IH]; intros w; simpl.
  - exists []. split; [apply stepped_refl | split; [apply framed_refl | split; reflexivity]].
  - destruct (access_line E k v) as [[l|]|e]; try apply IH.
    destruct (IH (incr_line_count (write out l w))) as (ls & S & F & C & N).
    exists (l :: ls). split; [|split; [|split]].
    + change (map EvWrite (l :: ls)) with ([EvWrite l] ++ map EvWrite ls)%list.
      eapply stepped_trans; [apply stepped_emit | exact S].
    + eapply framed_trans; [apply framed_emit | exact F].
    + rewrite C. apply error_count_emit.
    + rewrite N. destruct out; reflexivity.
Qed.

Lemma admin_records_stepped (out : sink) (items : list Py.value) (w : world) :
  exists ls,
    stepped out (map EvWrite ls) w (fst (admin_records E items out w)) /\
    framed w (fst (admin_records E items out w)) /\
    error_count (fst (admin_records E items out w)) = error_count w /\
    net (fst (admin_records E items out w)) = net w.
Proof.
  revert w. induction items as [|item items IH]; intros w; simpl.
  - exists []. split; [apply stepped_refl | split; [apply framed_refl | split; reflexivity]].
  - destruct (admin_line E item) as [l|e].
    + destruct (IH (incr_line_count (write out l w))) as (ls & S & F & C & N).
      exists (l :: ls). split; [|split; [|split]].
      * change (map EvWrite (l :: ls)) with ([EvWrite l] ++ map EvWrite ls)%list.
        eapply stepped_trans; [apply stepped_emit | exact S].
      * eapply framed_trans; [apply framed_emit | exact F].
      * rewrite C. apply error_count_emit.
      * rewrite N. destruct out; reflexivity.
    + destruct (Py.get item "splunk_line"); [apply IH |].
      exists []. split; [apply stepped_refl | split; [apply framed_refl | split; reflexivity]].
Qed.

Lemma get_logs_stepped (args : drpc_args) (lt : EventType) (out : sink) (w : world) :
  exists ls,
    stepped out (EvPost args :: map EvWrite ls) w (fst (get_logs E args lt out w)) /\
    framed w (fst (get_logs E args lt out w)).
Proof.
  unfold get_logs. destruct (post E (net w) (get_api_url lt) args) as [r b].
  set (w0 := log_event (EvPost args) (set_net b w)).
  assert (S0 : stepped out [EvPost args] w w0).
  { sink_step out. }
  assert (F0 : framed w w0) by (constructor; reflexivity).
  assert (base : exists ls, stepped out (EvPost args :: map EvWrite ls) w w0 /\ framed w w0).
  { exists []. split; assumption. }
  assert (base_err : exists ls, stepped out (EvPost args :: map EvWrite ls) w (incr_error_count w0)
                                /\ framed w (incr_error_count w0)).
  { exists []. split; [| constructor; reflexivity]. sink_step out. }
  destruct r as [resp|e]; [| exact base].
  destruct (negb (status_code resp =? 200)); [exact base |].
  destruct (json resp) as [resj|]; [| exact base].
  destruct (Py.contains "message" resj) as [[|]|]; [| exact base_err | exact base].
  destruct (scroll_and_msg lt resj) as [sid [msg|]]; [| exact base].
  destruct lt.
  - destruct (Py.iteritems msg) as [items|]; [| exact base]. simpl fst.
    destruct (access_records_stepped out items w0) as (ls & S & F & _).
    exists ls. split; [| eapply framed_trans; eassumption].
    change (EvPost args :: map EvWrite ls) with ([EvPost args] ++ map EvWrite ls)%list.
    eapply stepped_trans; eassumption.
  - destruct (data <- Py.get msg "data" ;; Py.iter data) as [items|]; [| exact base].
    simpl fst.
    destruct (admin_records_stepped out items w0) as (ls & S & F & _).
    exists ls. split; [| eapply framed_trans; eassumption].
    change (EvPost args :: map EvWrite ls) with ([EvPost args] ++ map EvWrite ls)%list.
    eapply stepped_trans; eassumption.
Qed.

(** The error counter counts the pages without [message], and nothing else. *)
Lemma get_logs_error_count (args : drpc_args) (lt : EventType) (out : sink) (w : world) :
  error_count (fst (get_logs E args lt out w)) =
  error_count w +
  (if lacks_message (fst (post E (net w) (get_api_url lt) args)) then 1 else 0).
Proof.
  unfold get_logs, lacks_message.
  destruct (post E (net w) (get_api_url lt) args) as [r b]. simpl fst.
  set (w0 := log_event (EvPost args) (set_net b w)).
  assert (H0 : error_count w0 = error_count w) by reflexivity.
  destruct r as [resp|e]; [| simpl; lia].
  destruct (status_code resp =? 200); simpl; [| lia].
  destruct (json resp) as [resj|]; [| simpl; lia].
  destruct (Py.contains "message" resj) as [[|]|]; [| simpl; lia | simpl; lia].
  destruct (scroll_and_msg lt resj) as [sid [msg|]]; [| simpl; lia].
  destruct lt.
  - destruct (Py.iteritems msg) as [items|]; [| simpl; lia]. simpl fst.
    destruct (access_records_stepped out items w0) as (_ & _ & _ & C & _). lia.
  - destruct (data <- Py.get msg "data" ;; Py.iter data) as [items|]; [| simpl; lia].
    simpl fst.
    destruct (admin_records_stepped out items w0) as (_ & _ & _ & C & _). lia.
Qed.

(** The cursor depends on the answer only. *)
Lemma get_logs_cursor (args : drpc_args) (lt : EventType) (out : sink) (w : world) :
  snd (get_logs E args lt out w) =
  page_cursor lt (fst (post E (net w) (get_api_url lt) args)).
Proof.
  unfold get_logs, page_cursor.
  destruct (post E (net w) (get_api_url lt) args) as [r b]. simpl fst.
  destruct r as [resp|e]; [| reflexivity].
  destruct (negb (status_code resp =? 200)); [reflexivity |].
  destruct (json resp) as [resj|]; [| reflexivity].
  destruct (Py.contains "message" resj) as [[|]|]; try reflexivity.
  destruct (scroll_and_msg lt resj) as [sid [msg|]]; [| reflexivity].
  destruct lt.
  - destruct (Py.iteritems msg); reflexivity.
  - destruct (data <- Py.get msg "data" ;; Py.iter data); reflexivity.
Qed.

Lemma get_logs_net (args : drpc_args) (lt : EventType) (out : sink) (w : world) :
  net (fst (get_logs E args lt out w)) = snd (post E (net w) (get_api_url lt) args).
Proof.
  unfold get_logs.
  destruct (post E (net w) (get_api_url lt) args) as [r b]. simpl snd.
  destruct r as [resp|e]; [| reflexivity].
  destruct (negb (status_code resp =? 200)); [reflexivity |].
  destruct (json resp) as [resj|]; [| reflexivity].
  destruct (Py.contains "message" resj) as [[|]|]; try reflexivity.
  destruct (scroll_and_msg lt resj) as [sid [msg|]]; [| reflexivity].
  destruct lt.
  - destruct (Py.iteritems msg) as [items|]; [| reflexivity]. simpl fst.
    now destruct (access_records_stepped out items
                    (log_event (EvPost args) (set_net b w))) as (_ & _ & _ & _ & N).
  - destruct (data <- Py.get msg "data" ;; Py.iter data) as [items|]; [| reflexivity].
    simpl fst.
    now destruct (admin_records_stepped out items
                    (log_event (EvPost args) (set_net b w))) as (_ & _ & _ & _ & N).
Qed.

Lemma flush_stepped (out : sink) (w : world) :
  exists ok,
    stepped out [EvFlush ok] w (fst (flush E out w)) /\
    framed w (fst (flush E out w)) /\
    net (fst (flush E out w)) = net w /\
    error_count (fst (flush E out w)) = error_count w /\
    snd (flush E out w) = (if ok then Py.Ok tt else Py.Raise Py.OSError).
Proof.
  unfold flush. exists (negb (flush_raises E (flushes w))). simpl.
  split; [| split; [constructor; reflexivity | repeat split; reflexivity]].
  sink_step out.
Qed.

Lemma is_None_false (c : Py.value) : c <> Py.VNone -> Py.is_None c = false.
Proof.
  destruct c; simpl; congruence.
Qed.

Lemma is_None_true (c : Py.value) : Py.is_None c = true -> c = Py.VNone.
Proof.
  destruct c; simpl; congruence.
Qed.

Lemma drain_S (fuel : nat) (lt : EventType) (sts ets : Z) (out : sink)
              (sid : Py.value) (w : world) :
  drain E (S fuel) lt sts ets out sid w =
  let (w1, sid') := get_logs E (make_drpc_args sts ets sid) lt out w in
  match flush E out w1 with
  | (w2, Py.Raise e) => (w2, Exc e)
  | (w2, Py.Ok _) =>
      if Py.is_None sid' then (w2, Ret tt)
      else drain E fuel lt sts ets out sid' w2
  end.
Proof.
  reflexivity.
Qed.

Lemma drain_stepped (fuel : nat) (lt : EventType) (sts ets : Z) (out : sink)
                    (sid : Py.value) (w : world) :
  exists evs,
    paged evs /\
    stepped out evs w (fst (drain E fuel lt sts ets out sid w)) /\
    framed w (fst (drain E fuel lt sts ets out sid w)).
Proof.
  revert sid w. induction fuel as [|fuel IH]; intros sid w.
  - exists []. split; [constructor | split; [apply stepped_refl | apply framed_refl]].
  - rewrite drain_S.
    pose proof (get_logs_stepped (make_drpc_args sts ets sid) lt out w) as (ls & S1 & F1).
    destruct (get_logs E (make_drpc_args sts ets sid) lt out w) as [w1 sid'].
    simpl in S1, F1.
    pose proof (flush_stepped out w1) as (ok & S2 & F2 & _ & _ & _).
    destruct (flush E out w1) as [w2 r]. simpl in S2, F2.
    assert (P : stepped out (EvPost (make_drpc_args sts ets sid)
                               :: map EvWrite ls ++ [EvFlush ok]) w w2).
    { change (EvPost (make_drpc_args sts ets sid) :: map EvWrite ls ++ [EvFlush ok])
        with ((EvPost (make_drpc_args sts ets sid) :: map EvWrite ls) ++ [EvFlush ok])%list.
      eapply stepped_trans; eassumption. }
    assert (F : framed w w2) by (eapply framed_trans; eassumption).
    assert (stop : exists evs, paged evs /\ stepped out evs w w2 /\ framed w w2).
    { eexists. split; [apply paged_one | split; eassumption]. }
    destruct r as [u|e]; [| exact stop].
    destruct (Py.is_None sid'); [exact stop |].
    destruct (IH sid' w2) as (evs & Pg & S3 & F3).
    eexists. split; [| split].
    + apply paged_app; [apply paged_one | exact Pg].
    + eapply stepped_trans; eassumption.
    + eapply framed_trans; eassumption.
Qed.

Lemma posts_page (a : drpc_args) (ls : list string) (ok : bool) :
  posts (EvPost a :: map EvWrite ls ++ [EvFlush ok]) = [a].
Proof.
  simpl. now rewrite posts_app, posts_map_EvWrite.
Qed.

(** One turn of the inner loop when the sink does not fail. *)
Lemma drain_turn (fuel : nat) (lt : EventType) (sts ets : Z) (out : sink)
                 (sid : Py.value) (w : world) :
  flush_raises E (flushes (fst (get_logs E (make_drpc_args sts ets sid) lt out w))) = false ->
  exists w2,
    drain E (S fuel) lt sts ets out sid w =
      (if Py.is_None (page_cursor lt (fst (post E (net w) (get_api_url lt)
                                                (make_drpc_args sts ets sid))))
       then (w2, Ret tt)
       else drain E fuel lt sts ets out
                  (page_cursor lt (fst (post E (net w) (get_api_url lt)
                                             (make_drpc_args sts ets sid)))) w2) /\
    net w2 = snd (post E (net w) (get_api_url lt) (make_drpc_args sts ets sid)) /\
    posts (trace w2) = (posts (trace w) ++ [make_drpc_args sts ets sid])%list.
Proof.
  intros NoFault. rewrite drain_S.
  pose proof (get_logs_stepped (make_drpc_args sts ets sid) lt out w) as (ls & S1 & _).
  pose proof (get_logs_cursor (make_drpc_args sts ets sid) lt out w) as C.
  pose proof (get_logs_net (make_drpc_args sts ets sid) lt out w) as N.
  destruct (get_logs E (make_drpc_args sts ets sid) lt out w) as [w1 sid'].
  simpl in S1, C, N, NoFault. subst sid'.
  unfold flush. rewrite NoFault. simpl.
  eexists. split; [reflexivity | split].
  - simpl. exact N.
  - simpl. rewrite (st_trace _ _ _ _ S1).
    rewrite !posts_app. simpl. now rewrite posts_map_EvWrite, app_nil_r.
Qed.

Lemma untouched_refl (w : world) : untouched w w.
Proof.
  now constructor.
Qed.

Lemma untouched_trans (w w1 w2 : world) :
  untouched w w1 -> untouched w1 w2 -> untouched w w2.
Proof.
  intros [] []. constructor; congruence.
Qed.

Lemma untouched_deliver (i : nat) (p : phase) (w : world) : untouched w (deliver E i p w).
Proof.
  unfold deliver. destruct (signal E i p); now constructor.
Qed.

Lemma untouched_wait (i : nat) (w : world) : untouched w (Event_wait E i w).
Proof.
  unfold Event_wait. destruct (stop_event w);
    [apply untouched_refl | apply untouched_deliver].
Qed.

Lemma untouched_push (sts ets : Z) (w : world) : untouched w (push_window sts ets w).
Proof.
  now constructor.
Qed.

Lemma untouched_cycle (i : nat) (w : world) :
  untouched w (deliver E i AfterWait (Event_wait E i (deliver E i BeforeWait w))).
Proof.
  eapply untouched_trans; [| apply untouched_deliver].
  eapply untouched_trans; [| apply untouched_wait].
  apply untouched_deliver.
Qed.

Lemma windows_deliver (i : nat) (p : phase) (w : world) :
  windows (deliver E i p w) = windows w.
Proof.
  unfold deliver. now destruct (signal E i p).
Qed.

Lemma windows_wait (i : nat) (w : world) : windows (Event_wait E i w) = windows w.
Proof.
  unfold Event_wait. destruct (stop_event w); [reflexivity | apply windows_deliver].
Qed.

(** The flag only goes up. *)
Lemma stop_deliver (i : nat) (p : phase) (w : world) :
  stop_event w = true -> stop_event (deliver E i p w) = true.
Proof.
  unfold deliver. now destruct (signal E i p).
Qed.

Lemma stop_delivered (i : nat) (p : phase) (w : world) :
  signal E i p = true -> stop_event (deliver E i p w) = true.
Proof.
  unfold deliver. intros ->. reflexivity.
Qed.

Lemma stop_wait (i : nat) (w : world) :
  stop_event w = true -> stop_event (Event_wait E i w) = true.
Proof.
  unfold Event_wait. intros H. rewrite H. exact H.
Qed.

Lemma stop_waited (i : nat) (w : world) :
  signal E i InWait = true -> stop_event (Event_wait E i w) = true.
Proof.
  unfold Event_wait. intros H.
  destruct (stop_event w) eqn:S; [exact S | now apply stop_delivered].
Qed.

(** A signal at any point of cycle [i] is seen by the test that ends it. *)
Lemma stop_after_cycle (i : nat) (p : phase) (w : world) :
  signal E i p = true ->
  stop_event (deliver E i AfterWait
                (Event_wait E i (deliver E i BeforeWait (deliver E i InFetch w)))) = true.
Proof.
  intros H. destruct p.
  - apply stop_deliver, stop_wait, stop_deliver, stop_delivered, H.
  - apply stop_deliver, stop_wait, stop_delivered, H.
  - apply stop_deliver, stop_waited, H.
  - apply stop_delivered, H.
Qed.

Lemma poll_S (fuel i : nat) (cfg : config) (lt : EventType) (out : sink)
             (sp : Z) (w : world) :
  poll E (S fuel) i cfg lt out sp w =
  let (ets, sts) := date_boundaries (now E i) cfg in
  match drain E fuel lt sts ets out Py.VNone (push_window sts ets w) with
  | (w1, Diverge) => (w1, Diverge)
  | (w1, Exc e) => (w1, Exc e)
  | (w1, Ret _) =>
      let w2 := deliver E i InFetch w1 in
      if negb (tail cfg) then
        if negb (batch cfg) then
          match tell out w2 with
          | Py.Raise e => (w2, Exc e)
          | Py.Ok pos =>
              (w2, Ret (Some (mkSummary sts ets (line_count w2) (error_count w2)
                                        (pos - sp))))
          end
        else (w2, Ret None)
      else
        let w3 := deliver E i AfterWait (Event_wait E i (deliver E i BeforeWait w2)) in
        if stop_event w3 then (w3, Ret None)
        else poll E fuel (S i) cfg lt out sp w3
  end.
Proof.
  reflexivity.
Qed.

Lemma poll_stepped (fuel i : nat) (cfg : config) (lt : EventType) (out : sink)
                   (sp : Z) (w : world) :
  exists evs, paged evs /\ stepped out evs w (fst (poll E fuel i cfg lt out sp w)).
Proof.
  revert i w. induction fuel as [|fuel IH]; intros i w.
  - exists []. split; [constructor | apply stepped_refl].
  - rewrite poll_S. destruct (date_boundaries (now E i) cfg) as [ets sts].
    destruct (drain_stepped fuel lt sts ets out Py.VNone (push_window sts ets w))
      as (evs & Pg & S1 & _).
    apply (stepped_from out evs w) in S1; [| apply untouched_push].
    destruct (drain E fuel lt sts ets out Py.VNone (push_window sts ets w)) as [w1 o].
    simpl in S1.
    destruct o as [u|e|]; [| exists evs; now split | exists evs; now split].
    cbv zeta.
    assert (S2 : stepped out evs w (deliver E i InFetch w1)).
    { eapply stepped_then; [exact S1 | apply untouched_deliver]. }
    destruct (negb (tail cfg)).
    + destruct (negb (batch cfg)); [destruct (tell out _) |]; exists evs; now split.
    + assert (S3 : stepped out evs w
                     (deliver E i AfterWait
                        (Event_wait E i (deliver E i BeforeWait (deliver E i InFetch w1))))).
      { eapply stepped_then; [exact S2 | apply untouched_cycle]. }
      destruct (stop_event _); [exists evs; now split |].
      destruct (IH (S i) (deliver E i AfterWait
                            (Event_wait E i (deliver E i BeforeWait (deliver E i InFetch w1)))))
        as (evs' & Pg' & S4).
      exists (evs ++ evs')%list. split; [now apply paged_app |].
      eapply stepped_trans; eassumption.
Qed.

(** What the summary of a bounded run shows. *)
Lemma poll_summary (fuel i : nat) (cfg : config) (lt : EventType) (out : sink)
                   (sp : Z) (w : world) (s : summary) :
  snd (poll E fuel i cfg lt out sp w) = Ret (Some s) ->
  tell out (fst (poll E fuel i cfg lt out sp w)) = Py.Ok (sum_bytes s + sp) /\
  sum_events s = line_count (fst (poll E fuel i cfg lt out sp w)) /\
  sum_errors s = error_count (fst (poll E fuel i cfg lt out sp w)) /\
  tail cfg = false /\ batch cfg = false.
Proof.
  revert i w. induction fuel as [|fuel IH]; intros i w; [discriminate |].
  rewrite poll_S. destruct (date_boundaries (now E i) cfg) as [ets sts].
  destruct (drain E fuel lt sts ets out Py.VNone (push_window sts ets w)) as [w1 o].
  destruct o as [u|e|]; try discriminate.
  cbv zeta. destruct (tail cfg); simpl negb; cbv iota.
  - destruct (stop_event _); [discriminate | apply IH].
  - destruct (batch cfg); simpl negb; cbv iota; [discriminate |].
    destruct (tell out (deliver E i InFetch w1)) as [pos|e] eqn:T; [| discriminate].
    simpl. intros [= <-]. simpl. rewrite T.
    repeat split. f_equal. lia.
Qed.

(** No window is opened after the cycle in which a signal arrives. *)
Lemma poll_windows (fuel i : nat) (cfg : config) (lt : EventType) (out : sink)
                   (sp : Z) (w : world) (i' : nat) (p : phase) :
  tail cfg = true -> signal E i' p = true -> (i <= i')%nat ->
  (List.length (windows (fst (poll E fuel i cfg lt out sp w)))
   <= List.length (windows w) + (i' - i + 1))%nat.
Proof.
  intros Tail Sig. revert i w. induction fuel as [|fuel IH]; intros i w Le.
  - simpl. lia.
  - rewrite poll_S. destruct (date_boundaries (now E i) cfg) as [ets sts].
    destruct (drain_stepped fuel lt sts ets out Py.VNone (push_window sts ets w))
      as (evs & _ & _ & [W _]).
    destruct (drain E fuel lt sts ets out Py.VNone (push_window sts ets w)) as [w1 o].
    simpl in W. unfold push_window in W. simpl in W.
    assert (L1 : List.length (windows w1) = S (List.length (windows w))).
    { rewrite W, length_app. simpl. lia. }
    destruct o as [u|e|]; simpl fst; try lia.
    cbv zeta. rewrite Tail. simpl negb. cbv iota.
    destruct (stop_event _) eqn:Stop.
    + simpl. rewrite windows_deliver, windows_wait, !windows_deliver. lia.
    + assert (i <> i').
      { intros ->. rewrite (stop_after_cycle i' p w1 Sig) in Stop. discriminate. }
      etransitivity; [apply IH; lia |].
      rewrite windows_deliver, windows_wait, !windows_deliver. lia.
Qed.

End Effects.

(** ** Time windows *)

(** C5, as amended: without overrides the window ends one minute before
    the clock reading cut to whole seconds and is fifteen seconds long; in
    bounded mode an end or start override other than zero is used as given,
    in milliseconds; without a start override the window is fifteen seconds
    long whatever its end. *)
Theorem window_bounds (now : Q) (cfg : config) :
  (start cfg = None -> end_ cfg = None ->
   date_boundaries now cfg
   = (Qfloor now * 1000 - 60000, Qfloor now * 1000 - 60000 - 15000)) /\
  (tail cfg = false -> forall e, end_ cfg = Some e -> e <> 0 ->
   fst (date_boundaries now cfg) = e * 1000) /\
  (tail cfg = false -> forall s, start cfg = Some s -> s <> 0 ->
   snd (date_boundaries now cfg) = s * 1000) /\
  (start cfg = None ->
   snd (date_boundaries now cfg) = fst (date_boundaries now cfg) - 15000).
Proof.
  unfold date_boundaries, COLLECTION_DELAY_MINUTES, PULL_INTERVAL_SEC.
  repeat split.
  - intros -> ->. rewrite !andb_false_r. simpl. f_equal; lia.
  - intros -> e -> He. simpl. apply Z.eqb_neq in He. now rewrite He.
  - intros -> s -> Hs. simpl. apply Z.eqb_neq in Hs. now rewrite Hs.
  - intros ->. rewrite andb_false_r. simpl. lia.
Qed.

(** C9: an override of zero is taken for an absent one, so in bounded mode
    the rolling window is used. *)
Theorem zero_override_is_absent (now : Q) (tl b : bool) (s e : option Z)
                                (lt : string) (o : option target) :
  date_boundaries now (mkConfig tl s (Some 0) b lt o)
  = date_boundaries now (mkConfig tl s None b lt o) /\
  date_boundaries now (mkConfig tl (Some 0) e b lt o)
  = date_boundaries now (mkConfig tl None e b lt o) /\
  date_boundaries now (mkConfig false (Some 0) (Some 0) b lt o)
  = (Qfloor now * 1000 - 60000, Qfloor now * 1000 - 60000 - 15000).
Proof.
  unfold date_boundaries, COLLECTION_DELAY_MINUTES, PULL_INTERVAL_SEC. simpl.
  rewrite !andb_false_r. repeat split.
Qed.

(** ** One page: [get_logs] *)

Section Pages.

Context {backend : Type} (E : env backend).
Notation world := (world backend).

Arguments flush : simpl never.
Arguments get_logs : simpl never.

(** The instant 1700000000 s falls on a day of November 2023 in every zone. *)
Lemma november_2023 (off : Z -> Z) :
  -86400 < off 1700000000 < 86400 ->
  exists day, Date.fromtimestamp off 1700000000 = Py.Ok day /\
              Date.year day = 2023 /\ Date.month day = 11 /\ 13 <= Date.day day <= 15.
Proof.
  intros H. unfold Date.fromtimestamp.
  assert (D : (1700000000 + off 1700000000) / 86400 = 19674 \/
              (1700000000 + off 1700000000) / 86400 = 19675 \/
              (1700000000 + off 1700000000) / 86400 = 19676).
  { pose proof (Z.div_mod (1700000000 + off 1700000000) 86400 ltac:(lia)) as DM.
    pose proof (Z.mod_pos_bound (1700000000 + off 1700000000) 86400 ltac:(lia)) as B.
    lia. }
  destruct D as [-> | [-> | ->]]; eexists; (split; [reflexivity |]);
    vm_compute; repeat split; discriminate.
Qed.

(** Where [get_logs] finds the mapping of a user access page. *)
Lemma scroll_and_msg_access (d m : list (string * Py.value)) (x : Py.value)
                            (r1 r2 : list Py.value) :
  Py.assoc "message" d = Some (Py.VList (Py.VList (x :: Py.VDict m :: r1) :: r2)) ->
  scroll_and_msg USER_ACCESS (Py.VDict d)
  = (match Py.assoc "scroll_id" m with Some c => c | None => Py.VNone end,
     Py.Ok (Py.VDict m)).
Proof.
  intros H. unfold scroll_and_msg. simpl. rewrite H. reflexivity.
Qed.

Lemma scroll_and_msg_admin (d m md : list (string * Py.value)) :
  Py.assoc "message" d = Some (Py.VDict m) ->
  Py.assoc "metadata" m = Some (Py.VDict md) ->
  scroll_and_msg ADMIN (Py.VDict d)
  = (match Py.assoc "scroll_id" md with Some c => c | None => Py.VNone end,
     Py.Ok (Py.VDict m)).
Proof.
  intros H M. unfold scroll_and_msg. simpl. rewrite H. simpl. rewrite M. simpl.
  destruct (Py.assoc "scroll_id" md); reflexivity.
Qed.

Lemma contains_message (d : list (string * Py.value)) (v : Py.value) :
  Py.assoc "message" d = Some v -> Py.contains "message" (Py.VDict d) = Py.Ok true.
Proof.
  intros H. simpl. now rewrite H.
Qed.

(** A user access page whose mapping was found: its items are processed. *)
Lemma get_logs_access_page (args : drpc_args) (out : sink) (w : world)
    (resp : response) (b : backend) (resj sid : Py.value)
    (items : list (string * Py.value)) :
  post E (net w) (get_api_url USER_ACCESS) args = (Py.Ok resp, b) ->
  status_code resp = 200 ->
  json resp = Py.Ok resj ->
  Py.contains "message" resj = Py.Ok true ->
  scroll_and_msg USER_ACCESS resj = (sid, Py.Ok (Py.VDict items)) ->
  get_logs E args USER_ACCESS out w
  = (access_records E items out (log_event (EvPost args) (set_net b w)), sid).
Proof.
  intros HP HS HJ HC HM. unfold get_logs. rewrite HP, HS, HJ, HC, HM. reflexivity.
Qed.

(** An admin page whose message was found: the elements of [data] are
    processed, and what the loop raises is dropped. *)
Lemma get_logs_admin_page (args : drpc_args) (out : sink) (w : world)
    (resp : response) (b : backend) (resj sid msg : Py.value) :
  post E (net w) (get_api_url ADMIN) args = (Py.Ok resp, b) ->
  status_code resp = 200 ->
  json resp = Py.Ok resj ->
  Py.contains "message" resj = Py.Ok true ->
  scroll_and_msg ADMIN resj = (sid, Py.Ok msg) ->
  get_logs E args ADMIN out w
  = (match (data <- Py.get msg "data" ;; Py.iter data) with
     | Py.Raise _ => log_event (EvPost args) (set_net b w)
     | Py.Ok items =>
         fst (admin_records E items out (log_event (EvPost args) (set_net b w)))
     end, sid).
Proof.
  intros HP HS HJ HC HM. unfold get_logs. rewrite HP, HS, HJ, HC, HM.
  cbn [negb Z.eqb Pos.eqb].
  destruct (data <- Py.get msg "data" ;; Py.iter data); reflexivity.
Qed.

(** C3, as amended: when the mapping of the example is the second component
    of the first element of the message, [get_logs] writes exactly one
    line, the ISO date of 1700000000 s in the local zone followed by a space
    and [line-A]; the key [metadata] is passed over and no error is
    counted. *)
Theorem nested_mapping_yields_one_line
    (args : drpc_args) (out : sink) (w : world) (resp : response) (b : backend)
    (d : list (string * Py.value)) (x md : Py.value) (r1 r2 : list Py.value) :
  post E (net w) (get_api_url USER_ACCESS) args = (Py.Ok resp, b) ->
  status_code resp = 200 ->
  json resp = Py.Ok (Py.VDict d) ->
  Py.assoc "message" d
  = Some (Py.VList
            (Py.VList (x :: Py.VDict [("metadata", md);
                                      ("1700000000000",
                                       Py.VDict [("flog", Py.VStr "line-A")])] :: r1)
             :: r2)) ->
  -86400 < utcoffset E 1700000000 < 86400 ->
  exists day,
    Date.fromtimestamp (utcoffset E) 1700000000 = Py.Ok day /\
    trace (fst (get_logs E args USER_ACCESS out w))
    = (trace w ++ [EvPost args; EvWrite (Date.isoformat day ++ " line-A" ++ Py.nl)])%list /\
    line_count (fst (get_logs E args USER_ACCESS out w)) = line_count w + 1 /\
    error_count (fst (get_logs E args USER_ACCESS out w)) = error_count w.
Proof.
  intros HP HS HJ HM HO.
  destruct (november_2023 (utcoffset E) HO) as (day & HD & _).
  exists day. split; [exact HD |].
  rewrite (get_logs_access_page args out w resp b _ _ _ HP HS HJ
             (contains_message _ _ HM) (scroll_and_msg_access _ _ _ _ _ HM)).
  assert (L1 : access_line E "metadata" md = Py.Ok None) by reflexivity.
  assert (L2 : access_line E "1700000000000" (Py.VDict [("flog", Py.VStr "line-A")])
               = Py.Ok (Some (Date.isoformat day ++ " line-A" ++ Py.nl))).
  { unfold access_line.
    change (Py.isdigit "1700000000000") with true.
    change (Py.int "1700000000000" / 1000) with 1700000000.
    cbn [negb]. rewrite HD. reflexivity. }
  cbn [access_records]. rewrite L1, L2. cbn [fst].
  destruct out; simpl; rewrite <- app_assoc; repeat split.
Qed.


Lemma access_records_app (a b : list (string * Py.value)) (out : sink) (w : world) :
  access_records E (a ++ b) out w = access_records E b out (access_records E a out w).
Proof.
  revert w. induction a as [|[k v] a IH]; intros w; simpl; [reflexivity | apply IH].
Qed.

Lemma admin_records_app (a b : list Py.value) (out : sink) (w : world) :
  snd (admin_records E a out w) = Py.Ok tt ->
  admin_records E (a ++ b) out w = admin_records E b out (fst (admin_records E a out w)).
Proof.
  revert w. induction a as [|item a IH]; intros w H; simpl in *; [reflexivity |].
  destruct (admin_line E item); [now apply IH |].
  destruct (Py.get item "splunk_line"); [now apply IH | discriminate].
Qed.

(** Among mappings the admin loop reaches its end. *)
Lemma admin_records_mappings (items : list Py.value) (out : sink) (w : world) :
  Forall (fun r => Py.is_dict r = true) items ->
  snd (admin_records E items out w) = Py.Ok tt.
Proof.
  intros H. revert w. induction H as [|item items D _ IH]; intros w; simpl;
    [reflexivity |].
  destruct (admin_line E item); [apply IH |].
  destruct item; try discriminate D. simpl. apply IH.
Qed.

(** C1, as amended: a record whose [try] block raises is passed over, the
    error counter stays as it was, and the records after it are processed
    as if they followed the records before it; on an admin page this holds
    when the record and those before it are mappings. *)
Theorem record_failure_is_skipped
    (args : drpc_args) (out : sink) (w : world) (resp : response) (b : backend)
    (resj sid : Py.value) :
  status_code resp = 200 ->
  json resp = Py.Ok resj ->
  Py.contains "message" resj = Py.Ok true ->
  (forall pre k v rest e,
      post E (net w) (get_api_url USER_ACCESS) args = (Py.Ok resp, b) ->
      scroll_and_msg USER_ACCESS resj = (sid, Py.Ok (Py.VDict (pre ++ (k, v) :: rest))) ->
      access_line E k v = Py.Raise e ->
      get_logs E args USER_ACCESS out w
      = (access_records E rest out
           (access_records E pre out (log_event (EvPost args) (set_net b w))), sid) /\
      error_count (fst (get_logs E args USER_ACCESS out w)) = error_count w) /\
  (forall msg pre item rest e,
      post E (net w) (get_api_url ADMIN) args = (Py.Ok resp, b) ->
      scroll_and_msg ADMIN resj = (sid, Py.Ok msg) ->
      Py.get msg "data" = Py.Ok (Py.VList (pre ++ item :: rest)) ->
      Forall (fun r => Py.is_dict r = true) (pre ++ [item]) ->
      admin_line E item = Py.Raise e ->
      get_logs E args ADMIN out w
      = (fst (admin_records E rest out
                (fst (admin_records E pre out (log_event (EvPost args) (set_net b w))))),
         sid) /\
      error_count (fst (get_logs E args ADMIN out w)) = error_count w).
Proof.
  intros HS HJ HC. split.
  - intros pre k v rest e HP HM HL. split.
    + rewrite (get_logs_access_page args out w resp b resj sid _ HP HS HJ HC HM).
      rewrite access_records_app. simpl. now rewrite HL.
    + rewrite get_logs_error_count, HP. unfold lacks_message. simpl.
      rewrite HJ, HC, andb_false_r. lia.
  - intros msg pre item rest e HP HM HD HF HL. split.
    + rewrite (get_logs_admin_page args out w resp b resj sid msg HP HS HJ HC HM).
      rewrite HD. cbn [Py.bind Py.iter].
      apply Forall_app in HF. destruct HF as [Fpre Fitem].
      rewrite admin_records_app by now apply admin_records_mappings.
      simpl. rewrite HL.
      inversion Fitem as [|? ? D _]; subst.
      destruct item; try discriminate D. reflexivity.
    + rewrite get_logs_error_count, HP. unfold lacks_message. simpl.
      rewrite HJ, HC, andb_false_r. lia.
Qed.

Lemma page_cursor_found (lt : EventType) (resp : response) (resj : Py.value) :
  status_code resp = 200 ->
  json resp = Py.Ok resj ->
  Py.contains "message" resj = Py.Ok true ->
  page_cursor lt (Py.Ok resp) = fst (scroll_and_msg lt resj).
Proof.
  intros HS HJ HC. unfold page_cursor. now rewrite HS, HJ, HC.
Qed.

Lemma drain_first_post (fuel : nat) (lt : EventType) (sts ets : Z) (out : sink)
                       (sid : Py.value) (w : world) :
  In (EvPost (make_drpc_args sts ets sid))
     (trace (fst (drain E (S fuel) lt sts ets out sid w))).
Proof.
  rewrite drain_S.
  destruct (get_logs_stepped E (make_drpc_args sts ets sid) lt out w) as (ls & S1 & _).
  destruct (get_logs E (make_drpc_args sts ets sid) lt out w) as [w1 sid'].
  simpl in S1.
  destruct (flush_stepped E out w1) as (ok & S2 & _).
  destruct (flush E out w1) as [w2 r]. simpl in S2.
  assert (H : In (EvPost (make_drpc_args sts ets sid)) (trace w2)).
  { rewrite (st_trace _ _ _ _ S2), (st_trace _ _ _ _ S1).
    apply in_or_app. left. apply in_or_app. right. now left. }
  destruct r as [u|e]; [| exact H].
  destruct (Py.is_None sid'); [exact H |].
  destruct (drain_stepped E fuel lt sts ets out sid' w2) as (evs & _ & S3 & _).
  rewrite (st_trace _ _ _ _ S3). apply in_or_app. now left.
Qed.

(** An admin message without [data], or whose [data] is a number, a
    boolean or [None], cannot be iterated. *)
Lemma missing_data_raises (m : list (string * Py.value)) (out : sink) (w : world) :
  Py.assoc "data" m = None -> admin_processing_raises E (Py.VDict m) out w.
Proof.
  intros H. unfold admin_processing_raises. simpl. now rewrite H.
Qed.

Lemma scalar_data_raises (m : list (string * Py.value)) (data : Py.value)
                         (out : sink) (w : world) :
  Py.assoc "data" m = Some data ->
  match data with Py.VNone | Py.VBool _ | Py.VInt _ => True | _ => False end ->
  admin_processing_raises E (Py.VDict m) out w.
Proof.
  intros H D. unfold admin_processing_raises. simpl. rewrite H.
  destruct data; simpl; trivial; contradiction.
Qed.

(** C10: when the processing of the records of an admin page raises after
    the cursor was read, [get_logs] returns that cursor and counts no
    error, and the window is asked for its next page with it. *)
Theorem cursor_survives_processing_failure
    (args : drpc_args) (out : sink) (w : world) (resp : response) (b : backend)
    (resj sid msg : Py.value) :
  post E (net w) (get_api_url ADMIN) args = (Py.Ok resp, b) ->
  status_code resp = 200 ->
  json resp = Py.Ok resj ->
  Py.contains "message" resj = Py.Ok true ->
  scroll_and_msg ADMIN resj = (sid, Py.Ok msg) ->
  admin_processing_raises E msg out (log_event (EvPost args) (set_net b w)) ->
  snd (get_logs E args ADMIN out w) = sid /\
  error_count (fst (get_logs E args ADMIN out w)) = error_count w /\
  (sid <> Py.VNone ->
   forall fuel sts ets c,
     args = make_drpc_args sts ets c ->
     flush_raises E (flushes (fst (get_logs E args ADMIN out w))) = false ->
     In (EvPost (make_drpc_args sts ets sid))
        (trace (fst (drain E (S (S fuel)) ADMIN sts ets out c w)))).
Proof.
  intros HP HS HJ HC HM _.
  assert (PC : page_cursor ADMIN (fst (post E (net w) (get_api_url ADMIN) args)) = sid).
  { rewrite HP. simpl fst. rewrite (page_cursor_found ADMIN resp resj HS HJ HC).
    now rewrite HM. }
  split; [| split].
  - now rewrite get_logs_cursor.
  - rewrite get_logs_error_count, HP. unfold lacks_message. simpl.
    rewrite HJ, HC, andb_false_r. lia.
  - intros Hsid fuel sts ets c -> NoFault.
    destruct (drain_turn E (S fuel) ADMIN sts ets out c w NoFault) as (w2 & D & _).
    rewrite D, PC, (is_None_false sid Hsid).
    apply drain_first_post.
Qed.

End Pages.

(** ** One window: the pagination loop *)

Section Pagination.

Context {backend : Type} (E : env backend).
Notation world := (world backend).

Arguments flush : simpl never.
Arguments get_logs : simpl never.

Lemma drain_served (lt : EventType) (sts ets : Z) (out : sink) (cs : list Py.value) :
  forall (fuel : nat) (sid : Py.value) (w : world),
    served E lt sts ets (net w) sid (cs ++ [Py.VNone]) ->
    Forall (fun c => c <> Py.VNone) cs ->
    (forall n, flush_raises E n = false) ->
    (List.length cs < fuel)%nat ->
    snd (drain E fuel lt sts ets out sid w) = Ret tt /\
    posts (trace (fst (drain E fuel lt sts ets out sid w)))
    = (posts (trace w) ++ map (make_drpc_args sts ets) (sid :: cs))%list.
Proof.
  induction cs as [|c cs IH]; intros fuel sid w Sv Nn NoFault Fuel;
    (destruct fuel as [|fuel]; [simpl in Fuel; lia |]);
    destruct (drain_turn E fuel lt sts ets out sid w (NoFault _)) as (w2 & D & N & P);
    inversion Sv as [| ? ? r b' ? HP Sv']; subst;
    rewrite HP in D, N; simpl fst in D; simpl snd in N; rewrite D.
  - match goal with H : page_cursor lt r = Py.VNone |- _ => rewrite H end.
    simpl. split; [reflexivity | exact P].
  - inversion Nn as [| ? ? Hc Nn']. clear Nn. subst b'.
    rewrite (is_None_false _ Hc).
    destruct (IH fuel _ w2 Sv' Nn' NoFault ltac:(simpl in Fuel; lia)) as [R T].
    split; [exact R |].
    rewrite T, P, <- app_assoc. reflexivity.
Qed.

(** While the service returns cursors the loop goes on. *)
Lemma drain_goes_on (lt : EventType) (sts ets : Z) (out : sink) (cs : list Py.value) :
  forall (sid : Py.value) (w : world),
    served E lt sts ets (net w) sid cs ->
    Forall (fun c => c <> Py.VNone) cs ->
    (forall n, flush_raises E n = false) ->
    snd (drain E (List.length cs) lt sts ets out sid w) = Diverge /\
    posts (trace (fst (drain E (List.length cs) lt sts ets out sid w)))
    = (posts (trace w)
       ++ map (make_drpc_args sts ets) (firstn (List.length cs) (sid :: cs)))%list.
Proof.
  induction cs as [|c cs IH]; intros sid w Sv Nn NoFault.
  - simpl. now rewrite app_nil_r.
  - destruct (drain_turn E (List.length cs) lt sts ets out sid w (NoFault _))
      as (w2 & D & N & P).
    inversion Sv as [| ? ? r b' ? HP Sv']; subst.
    rewrite HP in D, N; simpl fst in D; simpl snd in N.
    inversion Nn as [| ? ? Hc Nn']. clear Nn. subst b'.
    change (List.length (page_cursor lt r :: cs)) with (S (List.length cs)).
    rewrite D, (is_None_false _ Hc).
    destruct (IH _ w2 Sv' Nn' NoFault) as [R T].
    split; [exact R |].
    rewrite T, P, <- app_assoc. reflexivity.
Qed.

(** C2: the loop of one window sends its first request without a cursor,
    each later one with the cursor the page before returned, and stops at
    the first page without one, so that cursors [c1], [c2], none make three
    requests, and it does not stop while cursors are returned; a status
    other than 200, a body without [message] and a page without
    [scroll_id] are pages without a cursor. *)
Theorem pagination_follows_cursors (lt : EventType) (sts ets : Z) (out : sink) :
  (forall (cs : list Py.value) (fuel : nat) (w : world),
      served E lt sts ets (net w) Py.VNone (cs ++ [Py.VNone]) ->
      Forall (fun c => c <> Py.VNone) cs ->
      (forall n, flush_raises E n = false) ->
      (List.length cs < fuel)%nat ->
      snd (drain E fuel lt sts ets out Py.VNone w) = Ret tt /\
      posts (trace (fst (drain E fuel lt sts ets out Py.VNone w)))
      = (posts (trace w) ++ map (make_drpc_args sts ets) (Py.VNone :: cs))%list) /\
  (forall (cs : list Py.value) (w : world),
      served E lt sts ets (net w) Py.VNone cs ->
      Forall (fun c => c <> Py.VNone) cs ->
      (forall n, flush_raises E n = false) ->
      snd (drain E (List.length cs) lt sts ets out Py.VNone w) = Diverge) /\
  arg_scroll_id (make_drpc_args sts ets Py.VNone) = None /\
  (forall c, c <> Py.VNone ->
             arg_scroll_id (make_drpc_args sts ets c) = Some (Py.str c)) /\
  (forall (args : drpc_args) (w : world) (r : Py.res response) (b : backend),
      post E (net w) (get_api_url lt) args = (r, b) ->
      no_cursor lt r ->
      snd (get_logs E args lt out w) = Py.VNone).
Proof.
  split; [| split; [| split; [| split]]].
  - intros cs fuel w. apply drain_served.
  - intros cs w Sv Nn NoFault. now apply drain_goes_on.
  - reflexivity.
  - intros c Hc. unfold make_drpc_args. simpl. now rewrite (is_None_false c Hc).
  - intros args w r b HP NC. rewrite get_logs_cursor, HP. simpl fst.
    unfold page_cursor.
    destruct NC as [resp HS | resp d HJ HM | resp d m x r1 r2 -> HJ HM HC
                   | resp d m md -> HJ HM HD HC].
    + apply Z.eqb_neq in HS. now rewrite HS.
    + destruct (negb (status_code resp =? 200)); [reflexivity |].
      rewrite HJ. simpl. now rewrite HM.
    + destruct (negb (status_code resp =? 200)); [reflexivity |].
      rewrite HJ, (contains_message _ _ HM), (scroll_and_msg_access _ _ _ _ _ HM).
      simpl. now rewrite HC.
    + destruct (negb (status_code resp =? 200)); [reflexivity |].
      rewrite HJ, (contains_message _ _ HM), (scroll_and_msg_admin _ _ _ HM HD).
      simpl. now rewrite HC.
Qed.

End Pagination.

(** ** The poll loop and the sink: [fetch_logs] *)

Section PollLoop.

Context {backend : Type} (E : env backend).
Notation world := (world backend).

Arguments flush : simpl never.
Arguments get_logs : simpl never.
Arguments tell : simpl never.
Arguments poll : simpl never.

Lemma skipn_own {A : Type} (a b : list A) : skipn (List.length a) (a ++ b) = b.
Proof.
  rewrite skipn_app, skipn_all, Nat.sub_diag. reflexivity.
Qed.

Lemma buffered_flushed (a : list event) : buffered (a ++ [EvFlush true]) = false.
Proof.
  unfold buffered. now rewrite fold_left_app.
Qed.

Lemma buffered_failed (a : list event) : buffered (a ++ [EvFlush false]) = buffered a.
Proof.
  unfold buffered. now rewrite fold_left_app.
Qed.

Lemma buffered_after (a b : list event) :
  buffered a = false -> buffered (a ++ b) = buffered b.
Proof.
  unfold buffered. rewrite fold_left_app. now intros ->.
Qed.

Lemma buffered_opening (t : target) (w : world) : buffered (opening t w) = false.
Proof.
  unfold opening. destruct t as [p|h|]; try reflexivity. now destruct (disk w p).
Qed.

(** The world [fetch_logs] is left in: that of the end of the [try], with
    one call of [close] unless the loop is still running, nothing was
    bound or the output is [sys.stdout]. *)
Lemma conclude_world (t : target) (out : option sink) (w w2 : world)
                     (r : outcome (option summary)) :
  fst (conclude E t out w w2 r)
  = match r, out with
    | Diverge, _ => w2
    | _, None => w2
    | _, Some _ => if is_stdout t then w2 else log_event EvClose w2
    end.
Proof.
  unfold conclude, close.
  destruct out as [o|]; [destruct (is_stdout t) |]; simpl;
    try destruct (buffered _ && flush_raises E (flushes w2)); destruct r; reflexivity.
Qed.

(** What [fetch_logs] is left with: the exception of [close] when the sink
    still holds lines and cannot flush them, the report otherwise. *)
Lemma conclude_outcome (t : target) (out : option sink) (w w2 : world)
                       (r : outcome (option summary)) :
  snd (conclude E t out w w2 r)
  = match r with
    | Diverge => Diverge
    | _ =>
        if match out with Some _ => negb (is_stdout t) | None => false end
           && (buffered (skipn (List.length (trace w)) (trace w2))
               && flush_raises E (flushes w2))
        then Exc Py.OSError
        else match r with
             | Ret s => Ret (mkReport s None)
             | Exc e => Ret (mkReport None (Some e))
             | Diverge => Diverge
             end
    end.
Proof.
  unfold conclude, close.
  destruct out as [o|]; [destruct (is_stdout t) |]; simpl;
    try destruct (buffered _ && flush_raises E (flushes w2)); destruct r; reflexivity.
Qed.

(** The sink holds lines at the end of the inner loop only when the loop
    was left by a flush that failed. *)
Lemma drain_buffered (fuel : nat) (lt : EventType) (sts ets : Z) (out : sink)
                     (sid : Py.value) (w : world) :
  exists evs,
    trace (fst (drain E fuel lt sts ets out sid w)) = (trace w ++ evs)%list /\
    (buffered evs = true ->
     snd (drain E fuel lt sts ets out sid w) = Exc Py.OSError /\
     exists before, evs = (before ++ [EvFlush false])%list).
Proof.
  revert sid w. induction fuel as [|fuel IH]; intros sid w.
  - exists []. simpl. rewrite app_nil_r. split; [reflexivity | discriminate].
  - rewrite drain_S.
    pose proof (get_logs_stepped E (make_drpc_args sts ets sid) lt out w)
      as (ls & [T1 _ _ _ _ _] & _).
    destruct (get_logs E (make_drpc_args sts ets sid) lt out w) as [w1 sid'].
    simpl in T1.
    pose proof (flush_stepped E out w1) as (ok & [T2 _ _ _ _ _] & _ & _ & _ & R).
    destruct (flush E out w1) as [w2 r]. simpl in T2, R.
    rewrite T1, <- app_assoc in T2.
    destruct ok; subst r.
    + pose proof (buffered_flushed (EvPost (make_drpc_args sts ets sid) :: map EvWrite ls))
        as Bf.
      destruct (Py.is_None sid').
      * eexists. split; [exact T2 |]. intros B. simpl in Bf. simpl in B.
        rewrite Bf in B. discriminate.
      * destruct (IH sid' w2) as (evs & T3 & X3).
        exists ((EvPost (make_drpc_args sts ets sid) :: map EvWrite ls ++ [EvFlush true])
                  ++ evs)%list.
        split; [rewrite T3, T2, <- app_assoc; reflexivity |].
        change (EvPost (make_drpc_args sts ets sid) :: map EvWrite ls ++ [EvFlush true])
          with ((EvPost (make_drpc_args sts ets sid) :: map EvWrite ls) ++ [EvFlush true])%list.
        rewrite (buffered_after _ evs Bf). intros B.
        destruct (X3 B) as (X & before & ->). split; [exact X |].
        eexists. rewrite app_assoc. reflexivity.
    + eexists. split; [exact T2 |]. intros _. split; [reflexivity |].
      exists (EvPost (make_drpc_args sts ets sid) :: map EvWrite ls). reflexivity.
Qed.

Lemma poll_buffered (fuel i : nat) (cfg : config) (lt : EventType) (out : sink)
                    (sp : Z) (w : world) :
  exists evs,
    trace (fst (poll E fuel i cfg lt out sp w)) = (trace w ++ evs)%list /\
    (buffered evs = true ->
     snd (poll E fuel i cfg lt out sp w) = Exc Py.OSError /\
     exists before, evs = (before ++ [EvFlush false])%list).
Proof.
  revert i w. induction fuel as [|fuel IH]; intros i w.
  - exists []. simpl. rewrite app_nil_r. split; [reflexivity | discriminate].
  - rewrite poll_S. destruct (date_boundaries (now E i) cfg) as [ets sts].
    destruct (drain_buffered fuel lt sts ets out Py.VNone (push_window sts ets w))
      as (evs & T & X).
    destruct (drain E fuel lt sts ets out Py.VNone (push_window sts ets w)) as [w1 o].
    simpl in T, X. change (trace (push_window sts ets w)) with (trace w) in T.
    destruct o as [u|e|].
    + assert (N : buffered evs = false).
      { destruct (buffered evs); [destruct (X eq_refl); discriminate | reflexivity]. }
      assert (T1 : trace (deliver E i InFetch w1) = (trace w ++ evs)%list).
      { now rewrite (un_trace _ _ (untouched_deliver E i InFetch w1)). }
      cbv zeta. destruct (negb (tail cfg)).
      * destruct (negb (batch cfg)); [destruct (tell out _) |];
          (exists evs; simpl; split; [exact T1 | rewrite N; discriminate]).
      * assert (T2 : trace (deliver E i AfterWait
                              (Event_wait E i (deliver E i BeforeWait
                                                 (deliver E i InFetch w1))))
                     = (trace w ++ evs)%list).
        { now rewrite (un_trace _ _ (untouched_cycle E i _)). }
        destruct (stop_event (deliver E i AfterWait _)).
        -- exists evs. simpl. split; [exact T2 | rewrite N; discriminate].
        -- destruct (IH (S i) (deliver E i AfterWait
                                 (Event_wait E i (deliver E i BeforeWait
                                                    (deliver E i InFetch w1)))))
             as (evs' & T' & X').
           rewrite T2 in T'.
           exists (evs ++ evs')%list. split; [now rewrite T', app_assoc |].
           rewrite (buffered_after _ _ N). intros B.
           destruct (X' B) as (X1 & before & ->). split; [exact X1 |].
           eexists. rewrite app_assoc. reflexivity.
    + exists evs. simpl. split; [exact T |]. intros B.
      destruct (X B) as (X1 & H). split; [| exact H]. now injection X1 as ->.
    + exists evs. simpl. split; [exact T |]. intros B.
      destruct (X B) as (X1 & _). discriminate.
Qed.

(** Either the [try] is left before the loop, or the loop runs on a sink
    whose position is known and the [finally] clause follows it. *)
Lemma fetch_logs_cases (fuel : nat) (cfg : config) (w : world) (lt : EventType) :
  EventType_of (log_type cfg) = Some lt ->
  (exists e w',
      fetch_logs E fuel cfg w = (w', Ret (mkReport None (Some e))) /\
      trace w' = (trace w ++ opening (self_output cfg) w
                          ++ closing (self_output cfg) w)%list /\
      windows w' = windows w /\
      (forall p, self_output cfg = TPath p -> disk w p = Denied)) \/
  (exists out sp w1,
      trace w1 = (trace w ++ opening (self_output cfg) w)%list /\
      windows w1 = windows w /\
      tell out w1 = Py.Ok sp /\
      is_regular out w1 = true /\
      closing (self_output cfg) w
      = (if is_stdout (self_output cfg) then [] else [EvClose]) /\
      (forall p, self_output cfg = TPath p ->
                 out = SPath p /\ content out w1 = EmptyString) /\
      fetch_logs E fuel cfg w
      = (let (w2, r) := poll E fuel 0 cfg lt out sp w1 in
         conclude E (self_output cfg) (Some out) w w2 r)).
Proof.
  intros HT. unfold fetch_logs. rewrite HT.
  destruct (self_output cfg) as [p|h|] eqn:T.
  - unfold acquire, open_wplus, opening, closing.
    set (w1 := log_event (EvOpen p) (set_file p (Regular EmptyString) w)).
    assert (Tl : tell (SPath p) w1 = Py.Ok 0).
    { unfold tell. simpl. now rewrite String.eqb_refl. }
    assert (Rg : is_regular (SPath p) w1 = true).
    { simpl. now rewrite String.eqb_refl. }
    assert (Ct : content (SPath p) w1 = EmptyString).
    { simpl. now rewrite String.eqb_refl. }
    assert (Loop :
      exists out sp w1',
        trace w1' = (trace w ++ [EvOpen p])%list /\
        windows w1' = windows w /\
        tell out w1' = Py.Ok sp /\
        is_regular out w1' = true /\
        [EvClose] = (if is_stdout (TPath p) then [] else [EvClose]) /\
        (forall q, TPath p = TPath q -> out = SPath q /\ content out w1' = EmptyString) /\
        (let (w2, r) :=
           match tell (SPath p) w1 with
           | Py.Ok start_position => poll E fuel 0 cfg lt (SPath p) start_position w1
           | Py.Raise e => (w1, Exc e)
           end in
         conclude E (TPath p) (Some (SPath p)) w w2 r)
        = (let (w2, r) := poll E fuel 0 cfg lt out sp w1' in
           conclude E (TPath p) (Some out) w w2 r)).
    { exists (SPath p), 0, w1.
      split; [reflexivity |]. split; [reflexivity |]. split; [exact Tl |].
      split; [exact Rg |]. split; [reflexivity |].
      split; [intros q [= <-]; split; [reflexivity | exact Ct] |].
      rewrite Tl. reflexivity. }
    destruct (disk w p) eqn:Dk.
    + right. exact Loop.
    + right. exact Loop.
    + left. exists Py.OSError, w. simpl. rewrite !app_nil_r.
      repeat split. now intros q [= <-].
  - unfold acquire, opening, closing.
    destruct (seekable (streams w h)) eqn:Sk.
    + assert (Tl : tell (SHandle h) w = Py.Ok (position (streams w h))).
      { unfold tell. now rewrite Sk. }
      right. exists (SHandle h), (position (streams w h)), w.
      rewrite app_nil_r, Tl.
      split; [reflexivity |]. split; [reflexivity |]. split; [reflexivity |].
      split; [reflexivity |]. split; [now destruct h |].
      split; [discriminate |]. reflexivity.
    + assert (Tl : tell (SHandle h) w = Py.Raise Py.OSError).
      { unfold tell. now rewrite Sk. }
      rewrite Tl. left. exists Py.OSError.
      unfold conclude, close. rewrite skipn_all. destruct h as [|n]; simpl.
      * exists w. rewrite !app_nil_r. repeat split. discriminate.
      * exists (log_event EvClose w). repeat split. discriminate.
  - left. exists Py.AttributeError, w. simpl. rewrite !app_nil_r.
    repeat split. discriminate.
Qed.


(** With every window drained within [n] pages, the tail loop is left by
    the end of the cycle in which a signal arrives. *)
Lemma poll_exits (n i : nat) (p : phase) (cfg : config) (lt : EventType)
                 (out : sink) (sp : Z) :
  tail cfg = true -> signal E i p = true ->
  (forall f lt' sts ets out' sid w0,
      (n <= f)%nat -> snd (drain E f lt' sts ets out' sid w0) <> Diverge) ->
  forall (fuel i0 : nat) (w : world),
    (i0 <= i)%nat -> (n + (i - i0) < fuel)%nat ->
    snd (poll E fuel i0 cfg lt out sp w) <> Diverge.
Proof.
  intros Tail Sig H. induction fuel as [|fuel IH]; intros i0 w Le Fuel; [lia |].
  rewrite poll_S. destruct (date_boundaries (now E i0) cfg) as [ets sts].
  pose proof (H fuel lt sts ets out Py.VNone (push_window sts ets w) ltac:(lia)) as ND.
  destruct (drain E fuel lt sts ets out Py.VNone (push_window sts ets w)) as [w1 o].
  simpl in ND. destruct o as [u|e|]; [| discriminate | contradiction].
  cbv zeta. rewrite Tail. simpl negb. cbv iota.
  destruct (stop_event _) eqn:Stop; [discriminate |].
  assert (i0 <> i).
  { intros ->. rewrite (stop_after_cycle E i p w1 Sig) in Stop. discriminate. }
  apply IH; lia.
Qed.

(** C6: in tail mode a signal that arrives at any point of cycle [i] (while
    its window is fetched, before, during or after the wait) is seen by the
    test that follows the wait: no window after that of cycle [i] is
    opened, and the loop is left if every window is drained within a
    bounded number of pages. *)
Theorem stop_flag_ends_tail_loop
    (fuel : nat) (cfg : config) (w : world) (i : nat) (p : phase) :
  tail cfg = true ->
  signal E i p = true ->
  (List.length (windows (fst (fetch_logs E fuel cfg w)))
   <= List.length (windows w) + i + 1)%nat /\
  (forall n,
      (forall f lt sts ets out sid w0,
          (n <= f)%nat -> snd (drain E f lt sts ets out sid w0) <> Diverge) ->
      (n + i < fuel)%nat ->
      snd (fetch_logs E fuel cfg w) <> Diverge).
Proof.
  intros Tail Sig.
  destruct (EventType_of (log_type cfg)) as [lt|] eqn:HT;
    [| unfold fetch_logs; rewrite HT; simpl; split; [lia | discriminate]].
  destruct (fetch_logs_cases fuel cfg w lt HT)
    as [(e & w' & F & _ & W & _) | (out & sp & w1 & _ & W & _ & _ & _ & _ & F)];
    rewrite F.
  - simpl. rewrite W. split; [lia | discriminate].
  - pose proof (poll_windows E fuel 0 cfg lt out sp w1 i p Tail Sig ltac:(lia)) as PW.
    pose proof (poll_exits) as PE.
    specialize (PE) with (1 := Tail) (2 := Sig).
    destruct (poll E fuel 0 cfg lt out sp w1) as [w2 r] eqn:P.
    simpl in PW. rewrite W in PW. rewrite conclude_world, conclude_outcome. split.
    + destruct r; simpl; try destruct (is_stdout (self_output cfg)); simpl; lia.
    + intros n H Fuel.
      specialize (PE n lt out sp H fuel 0%nat w1 ltac:(lia) ltac:(lia)).
      rewrite P in PE. simpl in PE.
      destruct r; [| | contradiction];
        destruct (_ && _); discriminate.
Qed.

(** C8: a path that can be written is opened once, before the first
    request; every request is followed by the lines of its page and one
    flush; when the function is left, by a return (also after a fault) or
    by the exception of [close] itself, the sink was closed once, as the
    last call, unless the output is [sys.stdout], which is never closed.
    An unknown log type leaves the function before anything is opened. *)
Theorem sink_lifecycle (fuel : nat) (cfg : config) (w : world) :
  match snd (fetch_logs E fuel cfg w) with
  | Exc e =>
      (EventType_of (log_type cfg) = None /\ e = Py.ValueError /\
       fst (fetch_logs E fuel cfg w) = w) \/
      (e = Py.OSError /\
       closing (self_output cfg) w = [EvClose] /\
       exists body,
         paged body /\
         trace (fst (fetch_logs E fuel cfg w))
         = (trace w ++ opening (self_output cfg) w ++ body ++ [EvClose])%list)
  | Ret _ =>
      exists body,
        paged body /\
        trace (fst (fetch_logs E fuel cfg w))
        = (trace w ++ opening (self_output cfg) w ++ body
                   ++ closing (self_output cfg) w)%list
  | Diverge =>
      exists body,
        paged body /\
        trace (fst (fetch_logs E fuel cfg w))
        = (trace w ++ opening (self_output cfg) w ++ body)%list
  end.
Proof.
  destruct (EventType_of (log_type cfg)) as [lt|] eqn:HT;
    [| unfold fetch_logs; rewrite HT; left; repeat split].
  destruct (fetch_logs_cases fuel cfg w lt HT)
    as [(e & w' & F & Tr & _) | (out & sp & w1 & Tr & _ & _ & _ & Cl & _ & F)];
    rewrite F.
  - simpl. exists []. split; [constructor | exact Tr].
  - destruct (poll_stepped E fuel 0 cfg lt out sp w1) as (evs & Pg & S).
    destruct (poll E fuel 0 cfg lt out sp w1) as [w2 r]. simpl in S.
    pose proof (st_trace _ _ _ _ S) as T2. rewrite Tr, <- app_assoc in T2.
    rewrite conclude_outcome, conclude_world, Cl.
    destruct r as [s|e|]; [| | simpl; exists evs; split; [exact Pg | exact T2]];
      (destruct (is_stdout (self_output cfg)); cbn [negb andb];
       [exists evs; split; [exact Pg |]; now rewrite T2, app_nil_r |]);
      (destruct (buffered _ && flush_raises E (flushes w2));
       [right; split; [reflexivity |]; split; [reflexivity |] |]);
      exists evs; (split; [exact Pg |]); simpl; rewrite T2, <- !app_assoc; reflexivity.
Qed.


End PollLoop.

(** ** The properties on the fixtures *)

(** C5, the claim as stated fails: in bounded mode an end override of zero
    is not used, the window ends one minute before the clock reading. *)
Lemma zero_end_override_not_used :
  fst (date_boundaries (1700000100 # 1)
         (mkConfig false None (Some 0) false "access" None)) = 1700000040000 /\
  fst (date_boundaries (1700000100 # 1)
         (mkConfig false None (Some 0) false "access" None)) <> 0 * 1000.
Proof.
  split; [reflexivity | vm_compute; discriminate].
Qed.

(** An end override of 1600000000 s in bounded mode. *)
Lemma window_bounds_witness :
  fst (date_boundaries (1700000100 # 1)
         (mkConfig false None (Some 1600000000) false "access" None))
  = 1600000000 * 1000.
Proof.
  apply (proj1 (proj2 (window_bounds (1700000100 # 1)
                         (mkConfig false None (Some 1600000000) false "access" None))));
    [reflexivity | reflexivity | discriminate].
Defined.

(** C3, the claim as stated fails: when the message is the mapping itself,
    [message[0]] raises, and no line is written. *)
Lemma flat_mapping_yields_no_line :
  writes (trace (fst (get_logs quiet first_request USER_ACCESS (SHandle Stdout)
                        (fresh [flat_page])))) = [] /\
  line_count (fst (get_logs quiet first_request USER_ACCESS (SHandle Stdout)
                     (fresh [flat_page]))) = 0 /\
  writes (trace (fst (get_logs quiet first_request USER_ACCESS (SHandle Stdout)
                        (fresh [flat_page])))) <> ["2023-11-14 line-A" ++ Py.nl] /\
  snd (get_logs quiet first_request USER_ACCESS (SHandle Stdout) (fresh [flat_page]))
  = Py.VNone.
Proof.
  split; [reflexivity | split; [reflexivity | split; [| reflexivity]]].
  vm_compute. discriminate.
Qed.

(** The mapping of the example at [message[0][1]], in UTC. *)
Lemma nested_mapping_witness :
  exists day,
    Date.fromtimestamp (utcoffset quiet) 1700000000 = Py.Ok day /\
    trace (fst (get_logs quiet first_request USER_ACCESS (SHandle Stdout)
                  (fresh [nested_page])))
    = (trace (fresh [nested_page])
       ++ [EvPost first_request; EvWrite (Date.isoformat day ++ " line-A" ++ Py.nl)])%list /\
    line_count (fst (get_logs quiet first_request USER_ACCESS (SHandle Stdout)
                       (fresh [nested_page])))
    = line_count (fresh [nested_page]) + 1 /\
    error_count (fst (get_logs quiet first_request USER_ACCESS (SHandle Stdout)
                        (fresh [nested_page])))
    = error_count (fresh [nested_page]).
Proof.
  apply (nested_mapping_yields_one_line quiet first_request (SHandle Stdout)
           (fresh [nested_page])
           (mkResponse 200 (Py.Ok (access_message [("metadata", Py.VDict []); line_A])))
           []
           [("message", Py.VList [Py.VList [Py.VStr "logs";
                                            Py.VDict [("metadata", Py.VDict []); line_A]]])]
           (Py.VStr "logs") (Py.VDict []) [] []);
    [reflexivity | reflexivity | reflexivity | reflexivity | simpl; lia].
Defined.

(** The line of the example in UTC. *)
Example nested_mapping_in_utc :
  writes (trace (fst (get_logs quiet first_request USER_ACCESS (SHandle Stdout)
                        (fresh [nested_page]))))
  = ["2023-11-14 line-A" ++ Py.nl].
Proof.
  reflexivity.
Qed.

(** C1, the claim as stated fails: the second record of [admin_page] has no
    timestamp; it is passed over and the records around it are written, but
    the error counter is not moved. *)
Lemma record_failure_not_counted :
  admin_line quiet record_C = Py.Raise Py.TypeError /\
  writes (trace (fst (get_logs quiet first_request ADMIN (SHandle Stdout)
                        (fresh [admin_page]))))
  = ["2023-11-14,line-B" ++ Py.nl; "2023-11-14,line-D" ++ Py.nl] /\
  error_count (fst (get_logs quiet first_request ADMIN (SHandle Stdout)
                      (fresh [admin_page])))
  <> error_count (fresh [admin_page]) + 1.
Proof.
  split; [reflexivity | split; [reflexivity | vm_compute; discriminate]].
Qed.

(** The page [admin_page]: the records around the failing one are
    processed, the counter is not moved. *)
Lemma record_failure_is_skipped_witness :
  get_logs quiet first_request ADMIN (SHandle Stdout) (fresh [admin_page])
  = (fst (admin_records quiet [record_D] (SHandle Stdout)
            (fst (admin_records quiet [record_B] (SHandle Stdout)
                    (log_event (EvPost first_request)
                               (set_net [] (fresh [admin_page])))))),
     Py.VNone) /\
  error_count (fst (get_logs quiet first_request ADMIN (SHandle Stdout)
                      (fresh [admin_page])))
  = error_count (fresh [admin_page]).
Proof.
  apply (proj2 (record_failure_is_skipped quiet first_request (SHandle Stdout)
                  (fresh [admin_page])
                  (mkResponse 200 (Py.Ok (admin_message admin_msg)))
                  [] (admin_message admin_msg) Py.VNone eq_refl eq_refl eq_refl)
           (Py.VDict admin_msg) [record_B] record_C [record_D] Py.TypeError);
    [reflexivity | reflexivity | reflexivity | repeat constructor | reflexivity].
Defined.

(** A user access record without [flog], one whose [flog] is not a string
    and an admin record whose timestamp is a string are such failures. *)
Example record_failures :
  access_line quiet "1700000000000" (Py.VDict [("other", Py.VStr "x")])
  = Py.Raise Py.KeyError /\
  access_line quiet "1700000000000" (Py.VDict [("flog", Py.VInt 7)])
  = Py.Raise Py.TypeError /\
  admin_line quiet (Py.VDict [("ts", Py.VStr "1700000000000");
                              ("splunk_line", Py.VStr "x")])
  = Py.Raise Py.TypeError.
Proof.
  repeat split.
Qed.

(** An admin record without [splunk_line] is no failure: [format] writes
    [None] in its place. *)
Example admin_record_without_payload :
  admin_line quiet (Py.VDict [("ts", Py.VInt 1700000000000)])
  = Py.Ok ("2023-11-14,None" ++ Py.nl).
Proof.
  reflexivity.
Qed.

(** An admin record that is no mapping ends the loop: the handler raises. *)
Example non_mapping_record_ends_the_page :
  writes (trace (fst (get_logs quiet first_request ADMIN (SHandle Stdout)
     (fresh [ok200 (admin_message
        [("metadata", Py.VDict []);
         ("data", Py.VList
            [Py.VInt 3;
             Py.VDict [("ts", Py.VInt 1700000000000);
                       ("splunk_line", Py.VStr "line-D")]])])])))) = [].
Proof.
  reflexivity.
Qed.

(** The cursors [c1], [c2], none: three requests. *)
Lemma three_pages_three_requests :
  snd (drain quiet 5 USER_ACCESS 1700000025000 1700000040000 (SHandle Stdout)
             Py.VNone (fresh three_pages)) = Ret tt /\
  posts (trace (fst (drain quiet 5 USER_ACCESS 1700000025000 1700000040000
                           (SHandle Stdout) Py.VNone (fresh three_pages))))
  = (posts (trace (fresh three_pages))
     ++ map (make_drpc_args 1700000025000 1700000040000)
            [Py.VNone; Py.VStr "c1"; Py.VStr "c2"])%list.
Proof.
  apply (proj1 (pagination_follows_cursors quiet USER_ACCESS 1700000025000
                  1700000040000 (SHandle Stdout))
           [Py.VStr "c1"; Py.VStr "c2"] 5%nat (fresh three_pages)).
  - exact (served_page quiet USER_ACCESS 1700000025000 1700000040000
             [page_c1; page_c2; page_last] Py.VNone page_c1 [page_c2; page_last]
             [Py.VStr "c2"; Py.VNone] eq_refl
          (served_page quiet USER_ACCESS 1700000025000 1700000040000
             [page_c2; page_last] (Py.VStr "c1") page_c2 [page_last]
             [Py.VNone] eq_refl
          (served_page quiet USER_ACCESS 1700000025000 1700000040000
             [page_last] (Py.VStr "c2") page_last [] [] eq_refl
          (served_done quiet USER_ACCESS 1700000025000 1700000040000 [] Py.VNone)))).
  - repeat constructor; discriminate.
  - reflexivity.
  - simpl. lia.
Defined.



(** A status other than 200, and a body that is no mapping, count no
    error. *)
Example uncounted_failures :
  error_count (fst (get_logs quiet first_request ADMIN (SHandle Stdout)
                      (fresh [Py.Ok (mkResponse 500 (Py.Ok (Py.VDict [])))]))) = 0 /\
  error_count (fst (get_logs quiet first_request ADMIN (SHandle Stdout)
                      (fresh [ok200 (Py.VInt 5)]))) = 0.
Proof.
  split; reflexivity.
Qed.

(** An admin page with the cursor [c1] and no [data]: the cursor is
    returned and the next request carries it. *)
Lemma cursor_survives_witness :
  snd (get_logs quiet first_request ADMIN (SHandle Stdout) (fresh [admin_no_data]))
  = Py.VStr "c1" /\
  error_count (fst (get_logs quiet first_request ADMIN (SHandle Stdout)
                      (fresh [admin_no_data])))
  = error_count (fresh [admin_no_data]) /\
  In (EvPost (make_drpc_args 1700000025000 1700000040000 (Py.VStr "c1")))
     (trace (fst (drain quiet 2 ADMIN 1700000025000 1700000040000 (SHandle Stdout)
                        Py.VNone (fresh [admin_no_data])))).
Proof.
  destruct (cursor_survives_processing_failure quiet first_request (SHandle Stdout)
              (fresh [admin_no_data])
              (mkResponse 200 (Py.Ok (admin_message no_data_msg)))
              [] (admin_message no_data_msg) (Py.VStr "c1") (Py.VDict no_data_msg)
              eq_refl eq_refl eq_refl eq_refl eq_refl
              (missing_data_raises quiet no_data_msg (SHandle Stdout) _ eq_refl))
    as (A & B & C).
  split; [exact A | split; [exact B |]].
  apply (C ltac:(discriminate) 0%nat 1700000025000 1700000040000 Py.VNone);
    reflexivity.
Defined.

(** A signal during the wait of the second cycle: at most two windows,
    and the function returns. *)
Lemma stop_flag_witness :
  (List.length (windows (fst (fetch_logs idle 4 (tailing "access" None) idle_world)))
   <= List.length (windows idle_world) + 1 + 1)%nat /\
  snd (fetch_logs idle 4 (tailing "access" None) idle_world) <> Diverge.
Proof.
  destruct (stop_flag_ends_tail_loop idle 4 (tailing "access" None) idle_world
              1%nat InWait eq_refl eq_refl) as [A B].
  split; [exact A |].
  apply (B 1%nat); [| simpl; lia].
  intros f lt sts ets out sid w0 Hf. destruct f as [|f]; [lia |].
  destruct (drain_turn idle f lt sts ets out sid w0 eq_refl) as (w2 & D & _).
  rewrite D. destruct lt; simpl; discriminate.
Defined.

(** The signal arrives during the second wait: two windows, then the
    function returns; without a signal the loop goes on. *)
Example interrupted_tail_run :
  List.length (windows (fst (fetch_logs idle 9 (tailing "access" None) idle_world)))
  = 2%nat /\
  snd (fetch_logs idle 9 (tailing "access" None) idle_world)
  = Ret (mkReport None None) /\
  snd (fetch_logs quiet 9 (tailing "access" None) (fresh [])) = Diverge.
Proof.
  repeat split.
Qed.



(** The count is the same on a stream that is not at its start. *)
Example summary_on_a_stream :
  snd (fetch_logs quiet 5 (bounded "access" (Some (TStream (Fd 3))))
         (mkWorld [page_last] 0 0 (fun _ => Absent)
                  (fun _ => mkStream "earlier output" 14 true) false 0 [] []))
  = Ret (mkReport (Some (mkSummary 1700000025000 1700000040000 1 0 18)) None).
Proof.
  reflexivity.
Qed.

(** A run on [eaa.log] whose second flush fails. *)
Lemma sink_lifecycle_witness :
  exists body,
    paged body /\
    trace (fst (fetch_logs faulty 5 (bounded "access" (Some (TPath "eaa.log")))
                           (fresh three_pages)))
    = (trace (fresh three_pages)
       ++ opening (self_output (bounded "access" (Some (TPath "eaa.log"))))
                  (fresh three_pages)
       ++ body
       ++ closing (self_output (bounded "access" (Some (TPath "eaa.log"))))
                  (fresh three_pages))%list.
Proof.
  exact (sink_lifecycle faulty 5 (bounded "access" (Some (TPath "eaa.log")))
           (fresh three_pages)).
Defined.

(** A run whose second flush fails: opened once, two pages, each followed
    by a flush, closed once; on [sys.stdout] the same run closes nothing. *)
Example faulty_run :
  map (fun e => match e with EvPost _ => "post" | EvWrite _ => "write"
                           | EvFlush true => "flush" | EvFlush false => "flush fails"
                           | EvOpen _ => "open" | EvClose => "close" end)
      (trace (fst (fetch_logs faulty 5 (bounded "access" (Some (TPath "eaa.log")))
                              (fresh three_pages))))
  = ["open"; "post"; "write"; "flush"; "post"; "write"; "flush fails"; "close"] /\
  snd (fetch_logs faulty 5 (bounded "access" (Some (TPath "eaa.log")))
                  (fresh three_pages))
  = Ret (mkReport None (Some Py.OSError)) /\
  map (fun e => match e with EvPost _ => "post" | EvWrite _ => "write"
                           | EvFlush true => "flush" | EvFlush false => "flush fails"
                           | EvOpen _ => "open" | EvClose => "close" end)
      (trace (fst (fetch_logs faulty 5 (bounded "access" None) (fresh three_pages))))
  = ["post"; "write"; "flush"; "post"; "write"; "flush fails"].
Proof.
  repeat split.
Qed.

(** A run on a full device: the flush of the first page fails, the flush
    that [close] tries fails too, and [OSError] leaves the function; on
    [sys.stdout], which is not closed, the function returns; so it does
    when the page had no line, as the sink then holds nothing. *)
Example full_device_run :
  map (fun e => match e with EvPost _ => "post" | EvWrite _ => "write"
                           | EvFlush true => "flush" | EvFlush false => "flush fails"
                           | EvOpen _ => "open" | EvClose => "close" end)
      (trace (fst (fetch_logs full 5 (bounded "access" (Some (TPath "eaa.log")))
                              (fresh [page_last]))))
  = ["open"; "post"; "write"; "flush fails"; "close"] /\
  snd (fetch_logs full 5 (bounded "access" (Some (TPath "eaa.log")))
                  (fresh [page_last]))
  = Exc Py.OSError /\
  snd (fetch_logs full 5 (bounded "access" None) (fresh [page_last]))
  = Ret (mkReport None (Some Py.OSError)) /\
  snd (fetch_logs full 5 (bounded "access" (Some (TPath "eaa.log")))
                  (fresh [ok200 (access_message [])]))
  = Ret (mkReport None (Some Py.OSError)).
Proof.
  repeat split.
Qed.

(** ** The rolling window *)

(** X1: in tail mode, and in bounded mode without overrides, the window is the
    rolling one whatever else the configuration holds: fifteen seconds long,
    its end a whole number of seconds, between 61 and 60 seconds before the
    clock reading. *)
Theorem rolling_window (now : Q) (cfg : config) :
  tail cfg = true \/ (start cfg = None /\ end_ cfg = None) ->
  snd (date_boundaries now cfg) = fst (date_boundaries now cfg) - 15000 /\
  fst (date_boundaries now cfg) mod 1000 = 0 /\
  (inject_Z (fst (date_boundaries now cfg)) <= now * 1000 - 60000)%Q /\
  (now * 1000 - 61000 < inject_Z (fst (date_boundaries now cfg)))%Q.
Proof.
  intros H.
  assert (D : date_boundaries now cfg
              = (Qfloor now * 1000 - 60000, Qfloor now * 1000 - 60000 - 15000)).
  { unfold date_boundaries, COLLECTION_DELAY_MINUTES, PULL_INTERVAL_SEC.
    destruct H as [-> | [-> ->]]; simpl; rewrite ?andb_false_r; reflexivity. }
  rewrite D. simpl fst. simpl snd. split; [reflexivity |]. split.
  { replace (Qfloor now * 1000 - 60000) with ((Qfloor now - 60) * 1000) by lia.
    apply Z_mod_mult. }
  pose proof (Qfloor_le now) as Lo. pose proof (Qlt_floor now) as Hi.
  unfold Z.sub. rewrite !inject_Z_plus, inject_Z_mult in *. 
  change (inject_Z (- (60000))) with (- (60000 # 1))%Q.
  change (inject_Z 1000) with (1000 # 1)%Q.
  change (inject_Z 1) with (1 # 1)%Q in Hi.
  split; lra.
Qed.

(** ** Further properties of [get_logs] *)

Section MorePages.

Context {backend : Type} (E : env backend).
Notation world := (world backend).

Arguments flush : simpl never.
Arguments get_logs : simpl never.

Lemma handle_eqb_neq (a b : handle) : a <> b -> handle_eqb a b = false.
Proof.
  destruct a as [|n], b as [|m]; simpl; try reflexivity; try congruence.
  intros H. apply Nat.eqb_neq. congruence.
Qed.

(** A write reaches the sink and nothing else. *)
Lemma write_elsewhere (out : sink) (s : string) (w : world) :
  (forall q, out <> SPath q -> disk (incr_line_count (write out s w)) q = disk w q) /\
  (forall h, out <> SHandle h -> streams (incr_line_count (write out s w)) h = streams w h).
Proof.
  split.
  - intros q Hq. destruct out as [p|h]; simpl; [| reflexivity].
    destruct (String.eqb_spec q p); [subst; congruence | reflexivity].
  - intros h Hh. destruct out as [p|k]; simpl; [reflexivity |].
    rewrite handle_eqb_neq; [reflexivity | congruence].
Qed.

Lemma access_records_elsewhere (out : sink) (items : list (string * Py.value)) (w : world) :
  (forall q, out <> SPath q -> disk (access_records E items out w) q = disk w q) /\
  (forall h, out <> SHandle h -> streams (access_records E items out w) h = streams w h).
Proof.
  revert w. induction items as [|[k v] items IH]; intros w; simpl; [now split |].
  destruct (access_line E k v) as [[l|]|e]; try apply IH.
  destruct (IH (incr_line_count (write out l w))) as [D S].
  destruct (write_elsewhere out l w) as [D0 S0].
  split; intros x Hx; [rewrite D, D0 | rewrite S, S0]; auto.
Qed.

Lemma admin_records_elsewhere (out : sink) (items : list Py.value) (w : world) :
  (forall q, out <> SPath q -> disk (fst (admin_records E items out w)) q = disk w q) /\
  (forall h, out <> SHandle h ->
             streams (fst (admin_records E items out w)) h = streams w h).
Proof.
  revert w. induction items as [|item items IH]; intros w; simpl; [now split |].
  destruct (admin_line E item) as [l|e].
  - destruct (IH (incr_line_count (write out l w))) as [D S].
    destruct (write_elsewhere out l w) as [D0 S0].
    split; intros x Hx; [rewrite D, D0 | rewrite S, S0]; auto.
  - destruct (Py.get item "splunk_line"); [apply IH | now split].
Qed.

Lemma get_logs_elsewhere (args : drpc_args) (lt : EventType) (out : sink) (w : world) :
  (forall q, out <> SPath q -> disk (fst (get_logs E args lt out w)) q = disk w q) /\
  (forall h, out <> SHandle h -> streams (fst (get_logs E args lt out w)) h = streams w h).
Proof.
  unfold get_logs. destruct (post E (net w) (get_api_url lt) args) as [r b].
  set (w0 := log_event (EvPost args) (set_net b w)).
  assert (base : (forall q, out <> SPath q -> disk w0 q = disk w q) /\
                 (forall h, out <> SHandle h -> streams w0 h = streams w h))
    by now split.
  destruct r as [resp|e]; [| exact base].
  destruct (negb (status_code resp =? 200)); [exact base |].
  destruct (json resp) as [resj|]; [| exact base].
  destruct (Py.contains "message" resj) as [[|]|]; [| exact base | exact base].
  destruct (scroll_and_msg lt resj) as [sid [msg|]]; [| exact base].
  destruct lt.
  - destruct (Py.iteritems msg) as [items|]; [| exact base].
    exact (access_records_elsewhere out items w0).
  - destruct (data <- Py.get msg "data" ;; Py.iter data) as [items|]; [| exact base].
    exact (admin_records_elsewhere out items w0).
Qed.

(** X2: one call of [get_logs] sends one request, the one it was given, and
    does not send it again whatever the answer; what it writes is added
    after what the sink held, the line counter moves by the number of
    lines written, and no other file or stream, window or flag is
    touched. *)
Theorem get_logs_touches_only_its_sink
    (args : drpc_args) (lt : EventType) (out : sink) (w : world) :
  exists ls,
    trace (fst (get_logs E args lt out w))
    = (trace w ++ EvPost args :: map EvWrite ls)%list /\
    content out (fst (get_logs E args lt out w)) = content out w ++ joined ls /\
    line_count (fst (get_logs E args lt out w))
    = line_count w + Z.of_nat (List.length ls) /\
    (forall q, out <> SPath q -> disk (fst (get_logs E args lt out w)) q = disk w q) /\
    (forall h, out <> SHandle h ->
               streams (fst (get_logs E args lt out w)) h = streams w h) /\
    windows (fst (get_logs E args lt out w)) = windows w /\
    stop_event (fst (get_logs E args lt out w)) = stop_event w.
Proof.
  destruct (get_logs_stepped E args lt out w) as (ls & [T C _ _ L _] & [W S]).
  destruct (get_logs_elsewhere args lt out w) as [D St].
  simpl in C, L. rewrite writes_map_EvWrite in C, L.
  exists ls. repeat split; assumption.
Qed.

(** X3: an answer that cannot be used (the transport raised, a status other
    than 200, a body that is no JSON) is only logged: no cursor, no line,
    no error counted, nothing written. *)
Theorem unusable_answer_is_silent
    (args : drpc_args) (lt : EventType) (out : sink) (w : world)
    (r : Py.res response) (b : backend) :
  post E (net w) (get_api_url lt) args = (r, b) ->
  unusable r ->
  snd (get_logs E args lt out w) = Py.VNone /\
  trace (fst (get_logs E args lt out w)) = (trace w ++ [EvPost args])%list /\
  line_count (fst (get_logs E args lt out w)) = line_count w /\
  error_count (fst (get_logs E args lt out w)) = error_count w /\
  disk (fst (get_logs E args lt out w)) = disk w /\
  streams (fst (get_logs E args lt out w)) = streams w.
Proof.
  intros HP U.
  assert (G : get_logs E args lt out w
              = (log_event (EvPost args) (set_net b w), Py.VNone)).
  { unfold get_logs. rewrite HP. destruct U as [e | resp HS | resp e HJ].
    - reflexivity.
    - apply Z.eqb_neq in HS. now rewrite HS.
    - destruct (negb (status_code resp =? 200)); [reflexivity | now rewrite HJ]. }
  rewrite G. repeat split.
Qed.

Lemma access_records_lines (out : sink) (items : list (string * Py.value)) (w : world) :
  trace (access_records E items out w)
  = (trace w ++ map EvWrite (access_lines E items))%list.
Proof.
  revert w. induction items as [|[k v] items IH]; intros w; simpl.
  - now rewrite app_nil_r.
  - destruct (access_line E k v) as [[l|]|e]; try apply IH.
    rewrite IH. destruct out; simpl; now rewrite <- app_assoc.
Qed.

Lemma admin_records_lines (out : sink) (items : list Py.value) (w : world) :
  trace (fst (admin_records E items out w))
  = (trace w ++ map EvWrite (admin_lines E items))%list.
Proof.
  revert w. induction items as [|item items IH]; intros w; simpl.
  - now rewrite app_nil_r.
  - destruct (admin_line E item) as [l|e].
    + rewrite IH. destruct out; simpl; now rewrite <- app_assoc.
    + destruct (Py.get item "splunk_line"); [apply IH | simpl; now rewrite app_nil_r].
Qed.

Lemma access_lines_length (items : list (string * Py.value)) :
  (List.length (access_lines E items) <= List.length items)%nat.
Proof.
  induction items as [|[k v] items IH]; simpl; [lia |].
  destruct (access_line E k v) as [[l|]|e]; simpl; lia.
Qed.

Lemma admin_lines_length (items : list Py.value) :
  (List.length (admin_lines E items) <= List.length items)%nat.
Proof.
  induction items as [|item items IH]; simpl; [lia |].
  destruct (admin_line E item); [simpl; lia |].
  destruct (Py.get item "splunk_line"); simpl; lia.
Qed.

(** X4: a user access page writes the lines of its items in the order of
    the mapping, one write for each item whose key is numeric, whose date
    exists and whose [flog] is a string, and nothing for the others. *)
Theorem access_page_writes_its_lines
    (args : drpc_args) (out : sink) (w : world) (resp : response) (b : backend)
    (resj sid : Py.value) (items : list (string * Py.value)) :
  post E (net w) (get_api_url USER_ACCESS) args = (Py.Ok resp, b) ->
  status_code resp = 200 ->
  json resp = Py.Ok resj ->
  Py.contains "message" resj = Py.Ok true ->
  scroll_and_msg USER_ACCESS resj = (sid, Py.Ok (Py.VDict items)) ->
  writes (trace (fst (get_logs E args USER_ACCESS out w)))
  = (writes (trace w) ++ access_lines E items)%list /\
  (List.length (access_lines E items) <= List.length items)%nat /\
  line_count (fst (get_logs E args USER_ACCESS out w))
  = line_count w + Z.of_nat (List.length (access_lines E items)).
Proof.
  intros HP HS HJ HC HM.
  rewrite (get_logs_access_page E args out w resp b resj sid items HP HS HJ HC HM).
  simpl fst. split; [| split].
  - rewrite access_records_lines. simpl.
    rewrite !writes_app. simpl. now rewrite writes_map_EvWrite, app_nil_r.
  - apply access_lines_length.
  - destruct (access_records_stepped E out items (log_event (EvPost args) (set_net b w)))
      as (ls & [T _ _ _ L _] & _).
    rewrite access_records_lines in T. apply app_inv_head in T.
    rewrite L, writes_map_EvWrite. simpl.
    assert (ls = access_lines E items).
    { rewrite <- (writes_map_EvWrite ls), <- T. now rewrite writes_map_EvWrite. }
    now subst.
Qed.

(** X5: an admin page writes the lines of the elements of [data] in order,
    one for each record with a usable timestamp, up to the first record
    that is no mapping and fails: the records after that one are lost. *)
Theorem admin_page_writes_its_lines
    (args : drpc_args) (out : sink) (w : world) (resp : response) (b : backend)
    (resj sid msg : Py.value) (items : list Py.value) :
  post E (net w) (get_api_url ADMIN) args = (Py.Ok resp, b) ->
  status_code resp = 200 ->
  json resp = Py.Ok resj ->
  Py.contains "message" resj = Py.Ok true ->
  scroll_and_msg ADMIN resj = (sid, Py.Ok msg) ->
  Py.get msg "data" = Py.Ok (Py.VList items) ->
  writes (trace (fst (get_logs E args ADMIN out w)))
  = (writes (trace w) ++ admin_lines E items)%list /\
  (List.length (admin_lines E items) <= List.length items)%nat /\
  (forall before item after,
      items = (before ++ item :: after)%list ->
      Py.is_dict item = false ->
      admin_lines E items = admin_lines E before).
Proof.
  intros HP HS HJ HC HM HD.
  rewrite (get_logs_admin_page E args out w resp b resj sid msg HP HS HJ HC HM).
  rewrite HD. cbn [Py.bind Py.iter fst]. split; [| split].
  - rewrite admin_records_lines. simpl.
    rewrite !writes_app. simpl. now rewrite writes_map_EvWrite, app_nil_r.
  - apply admin_lines_length.
  - intros before item after -> Hd. clear HD.
    induction before as [|x before IH]; simpl.
    + destruct item; try discriminate Hd; reflexivity.
    + destruct (admin_line E x); [now rewrite IH |].
      destruct (Py.get x "splunk_line"); [exact IH | reflexivity].
Qed.

End MorePages.

(** ** Further properties of the loops *)

Section MoreLoops.

Context {backend : Type} (E : env backend).
Notation world := (world backend).

Arguments flush : simpl never.
Arguments get_logs : simpl never.
Arguments tell : simpl never.
Arguments poll : simpl never.
Arguments date_boundaries : simpl never.

(** A page that counts as an error carries no cursor. *)
Lemma lacks_message_no_cursor (lt : EventType) (r : Py.res response) :
  lacks_message r = true -> page_cursor lt r = Py.VNone.
Proof.
  unfold lacks_message, page_cursor. destruct r as [resp|e]; [| discriminate].
  destruct (status_code resp =? 200); [| discriminate]. simpl.
  destruct (json resp) as [resj|]; [| discriminate].
  destruct (Py.contains "message" resj) as [[|]|]; try discriminate. reflexivity.
Qed.

(** A window counts at most one error: the page that counts ends it. *)
Lemma drain_errors (fuel : nat) (lt : EventType) (sts ets : Z) (out : sink)
                   (sid : Py.value) (w : world) :
  error_count w <= error_count (fst (drain E fuel lt sts ets out sid w))
  <= error_count w + 1.
Proof.
  revert sid w. induction fuel as [|fuel IH]; intros sid w; [simpl; lia |].
  rewrite drain_S.
  pose proof (get_logs_error_count E (make_drpc_args sts ets sid) lt out w) as Ec.
  pose proof (get_logs_cursor E (make_drpc_args sts ets sid) lt out w) as Cu.
  destruct (get_logs E (make_drpc_args sts ets sid) lt out w) as [w1 sid'].
  simpl in Ec, Cu.
  pose proof (flush_stepped E out w1) as (ok & _ & _ & _ & Ef & _).
  destruct (flush E out w1) as [w2 r]. simpl in Ef.
  destruct (lacks_message (fst (post E (net w) (get_api_url lt)
                                     (make_drpc_args sts ets sid)))) eqn:LM.
  - rewrite (lacks_message_no_cursor lt _ LM) in Cu. subst sid'.
    destruct r; simpl; lia.
  - destruct r as [u|e]; [| simpl; lia].
    destruct (Py.is_None sid'); [simpl; lia |].
    specialize (IH sid' w2). lia.
Qed.

(** The requests of a window carry its bounds. *)
Lemma drain_requests (fuel : nat) (lt : EventType) (sts ets : Z) (out : sink)
                     (sid : Py.value) (w : world) :
  exists reqs,
    posts (trace (fst (drain E fuel lt sts ets out sid w)))
    = (posts (trace w) ++ reqs)%list /\
    Forall (of_window sts ets) reqs /\
    (snd (drain E fuel lt sts ets out sid w) <> Diverge -> reqs <> []).
Proof.
  revert sid w. induction fuel as [|fuel IH]; intros sid w.
  - exists []. simpl. rewrite app_nil_r. repeat split; [constructor | congruence].
  - rewrite drain_S.
    pose proof (get_logs_stepped E (make_drpc_args sts ets sid) lt out w)
      as (ls & [T1 _ _ _ _ _] & _).
    destruct (get_logs E (make_drpc_args sts ets sid) lt out w) as [w1 sid'].
    simpl in T1.
    pose proof (flush_stepped E out w1) as (ok & [T2 _ _ _ _ _] & _).
    destruct (flush E out w1) as [w2 r]. simpl in T2.
    assert (P : posts (trace w2) = (posts (trace w) ++ [make_drpc_args sts ets sid])%list).
    { rewrite T2, T1, !posts_app. simpl.
      now rewrite posts_map_EvWrite, app_nil_r. }
    assert (O : of_window sts ets (make_drpc_args sts ets sid)) by (repeat split).
    assert (one : exists reqs,
               posts (trace w2) = (posts (trace w) ++ reqs)%list /\
               Forall (of_window sts ets) reqs /\ reqs <> []).
    { exists [make_drpc_args sts ets sid]. repeat split; [exact P | | discriminate].
      now constructor. }
    destruct r as [u|e].
    + destruct (Py.is_None sid').
      * destruct one as (reqs & A & B & C). exists reqs. simpl. auto.
      * destruct (IH sid' w2) as (reqs & A & B & _).
        exists (make_drpc_args sts ets sid :: reqs). split; [| split].
        -- rewrite A, P, <- app_assoc. reflexivity.
        -- now constructor.
        -- discriminate.
    + destruct one as (reqs & A & B & C). exists reqs. simpl. auto.
Qed.

Lemma window_of_eq (cfg : config) (i : nat) (ets sts : Z) :
  date_boundaries (now E i) cfg = (ets, sts) -> window_of E cfg i = (sts, ets).
Proof.
  unfold window_of. now intros ->.
Qed.

(** The windows of the loop are those of the successive clock readings,
    and each of them counts at most one error. *)
Lemma poll_accounts (fuel i : nat) (cfg : config) (lt : EventType) (out : sink)
                    (sp : Z) (w : world) :
  exists k,
    (k <= fuel)%nat /\ (0 < fuel -> 1 <= k)%nat /\
    (tail cfg = false -> k <= 1)%nat /\
    windows (fst (poll E fuel i cfg lt out sp w))
    = (windows w ++ map (window_of E cfg) (seq i k))%list /\
    error_count w <= error_count (fst (poll E fuel i cfg lt out sp w))
    <= error_count w + Z.of_nat k.
Proof.
  revert i w. induction fuel as [|fuel IH]; intros i w.
  - exists 0%nat. simpl. rewrite app_nil_r. repeat split; lia.
  - rewrite poll_S. destruct (date_boundaries (now E i) cfg) as [ets sts] eqn:DB.
    apply window_of_eq in DB.
    pose proof (drain_stepped E fuel lt sts ets out Py.VNone (push_window sts ets w))
      as (evs & _ & _ & [W _]).
    pose proof (drain_errors fuel lt sts ets out Py.VNone (push_window sts ets w)) as Er.
    destruct (drain E fuel lt sts ets out Py.VNone (push_window sts ets w)) as [w1 o].
    simpl in W, Er.
    assert (W1 : windows w1 = (windows w ++ map (window_of E cfg) (seq i 1))%list).
    { rewrite W. simpl. now rewrite DB. }
    assert (one : forall w', untouched w1 w' -> windows w' = windows w1 ->
              exists k,
                (k <= S fuel)%nat /\ (0 < S fuel -> 1 <= k)%nat /\
                (tail cfg = false -> k <= 1)%nat /\
                windows w' = (windows w ++ map (window_of E cfg) (seq i k))%list /\
                error_count w <= error_count w' <= error_count w + Z.of_nat k).
    { intros w' U Hw. exists 1%nat. rewrite Hw, (un_errors _ _ U).
      repeat split; try lia; exact W1. }
    destruct o as [u|e|];
      [| apply one; [apply untouched_refl | reflexivity]
       | apply one; [apply untouched_refl | reflexivity]].
    cbv zeta. destruct (tail cfg) eqn:Tail; simpl negb; cbv iota.
    + set (w3 := deliver E i AfterWait
                   (Event_wait E i (deliver E i BeforeWait (deliver E i InFetch w1)))).
      assert (U3 : untouched w1 w3).
      { eapply untouched_trans; [apply untouched_deliver | apply untouched_cycle]. }
      assert (W3 : windows w3 = windows w1).
      { unfold w3. now rewrite windows_deliver, windows_wait, !windows_deliver. }
      destruct (stop_event w3); [now apply one |].
      destruct (IH (S i) w3) as (k & Kf & _ & _ & Wk & Ek).
      exists (S k). rewrite Wk, W3, W1, (un_errors _ _ U3) in *.
      repeat split; try lia; try discriminate.
      rewrite <- app_assoc. reflexivity.
    + destruct (batch cfg); simpl negb; cbv iota;
        [| destruct (tell out (deliver E i InFetch w1))];
        (apply one; [apply untouched_deliver | apply windows_deliver]).
Qed.


End MoreLoops.

(** ** Further properties of [fetch_logs] *)

Section MoreRuns.

Context {backend : Type} (E : env backend).
Notation world := (world backend).

Arguments flush : simpl never.
Arguments get_logs : simpl never.
Arguments tell : simpl never.
Arguments poll : simpl never.
Arguments date_boundaries : simpl never.

(** [fetch_logs] for a known log type: the sink is bound, its position is
    read, the loop runs, and the [finally] clause follows. *)
Lemma fetch_logs_run (fuel : nat) (cfg : config) (w : world) (lt : EventType) :
  EventType_of (log_type cfg) = Some lt ->
  fetch_logs E fuel cfg w
  = match sink_of (self_output cfg) w with
    | None =>
        (w, Ret (mkReport None
                   (Some match self_output cfg with
                         | TPath _ => Py.OSError
                         | _ => Py.AttributeError
                         end)))
    | Some out =>
        match tell out (prepared (self_output cfg) w) with
        | Py.Raise e =>
            (if is_stdout (self_output cfg) then prepared (self_output cfg) w
             else log_event EvClose (prepared (self_output cfg) w),
             Ret (mkReport None (Some e)))
        | Py.Ok sp =>
            let (w2, r) := poll E fuel 0 cfg lt out sp (prepared (self_output cfg) w) in
            conclude E (self_output cfg) (Some out) w w2 r
        end
    end.
Proof.
  intros HT. unfold fetch_logs. rewrite HT.
  destruct (self_output cfg) as [p|h|]; unfold acquire, open_wplus, sink_of, prepared.
  - destruct (disk w p); try reflexivity;
      (destruct (tell (SPath p) _) eqn:Tl; [reflexivity | discriminate Tl]).
  - destruct (tell (SHandle h) w); [reflexivity |].
    unfold conclude, close. rewrite skipn_all. now destruct h.
  - reflexivity.
Qed.

(** Binding the sink moves no counter, window or flag and sends nothing. *)
Lemma prepared_keeps (t : target) (w : world) :
  line_count (prepared t w) = line_count w /\
  error_count (prepared t w) = error_count w /\
  windows (prepared t w) = windows w /\
  stop_event (prepared t w) = stop_event w /\
  trace (prepared t w) = (trace w ++ opening t w)%list.
Proof.
  unfold prepared, opening. destruct t as [p|h|]; simpl; rewrite ?app_nil_r; auto.
  destruct (disk w p); simpl; rewrite ?app_nil_r; auto.
Qed.

(** What the loop leaves in the sink: lines are still held at the end of
    the [try] only when a flush has failed, and that flush was the last
    call. *)
Lemma run_buffered (fuel : nat) (cfg : config) (lt : EventType) (out : sink)
                   (sp : Z) (w : world) :
  buffered (skipn (List.length (trace w))
                  (trace (fst (poll E fuel 0 cfg lt out sp (prepared (self_output cfg) w)))))
  = true ->
  snd (poll E fuel 0 cfg lt out sp (prepared (self_output cfg) w)) = Exc Py.OSError /\
  exists before,
    buffered before = true /\
    trace (fst (poll E fuel 0 cfg lt out sp (prepared (self_output cfg) w)))
    = (trace w ++ before ++ [EvFlush false])%list.
Proof.
  destruct (prepared_keeps (self_output cfg) w) as (_ & _ & _ & _ & Tp).
  destruct (poll_buffered E fuel 0 cfg lt out sp (prepared (self_output cfg) w))
    as (evs & T & X).
  rewrite T, Tp, <- app_assoc, skipn_own.
  rewrite (buffered_after _ evs (buffered_opening (self_output cfg) w)).
  intros B. destruct (X B) as (X1 & before & ->). split; [exact X1 |].
  exists (opening (self_output cfg) w ++ before)%list. split.
  - rewrite (buffered_after _ before (buffered_opening (self_output cfg) w)).
    now rewrite buffered_failed in B.
  - now rewrite <- !app_assoc.
Qed.

(** X6: [fetch_logs] raises to its caller in two cases only.  An unknown
    log type (neither [access] nor [admin]) raises [ValueError] before
    anything is done.  Otherwise the one exception that leaves the
    function is that of [out.close()] in the [finally] clause: the last
    flush had failed with lines still in the sink, the output is not
    [sys.stdout], and the flush that [close] tries fails too.  The
    failures of the transport, of the answers, of the records and of
    [open], [tell] and [flush] are caught inside. *)
Theorem raises_at_entry_or_at_close (fuel : nat) (cfg : config) (w : world) :
  (EventType_of (log_type cfg) = None <->
   log_type cfg <> "access" /\ log_type cfg <> "admin") /\
  (EventType_of (log_type cfg) = None ->
   fetch_logs E fuel cfg w = (w, Exc Py.ValueError)) /\
  (forall e,
      EventType_of (log_type cfg) <> None ->
      snd (fetch_logs E fuel cfg w) = Exc e ->
      e = Py.OSError /\
      is_stdout (self_output cfg) = false /\
      flush_raises E (flushes (fst (fetch_logs E fuel cfg w))) = true /\
      exists before,
        buffered before = true /\
        trace (fst (fetch_logs E fuel cfg w))
        = (trace w ++ before ++ [EvFlush false; EvClose])%list).
Proof.
  split; [| split].
  - unfold EventType_of.
    destruct (String.eqb_spec (log_type cfg) "access") as [->|N1];
      [split; [discriminate | intros [H _]; congruence] |].
    destruct (String.eqb_spec (log_type cfg) "admin") as [->|N2];
      [split; [discriminate | intros [_ H]; congruence] |].
    split; auto.
  - intros HT. unfold fetch_logs. now rewrite HT.
  - intros e0 HT0.
    destruct (EventType_of (log_type cfg)) as [lt|] eqn:HT; [| contradiction].
    rewrite (fetch_logs_run fuel cfg w lt HT).
    destruct (sink_of (self_output cfg) w) as [out|]; [| discriminate].
    destruct (tell out _) as [sp|e]; [| discriminate].
    pose proof (run_buffered fuel cfg lt out sp w) as RB.
    destruct (poll E fuel 0 cfg lt out sp _) as [w2 r]. cbv beta iota.
    rewrite conclude_outcome, conclude_world. simpl in RB.
    destruct r as [s|e|]; [| | discriminate];
      (destruct (is_stdout (self_output cfg)); cbn [negb andb]; [discriminate |]);
      (destruct (buffered _); cbn [andb]; [| discriminate]);
      (destruct (flush_raises E (flushes w2)) eqn:FR; [| discriminate]);
      intros [= <-]; destruct (RB eq_refl) as (X & before & B & T);
      [discriminate X |].
    split; [reflexivity |]. split; [reflexivity |]. split; [exact FR |].
    exists before. split; [exact B |].
    simpl. rewrite T, <- !app_assoc. reflexivity.
Qed.

(** X7: when the output is a stream on which [tell] fails (a terminal, a
    pipe), the run ends before its first window: no request is sent and
    nothing is written; the failure is the fault of the report. *)
Theorem unseekable_stream_fetches_nothing
    (fuel : nat) (cfg : config) (w : world) (lt : EventType) (h : handle) :
  EventType_of (log_type cfg) = Some lt ->
  self_output cfg = TStream h ->
  seekable (streams w h) = false ->
  snd (fetch_logs E fuel cfg w) = Ret (mkReport None (Some Py.OSError)) /\
  posts (trace (fst (fetch_logs E fuel cfg w))) = posts (trace w) /\
  writes (trace (fst (fetch_logs E fuel cfg w))) = writes (trace w) /\
  windows (fst (fetch_logs E fuel cfg w)) = windows w /\
  streams (fst (fetch_logs E fuel cfg w)) = streams w.
Proof.
  intros HT HO Sk. rewrite (fetch_logs_run fuel cfg w lt HT), HO. simpl.
  assert (Tl : tell (SHandle h) w = Py.Raise Py.OSError).
  { unfold tell. now rewrite Sk. }
  rewrite Tl. destruct h; simpl; rewrite ?posts_app, ?writes_app, ?app_nil_r;
    repeat split.
Qed.

Lemma poll_summary_window (fuel i : nat) (cfg : config) (lt : EventType) (out : sink)
                          (sp : Z) (w : world) (s : summary) :
  snd (poll E fuel i cfg lt out sp w) = Ret (Some s) ->
  (sum_start s, sum_end s) = window_of E cfg i.
Proof.
  destruct fuel as [|fuel]; [discriminate |].
  rewrite poll_S. destruct (date_boundaries (now E i) cfg) as [ets sts] eqn:DB.
  rewrite (window_of_eq E cfg i ets sts DB).
  destruct (drain E fuel lt sts ets out Py.VNone (push_window sts ets w)) as [w1 o].
  destruct o as [u|e|]; try discriminate.
  cbv zeta. destruct (tail cfg) eqn:Tail; simpl negb; cbv iota.
  - destruct (stop_event _); [discriminate |].
    intros H. apply (poll_summary E) in H. destruct H as (_ & _ & _ & T & _).
    congruence.
  - destruct (batch cfg); simpl negb; cbv iota; [discriminate |].
    destruct (tell out _); [| discriminate].
    simpl. now intros [= <-].
Qed.

(** X8: a summary is shown only by a bounded run that is not in batch mode
    and met no fault; it shows the window of the first clock reading and
    the two counters as they stand when the function returns. *)
Theorem summary_reports
    (fuel : nat) (cfg : config) (w w' : world) (rep : report) (s : summary) :
  fetch_logs E fuel cfg w = (w', Ret rep) ->
  printed rep = Some s ->
  tail cfg = false /\ batch cfg = false /\ fault rep = None /\
  (sum_start s, sum_end s) = window_of E cfg 0 /\
  sum_events s = line_count w' /\ sum_errors s = error_count w'.
Proof.
  intros F P.
  destruct (EventType_of (log_type cfg)) as [lt|] eqn:HT;
    [| unfold fetch_logs in F; rewrite HT in F; discriminate].
  rewrite (fetch_logs_run fuel cfg w lt HT) in F.
  destruct (sink_of (self_output cfg) w) as [out|];
    [| injection F as <- <-; discriminate].
  destruct (tell out _) as [sp|e]; [| injection F as <- <-; discriminate].
  pose proof (poll_summary E fuel 0 cfg lt out sp (prepared (self_output cfg) w) s) as Sm.
  pose proof (poll_summary_window fuel 0 cfg lt out sp (prepared (self_output cfg) w) s)
    as Sw.
  destruct (poll E fuel 0 cfg lt out sp _) as [w2 r]. cbv beta iota in F.
  pose proof (f_equal fst F) as Fw. pose proof (f_equal snd F) as Fr.
  rewrite conclude_world in Fw. rewrite conclude_outcome in Fr. simpl in Fw, Fr.
  destruct r as [os|e|]; [| | discriminate];
    (destruct (_ && _) in Fr; [discriminate |]); injection Fr as <-;
    [| discriminate].
  simpl in P. subst os w'.
  destruct (Sm eq_refl) as (_ & Ev & Er & T & B). specialize (Sw eq_refl).
  simpl in Ev, Er.
  repeat split; try assumption;
    destruct (is_stdout (self_output cfg)); assumption.
Qed.

(** X9: the windows of a run are those of the successive clock readings, in
    order, one for each cycle; a bounded run has at most one, and each
    window adds at most one to the error counter, which never goes down. *)
Theorem run_windows (fuel : nat) (cfg : config) (w : world) :
  exists k,
    (k <= fuel)%nat /\
    (tail cfg = false -> k <= 1)%nat /\
    windows (fst (fetch_logs E fuel cfg w))
    = (windows w ++ map (window_of E cfg) (seq 0 k))%list /\
    error_count w <= error_count (fst (fetch_logs E fuel cfg w))
    <= error_count w + Z.of_nat k.
Proof.
  assert (none : forall w' : world, windows w' = windows w -> error_count w' = error_count w ->
            exists k,
              (k <= fuel)%nat /\ (tail cfg = false -> k <= 1)%nat /\
              windows w' = (windows w ++ map (window_of E cfg) (seq 0 k))%list /\
              error_count w <= error_count w' <= error_count w + Z.of_nat k).
  { intros w' Hw He. exists 0%nat. rewrite Hw, He. simpl. rewrite app_nil_r.
    repeat split; lia. }
  destruct (EventType_of (log_type cfg)) as [lt|] eqn:HT;
    [| unfold fetch_logs; rewrite HT; now apply none].
  rewrite (fetch_logs_run fuel cfg w lt HT).
  destruct (prepared_keeps (self_output cfg) w) as (_ & Ep & Wp & _).
  destruct (sink_of (self_output cfg) w) as [out|]; [| now apply none].
  destruct (tell out _) as [sp|e];
    [| destruct (is_stdout (self_output cfg)); now apply none].
  destruct (poll_accounts E fuel 0 cfg lt out sp (prepared (self_output cfg) w))
    as (k & Kf & _ & Kb & Wk & Ek).
  destruct (poll E fuel 0 cfg lt out sp _) as [w2 r]. cbv beta iota.
  rewrite conclude_world.
  simpl in Wk, Ek. rewrite Wp in Wk. rewrite Ep in Ek.
  exists k.
  destruct r as [s|e|]; simpl; try destruct (is_stdout (self_output cfg)); simpl;
    repeat split; try assumption; lia.
Qed.

(** X10: in tail mode the start of a window lies after the end of the window
    before it by the time between the two clock readings, cut to whole
    seconds, less fifteen seconds: the windows meet when the cycles are
    fifteen seconds apart, overlap when they are closer and leave a gap
    when they are further apart. *)
Theorem tail_windows_gap
    (fuel : nat) (cfg : config) (w : world) (j : nat) (s1 e1 s2 e2 : Z) :
  tail cfg = true ->
  nth_error (windows (fst (fetch_logs E fuel cfg w))) (List.length (windows w) + j)
  = Some (s1, e1) ->
  nth_error (windows (fst (fetch_logs E fuel cfg w))) (List.length (windows w) + S j)
  = Some (s2, e2) ->
  s2 - e1 = 1000 * (Qfloor (now E (S j)) - Qfloor (now E j) - 15).
Proof.
  intros Tail.
  assert (Wj : forall i, window_of E cfg i
                         = (Qfloor (now E i) * 1000 - 60000 - 15000,
                            Qfloor (now E i) * 1000 - 60000)).
  { intros i. unfold window_of, date_boundaries, COLLECTION_DELAY_MINUTES,
      PULL_INTERVAL_SEC. rewrite Tail. reflexivity. }
  assert (Nth : forall ws k i x,
             nth_error (ws ++ map (window_of E cfg) (seq 0 k)) (List.length ws + i)
             = Some x -> x = window_of E cfg i).
  { intros ws k i x. rewrite nth_error_app2 by lia.
    replace (List.length ws + i - List.length ws)%nat with i by lia.
    rewrite nth_error_map.
    rewrite nth_error_seq. destruct (Nat.ltb i k); [| discriminate].
    simpl. now intros [= <-]. }
  assert (W : exists k, windows (fst (fetch_logs E fuel cfg w))
                        = (windows w ++ map (window_of E cfg) (seq 0 k))%list).
  { destruct (EventType_of (log_type cfg)) as [lt|] eqn:HT;
      [| exists 0%nat; unfold fetch_logs; rewrite HT; simpl; now rewrite app_nil_r].
    rewrite (fetch_logs_run fuel cfg w lt HT).
    destruct (prepared_keeps (self_output cfg) w) as (_ & _ & Wp & _).
    destruct (sink_of (self_output cfg) w) as [out|];
      [| exists 0%nat; simpl; now rewrite app_nil_r].
    destruct (tell out _) as [sp|e];
      [| exists 0%nat; destruct (is_stdout (self_output cfg)); simpl;
         now rewrite Wp, app_nil_r].
    destruct (poll_accounts E fuel 0 cfg lt out sp (prepared (self_output cfg) w))
      as (k & _ & _ & _ & Wk & _).
    destruct (poll E fuel 0 cfg lt out sp _) as [w2 r]. simpl in Wk. rewrite Wp in Wk.
    cbv beta iota. rewrite conclude_world.
    exists k. destruct r; simpl; try destruct (is_stdout (self_output cfg)); exact Wk. }
  destruct W as (k & ->). intros H1 H2.
  apply Nth in H1. apply Nth in H2. rewrite Wj in H1, H2.
  injection H1 as -> ->. injection H2 as -> ->. lia.
Qed.

End MoreRuns.

(** ** Faults, frames and requests of a run *)

Section RunInvariants.

Context {backend : Type} (E : env backend).
Notation world := (world backend).

Arguments flush : simpl never.
Arguments get_logs : simpl never.
Arguments tell : simpl never.
Arguments poll : simpl never.
Arguments date_boundaries : simpl never.

Lemma no_fault_in_page (a : drpc_args) (ls : list string) :
  ~ In (EvFlush false) (EvPost a :: map EvWrite ls).
Proof.
  intros [H | H]; [discriminate |].
  apply in_map_iff in H. destruct H as (s & H & _). discriminate.
Qed.

(** Where a failed flush stands in a trace made of a part without one, a
    part where it can only be last, and a part without one. *)
Lemma split_at_fault (a b c before after : list event) :
  ~ In (EvFlush false) a -> fault_is_last b -> ~ In (EvFlush false) c ->
  (a ++ b ++ c = before ++ EvFlush false :: after)%list ->
  after = c /\ In (EvFlush false) b.
Proof.
  intros Na Fb Nc.
  assert (G : forall b0 before0,
             (b0 ++ c = before0 ++ EvFlush false :: after)%list ->
             exists b1 b2, b0 = (b1 ++ EvFlush false :: b2)%list /\ after = (b2 ++ c)%list).
  { induction b0 as [|x b0 IH]; intros before0 H.
    - exfalso. apply Nc. simpl in H. rewrite H. apply in_elt.
    - destruct before0 as [|y before0]; simpl in H; injection H as -> H.
      + exists [], b0. now split.
      + destruct (IH before0 H) as (b1 & b2 & -> & ->).
        exists (y :: b1), b2. now split. }
  revert before. induction a as [|x a IH]; intros before H.
  - simpl in H. destruct (G b before H) as (b1 & b2 & Hb & ->).
    rewrite (Fb b1 b2 Hb) in *. split; [reflexivity |]. rewrite Hb. apply in_elt.
  - destruct before as [|y before]; simpl in H; injection H as -> H.
    + exfalso. apply Na. now left.
    + apply (IH (fun I => Na (or_intror I)) before H).
Qed.

Lemma fault_is_last_clean (evs : list event) :
  ~ In (EvFlush false) evs -> fault_is_last evs.
Proof.
  intros N before after H. exfalso. apply N. rewrite H. apply in_elt.
Qed.

Lemma fault_is_last_end (evs : list event) :
  ~ In (EvFlush false) evs -> fault_is_last (evs ++ [EvFlush false]).
Proof.
  intros N before after H.
  assert (F1 : fault_is_last [EvFlush false]).
  { intros b1 b2 H1. destruct b1 as [|x [|y b1]]; simpl in H1.
    - now injection H1 as <-.
    - injection H1 as _ H1. discriminate.
    - injection H1 as _ H1. discriminate. }
  destruct (split_at_fault evs [EvFlush false] [] before after N F1 (fun I => I))
    as [-> _]; [simpl; exact H | reflexivity].
Qed.

Lemma fault_is_last_app (a b : list event) :
  ~ In (EvFlush false) a -> fault_is_last b -> fault_is_last (a ++ b).
Proof.
  intros N F before after H.
  destruct (split_at_fault a b [] before after N F (fun I => I)) as [-> _];
    [now rewrite app_nil_r | reflexivity].
Qed.

(** The only exception that leaves the inner loop is a failed flush, and
    the failed flush is the last call of the loop. *)
Lemma drain_fault (fuel : nat) (lt : EventType) (sts ets : Z) (out : sink)
                  (sid : Py.value) (w : world) :
  exists evs,
    trace (fst (drain E fuel lt sts ets out sid w)) = (trace w ++ evs)%list /\
    fault_is_last evs /\
    (In (EvFlush false) evs -> snd (drain E fuel lt sts ets out sid w) = Exc Py.OSError).
Proof.
  revert sid w. induction fuel as [|fuel IH]; intros sid w.
  - exists []. simpl. rewrite app_nil_r.
    split; [reflexivity | split; [now apply fault_is_last_clean | intros []]].
  - rewrite drain_S.
    pose proof (get_logs_stepped E (make_drpc_args sts ets sid) lt out w)
      as (ls & [T1 _ _ _ _ _] & _).
    destruct (get_logs E (make_drpc_args sts ets sid) lt out w) as [w1 sid'].
    simpl in T1.
    pose proof (flush_stepped E out w1) as (ok & [T2 _ _ _ _ _] & _ & _ & _ & R).
    destruct (flush E out w1) as [w2 r]. simpl in T2, R.
    pose proof (no_fault_in_page (make_drpc_args sts ets sid) ls) as Np.
    rewrite T1, <- app_assoc in T2.
    destruct ok; subst r.
    + assert (Nq : ~ In (EvFlush false)
                     ((EvPost (make_drpc_args sts ets sid) :: map EvWrite ls)
                        ++ [EvFlush true])).
      { intros I. apply in_app_or in I. destruct I as [I | [I | []]];
          [now apply Np | discriminate]. }
      destruct (Py.is_None sid').
      * eexists. split; [exact T2 | split; [now apply fault_is_last_clean |]].
        intros I. now apply Nq in I.
      * destruct (IH sid' w2) as (evs & T3 & F3 & X3).
        eexists. split; [| split].
        -- rewrite T3, T2, <- app_assoc. reflexivity.
        -- now apply fault_is_last_app.
        -- intros I. apply in_app_or in I. destruct I as [I | I];
             [now apply Nq in I | now apply X3].
    + eexists. split; [exact T2 | split; [now apply fault_is_last_end |]].
      reflexivity.
Qed.

Lemma trace_cycle (i : nat) (w : world) :
  trace (deliver E i AfterWait (Event_wait E i (deliver E i BeforeWait w))) = trace w.
Proof.
  apply (un_trace _ _ (untouched_cycle E i w)).
Qed.

Lemma trace_deliver (i : nat) (p : phase) (w : world) :
  trace (deliver E i p w) = trace w.
Proof.
  apply (un_trace _ _ (untouched_deliver E i p w)).
Qed.

Lemma poll_fault (fuel i : nat) (cfg : config) (lt : EventType) (out : sink)
                 (sp : Z) (w : world) :
  exists evs,
    trace (fst (poll E fuel i cfg lt out sp w)) = (trace w ++ evs)%list /\
    fault_is_last evs /\
    (In (EvFlush false) evs -> snd (poll E fuel i cfg lt out sp w) = Exc Py.OSError).
Proof.
  revert i w. induction fuel as [|fuel IH]; intros i w.
  - exists []. simpl. rewrite app_nil_r.
    split; [reflexivity | split; [now apply fault_is_last_clean | intros []]].
  - rewrite poll_S. destruct (date_boundaries (now E i) cfg) as [ets sts].
    destruct (drain_fault fuel lt sts ets out Py.VNone (push_window sts ets w))
      as (evs & T & F & X).
    destruct (drain E fuel lt sts ets out Py.VNone (push_window sts ets w)) as [w1 o].
    simpl in T, X. change (trace (push_window sts ets w)) with (trace w) in T.
    destruct o as [u|e|].
    + assert (N : ~ In (EvFlush false) evs) by (intros I; now apply X in I).
      cbv zeta. destruct (negb (tail cfg)).
      * destruct (negb (batch cfg)); [destruct (tell out _) |];
          (exists evs; simpl; rewrite trace_deliver;
           split; [exact T | split; [exact F | intros I; now apply N in I]]).
      * destruct (stop_event _).
        -- exists evs. simpl. rewrite trace_cycle, trace_deliver.
           split; [exact T | split; [exact F | intros I; now apply N in I]].
        -- destruct (IH (S i) (deliver E i AfterWait
                                 (Event_wait E i (deliver E i BeforeWait
                                                    (deliver E i InFetch w1)))))
             as (evs' & T' & F' & X').
           rewrite trace_cycle, trace_deliver, T in T'.
           exists (evs ++ evs')%list. split; [| split].
           ++ rewrite T'. now rewrite app_assoc.
           ++ now apply fault_is_last_app.
           ++ intros I. apply in_app_or in I. destruct I as [I | I];
                [now apply N in I | now apply X'].
    + exists evs. simpl. split; [exact T | split; [exact F |]].
      intros I. apply X in I. now injection I as ->.
    + exists evs. simpl. split; [exact T | split; [exact F |]].
      intros I. apply X in I. discriminate.
Qed.

(** X11: once a flush has failed the run sends no request and writes
    nothing more: the only call that can follow is the one that closes
    the sink.  The function then returns the failure as the fault of its
    report, with no summary, unless [close] raises in its turn, which it
    does when lines are still in the sink, the output is not [sys.stdout]
    and the flush that [close] tries fails too: then [OSError] leaves the
    function. *)
Theorem failed_flush_ends_the_run (fuel : nat) (cfg : config) (w : world) :
  exists evs,
    trace (fst (fetch_logs E fuel cfg w)) = (trace w ++ evs)%list /\
    forall before after,
      evs = (before ++ EvFlush false :: after)%list ->
      after = (if is_stdout (self_output cfg) then [] else [EvClose]) /\
      snd (fetch_logs E fuel cfg w)
      = (if negb (is_stdout (self_output cfg))
            && (buffered before
                && flush_raises E (flushes (fst (fetch_logs E fuel cfg w))))
         then Exc Py.OSError
         else Ret (mkReport None (Some Py.OSError))).
Proof.
  assert (none : forall (x : world * outcome report) (evs : list event),
            trace (fst x) = (trace w ++ evs)%list -> ~ In (EvFlush false) evs ->
            exists evs,
              trace (fst x) = (trace w ++ evs)%list /\
              forall before after,
                evs = (before ++ EvFlush false :: after)%list ->
                after = (if is_stdout (self_output cfg) then [] else [EvClose]) /\
                snd x
                = (if negb (is_stdout (self_output cfg))
                      && (buffered before && flush_raises E (flushes (fst x)))
                   then Exc Py.OSError
                   else Ret (mkReport None (Some Py.OSError)))).
  { intros x evs T N. exists evs. split; [exact T |].
    intros before after H. exfalso. apply N. rewrite H. apply in_elt. }
  destruct (EventType_of (log_type cfg)) as [lt|] eqn:HT;
    [| unfold fetch_logs; rewrite HT;
       apply (none _ []); [simpl; now rewrite app_nil_r | intros []]].
  rewrite (fetch_logs_run E fuel cfg w lt HT).
  destruct (prepared_keeps (self_output cfg) w) as (_ & _ & _ & _ & Tp).
  assert (No : ~ In (EvFlush false) (opening (self_output cfg) w)).
  { unfold opening. destruct (self_output cfg) as [p|h|]; try (intros []).
    destruct (disk w p); simpl; intros I; try destruct I as [I | []]; try discriminate;
      assumption. }
  assert (Nc : ~ In (EvFlush false)
                 (if is_stdout (self_output cfg) then [] else [EvClose])).
  { destruct (is_stdout (self_output cfg)); simpl; intros I;
      try destruct I as [I | []]; try discriminate; assumption. }
  destruct (sink_of (self_output cfg) w) as [out|];
    [| apply (none _ []); [simpl; now rewrite app_nil_r | intros []]].
  destruct (tell out _) as [sp|e].
  - destruct (poll_fault fuel 0 cfg lt out sp (prepared (self_output cfg) w))
      as (body & T & F & X).
    destruct (poll E fuel 0 cfg lt out sp _) as [w2 r]. simpl in T, X.
    cbv beta iota. rewrite Tp, <- app_assoc in T.
    rewrite conclude_outcome, !conclude_world.
    destruct r as [s|e|].
    + apply (none (_, _) (opening (self_output cfg) w ++ body
                          ++ (if is_stdout (self_output cfg) then [] else [EvClose]))%list).
      * destruct (is_stdout (self_output cfg)); simpl; rewrite T;
          [now rewrite app_nil_r | now rewrite <- !app_assoc].
      * intros I. apply in_app_or in I. destruct I as [I | I]; [now apply No in I |].
        apply in_app_or in I. destruct I as [I | I]; [| now apply Nc in I].
        apply X in I. discriminate.
    + exists (opening (self_output cfg) w ++ body
              ++ (if is_stdout (self_output cfg) then [] else [EvClose]))%list.
      split.
      * destruct (is_stdout (self_output cfg)); simpl; rewrite T;
          [now rewrite app_nil_r | now rewrite <- !app_assoc].
      * intros before after H.
        pose proof (split_at_fault _ _ _ _ _ No F Nc H) as [-> I].
        apply X in I. injection I as ->. split; [reflexivity |].
        assert (Hb : (opening (self_output cfg) w ++ body)%list
                     = (before ++ [EvFlush false])%list).
        { apply (app_inv_tail (if is_stdout (self_output cfg) then [] else [EvClose])).
          rewrite <- !app_assoc. exact H. }
        rewrite T, skipn_own, Hb, buffered_failed.
        destruct (is_stdout (self_output cfg)); reflexivity.
    + apply (none (_, _) (opening (self_output cfg) w ++ body)%list);
        [exact T |].
      intros I. apply in_app_or in I. destruct I as [I | I]; [now apply No in I |].
      apply X in I. discriminate.
  - apply (none (_, _) (opening (self_output cfg) w
                        ++ (if is_stdout (self_output cfg) then [] else [EvClose]))%list).
    + destruct (is_stdout (self_output cfg)); simpl; rewrite Tp;
        [now rewrite app_nil_r | now rewrite <- app_assoc].
    + intros I. apply in_app_or in I. destruct I as [I | I];
        [now apply No in I | now apply Nc in I].
Qed.

End RunInvariants.

(** ** What a run touches, asks for and waits for *)

Section RunFrames.

Context {backend : Type} (E : env backend).
Notation world := (world backend).

Arguments flush : simpl never.
Arguments get_logs : simpl never.
Arguments tell : simpl never.
Arguments poll : simpl never.
Arguments date_boundaries : simpl never.

Lemma drain_elsewhere (fuel : nat) (lt : EventType) (sts ets : Z) (out : sink)
                      (sid : Py.value) (w : world) :
  (forall q, out <> SPath q ->
             disk (fst (drain E fuel lt sts ets out sid w)) q = disk w q) /\
  (forall h, out <> SHandle h ->
             streams (fst (drain E fuel lt sts ets out sid w)) h = streams w h).
Proof.
  revert sid w. induction fuel as [|fuel IH]; intros sid w; [now split |].
  rewrite drain_S.
  pose proof (get_logs_elsewhere E (make_drpc_args sts ets sid) lt out w) as [D1 S1].
  destruct (get_logs E (make_drpc_args sts ets sid) lt out w) as [w1 sid'].
  simpl in D1, S1.
  assert (D2 : disk (fst (flush E out w1)) = disk w1) by reflexivity.
  assert (S2 : streams (fst (flush E out w1)) = streams w1) by reflexivity.
  destruct (flush E out w1) as [w2 r]. simpl in D2, S2.
  assert (stop : (forall q, out <> SPath q -> disk w2 q = disk w q) /\
                 (forall h, out <> SHandle h -> streams w2 h = streams w h)).
  { split; intros x Hx; [rewrite D2 | rewrite S2]; auto. }
  destruct r as [u|e]; [| exact stop].
  destruct (Py.is_None sid'); [exact stop |].
  destruct (IH sid' w2) as [D3 S3]. destruct stop as [D S].
  split; intros x Hx; [rewrite D3 | rewrite S3]; auto.
Qed.

Lemma poll_elsewhere (fuel i : nat) (cfg : config) (lt : EventType) (out : sink)
                     (sp : Z) (w : world) :
  (forall q, out <> SPath q ->
             disk (fst (poll E fuel i cfg lt out sp w)) q = disk w q) /\
  (forall h, out <> SHandle h ->
             streams (fst (poll E fuel i cfg lt out sp w)) h = streams w h).
Proof.
  revert i w. induction fuel as [|fuel IH]; intros i w; [now split |].
  rewrite poll_S. destruct (date_boundaries (now E i) cfg) as [ets sts].
  pose proof (drain_elsewhere fuel lt sts ets out Py.VNone (push_window sts ets w))
    as [D1 S1].
  destruct (drain E fuel lt sts ets out Py.VNone (push_window sts ets w)) as [w1 o].
  simpl in D1, S1.
  destruct o as [u|e|]; [| now split | now split].
  cbv zeta.
  destruct (untouched_deliver E i InFetch w1) as [_ D2 S2 _ _ _ _].
  assert (two : (forall q, out <> SPath q -> disk (deliver E i InFetch w1) q = disk w q) /\
                (forall h, out <> SHandle h ->
                           streams (deliver E i InFetch w1) h = streams w h)).
  { split; intros x Hx; [rewrite D2 | rewrite S2]; auto. }
  destruct (negb (tail cfg)).
  - destruct (negb (batch cfg)); [destruct (tell out _) |]; exact two.
  - destruct (untouched_cycle E i (deliver E i InFetch w1)) as [_ D3 S3 _ _ _ _].
    destruct two as [Dt St].
    assert (three :
      (forall q, out <> SPath q ->
         disk (deliver E i AfterWait
                 (Event_wait E i (deliver E i BeforeWait (deliver E i InFetch w1)))) q
         = disk w q) /\
      (forall h, out <> SHandle h ->
         streams (deliver E i AfterWait
                    (Event_wait E i (deliver E i BeforeWait (deliver E i InFetch w1)))) h
         = streams w h)).
    { split; intros x Hx; [rewrite D3 | rewrite S3]; auto. }
    destruct (stop_event _); [exact three |].
    destruct (IH (S i) (deliver E i AfterWait
                          (Event_wait E i (deliver E i BeforeWait
                                             (deliver E i InFetch w1))))) as [D4 S4].
    destruct three as [D' S'].
    split; intros x Hx; [rewrite D4 | rewrite S4]; auto.
Qed.

(** X12: a run leaves every file other than the path it writes to, and
    every stream other than the one it writes to, as it found them. *)
Theorem run_touches_only_its_sink (fuel : nat) (cfg : config) (w : world) :
  (forall q, self_output cfg <> TPath q ->
             disk (fst (fetch_logs E fuel cfg w)) q = disk w q) /\
  (forall h, self_output cfg <> TStream h ->
             streams (fst (fetch_logs E fuel cfg w)) h = streams w h).
Proof.
  destruct (EventType_of (log_type cfg)) as [lt|] eqn:HT;
    [| unfold fetch_logs; rewrite HT; now split].
  rewrite (fetch_logs_run E fuel cfg w lt HT).
  assert (Pr : (forall q, self_output cfg <> TPath q ->
                          disk (prepared (self_output cfg) w) q = disk w q) /\
               streams (prepared (self_output cfg) w) = streams w).
  { unfold prepared. destruct (self_output cfg) as [p|h|]; try now split.
    destruct (disk w p) eqn:Dp; simpl; split; try reflexivity; intros q Hq;
      try reflexivity;
      (destruct (String.eqb_spec q p); [subst; congruence | reflexivity]). }
  assert (Sk : forall out, sink_of (self_output cfg) w = Some out ->
                 (forall q, self_output cfg <> TPath q -> out <> SPath q) /\
                 (forall h, self_output cfg <> TStream h -> out <> SHandle h)).
  { unfold sink_of. intros out. destruct (self_output cfg) as [p|h|].
    - destruct (disk w p); intros [= <-]; split; congruence.
    - intros [= <-]; split; congruence.
    - discriminate. }
  destruct Pr as [Dp Sp].
  destruct (sink_of (self_output cfg) w) as [out|]; [| now split].
  destruct (Sk out eq_refl) as [NP NH].
  destruct (tell out _) as [sp|e].
  - destruct (poll_elsewhere fuel 0 cfg lt out sp (prepared (self_output cfg) w))
      as [D S].
    destruct (poll E fuel 0 cfg lt out sp _) as [w2 r]. simpl in D, S.
    assert (G : (forall q, self_output cfg <> TPath q -> disk w2 q = disk w q) /\
                (forall h, self_output cfg <> TStream h -> streams w2 h = streams w h)).
    { split; intros x Hx; [rewrite D, Dp | rewrite S, Sp]; auto. }
    cbv beta iota. rewrite !conclude_world.
    destruct r as [s|e|]; simpl; try destruct (is_stdout (self_output cfg)); exact G.
  - simpl. destruct (is_stdout (self_output cfg)); simpl;
      (split; [exact Dp | intros h _; now rewrite Sp]).
Qed.


(** X14: over a whole run the line counter goes up by the number of
    writes that returned, the ones the trace lists: each is followed by
    one increment and nothing else moves the counter. *)
Theorem line_counter_counts_writes (fuel : nat) (cfg : config) (w : world) :
  exists evs,
    trace (fst (fetch_logs E fuel cfg w)) = (trace w ++ evs)%list /\
    line_count (fst (fetch_logs E fuel cfg w))
    = line_count w + Z.of_nat (List.length (writes evs)).
Proof.
  assert (none : forall (w' : world) (evs : list event),
            trace w' = (trace w ++ evs)%list -> writes evs = [] ->
            line_count w' = line_count w ->
            exists evs,
              trace w' = (trace w ++ evs)%list /\
              line_count w' = line_count w + Z.of_nat (List.length (writes evs))).
  { intros w' evs T W L. exists evs. rewrite W, L. simpl. split; [exact T | lia]. }
  destruct (EventType_of (log_type cfg)) as [lt|] eqn:HT;
    [| unfold fetch_logs; rewrite HT; simpl; apply (none w []); auto using app_nil_r].
  rewrite (fetch_logs_run E fuel cfg w lt HT).
  destruct (prepared_keeps (self_output cfg) w) as (Lp & _ & _ & _ & Tp).
  assert (Wo : writes (opening (self_output cfg) w) = []).
  { unfold opening. destruct (self_output cfg) as [p|h|]; try reflexivity.
    now destruct (disk w p). }
  destruct (sink_of (self_output cfg) w) as [out|];
    [| simpl; apply (none w []); auto using app_nil_r].
  destruct (tell out _) as [sp|e].
  - destruct (poll_stepped E fuel 0 cfg lt out sp (prepared (self_output cfg) w))
      as (evs & _ & [T _ _ _ L _]).
    destruct (poll E fuel 0 cfg lt out sp _) as [w2 r]. simpl in T, L.
    rewrite Tp, <- app_assoc in T. rewrite Lp in L.
    assert (G : exists evs0,
               trace (if is_stdout (self_output cfg) then w2 else log_event EvClose w2)
               = (trace w ++ evs0)%list /\
               line_count (if is_stdout (self_output cfg) then w2 else log_event EvClose w2)
               = line_count w + Z.of_nat (List.length (writes evs0))).
    { destruct (is_stdout (self_output cfg)).
      - exists (opening (self_output cfg) w ++ evs)%list.
        rewrite writes_app, Wo. now split.
      - exists ((opening (self_output cfg) w ++ evs) ++ [EvClose])%list.
        rewrite !writes_app, Wo. simpl. rewrite T, app_nil_r, <- app_assoc.
        now split. }
    cbv beta iota. rewrite !conclude_world.
    destruct r as [s|e|]; simpl; try exact G.
    exists (opening (self_output cfg) w ++ evs)%list.
    rewrite writes_app, Wo. now split.
  - simpl. destruct (is_stdout (self_output cfg)).
    + apply (none _ (opening (self_output cfg) w)); auto.
    + apply (none _ (opening (self_output cfg) w ++ [EvClose])%list).
      * simpl. now rewrite Tp, <- app_assoc.
      * now rewrite writes_app, Wo.
      * exact Lp.
Qed.

Lemma poll_grouped (fuel i : nat) (cfg : config) (lt : EventType) (out : sink)
                   (sp : Z) (w : world) :
  exists wins groups,
    windows (fst (poll E fuel i cfg lt out sp w)) = (windows w ++ wins)%list /\
    posts (trace (fst (poll E fuel i cfg lt out sp w)))
    = (posts (trace w) ++ List.concat groups)%list /\
    Forall2 (fun win g => Forall (of_window (fst win) (snd win)) g) wins groups /\
    (snd (poll E fuel i cfg lt out sp w) <> Diverge -> ~ In [] groups).
Proof.
  revert i w. induction fuel as [|fuel IH]; intros i w.
  - exists [], []. simpl. rewrite !app_nil_r.
    repeat split; [constructor | congruence].
  - rewrite poll_S. destruct (date_boundaries (now E i) cfg) as [ets sts].
    destruct (drain_requests E fuel lt sts ets out Py.VNone (push_window sts ets w))
      as (reqs & P & A & N).
    destruct (drain_stepped E fuel lt sts ets out Py.VNone (push_window sts ets w))
      as (_ & _ & _ & [W _]).
    destruct (drain E fuel lt sts ets out Py.VNone (push_window sts ets w)) as [w1 o].
    simpl in P, N, W. change (trace (push_window sts ets w)) with (trace w) in P.
    change (windows (push_window sts ets w)) with (windows w ++ [(sts, ets)])%list in W.
    assert (one : forall (w' : world) (o' : outcome (option summary)),
              windows w' = windows w1 -> trace w' = trace w1 ->
              (o' <> Diverge -> o <> Diverge) ->
              exists wins groups,
                windows w' = (windows w ++ wins)%list /\
                posts (trace w') = (posts (trace w) ++ List.concat groups)%list /\
                Forall2 (fun win g => Forall (of_window (fst win) (snd win)) g)
                        wins groups /\
                (o' <> Diverge -> ~ In [] groups)).
    { intros w' o' Hw Ht Ho. exists [(sts, ets)], [reqs].
      rewrite Hw, Ht, W, P. simpl. rewrite app_nil_r.
      repeat split; [constructor; [exact A | constructor] |].
      intros ND [I | []]. apply (N (Ho ND)). now symmetry. }
    destruct o as [u|e|];
      [| apply one; [reflexivity | reflexivity | intros _; discriminate]
       | apply one; [reflexivity | reflexivity | auto]].
    cbv zeta. destruct (negb (tail cfg)).
    + destruct (negb (batch cfg)); [destruct (tell out _) |];
        (apply one; [apply windows_deliver | apply (un_trace _ _ (untouched_deliver E _ _ _))
                    | intros _; discriminate]).
    + assert (Wc : windows (deliver E i AfterWait
                              (Event_wait E i (deliver E i BeforeWait
                                                 (deliver E i InFetch w1))))
                   = windows w1).
      { now rewrite windows_deliver, windows_wait, !windows_deliver. }
      assert (Tc : trace (deliver E i AfterWait
                            (Event_wait E i (deliver E i BeforeWait
                                               (deliver E i InFetch w1))))
                   = trace w1).
      { rewrite (un_trace _ _ (untouched_cycle E _ _)).
        apply (un_trace _ _ (untouched_deliver E _ _ _)). }
      destruct (stop_event _); [apply one; [exact Wc | exact Tc | intros _; discriminate] |].
      destruct (IH (S i) (deliver E i AfterWait
                            (Event_wait E i (deliver E i BeforeWait
                                               (deliver E i InFetch w1)))))
        as (wins & groups & W' & P' & A' & N').
      rewrite Wc, W in W'. rewrite Tc, P in P'.
      exists ((sts, ets) :: wins), (reqs :: groups). split; [| split; [| split]].
      * rewrite W', <- app_assoc. reflexivity.
      * rewrite P', <- app_assoc. reflexivity.
      * constructor; assumption.
      * intros ND [I | I]; [| now apply (N' ND)].
        apply N; [discriminate | now symmetry].
Qed.

(** X15: the requests of a run come window by window, in the order of the
    windows: each window has its own requests, which carry its bounds and
    the same five other fields, and unless the loop is still running each
    window has at least one. *)
Theorem requests_follow_windows (fuel : nat) (cfg : config) (w : world) :
  exists wins groups,
    windows (fst (fetch_logs E fuel cfg w)) = (windows w ++ wins)%list /\
    posts (trace (fst (fetch_logs E fuel cfg w)))
    = (posts (trace w) ++ List.concat groups)%list /\
    Forall2 (fun win g => Forall (of_window (fst win) (snd win)) g) wins groups /\
    (snd (fetch_logs E fuel cfg w) <> Diverge -> ~ In [] groups).
Proof.
  assert (none : forall (w' : world) (o : outcome report),
            windows w' = windows w -> posts (trace w') = posts (trace w) ->
            exists wins groups,
              windows w' = (windows w ++ wins)%list /\
              posts (trace w') = (posts (trace w) ++ List.concat groups)%list /\
              Forall2 (fun win g => Forall (of_window (fst win) (snd win)) g)
                      wins groups /\
              (o <> Diverge -> ~ In [] groups)).
  { intros w' o Hw Hp. exists [], []. rewrite Hw, Hp. simpl. rewrite !app_nil_r.
    repeat split; [constructor | intros _ []]. }
  destruct (EventType_of (log_type cfg)) as [lt|] eqn:HT;
    [| unfold fetch_logs; rewrite HT; now apply none].
  rewrite (fetch_logs_run E fuel cfg w lt HT).
  destruct (prepared_keeps (self_output cfg) w) as (_ & _ & Wp & _ & Tp).
  assert (Po : posts (trace (prepared (self_output cfg) w)) = posts (trace w)).
  { rewrite Tp, posts_app. unfold opening.
    destruct (self_output cfg) as [p|h|]; simpl; rewrite ?app_nil_r; try reflexivity.
    destruct (disk w p); simpl; now rewrite app_nil_r. }
  destruct (sink_of (self_output cfg) w) as [out|]; [| now apply none].
  destruct (tell out _) as [sp|e].
  - destruct (poll_grouped fuel 0 cfg lt out sp (prepared (self_output cfg) w))
      as (wins & groups & W & P & A & N).
    destruct (poll E fuel 0 cfg lt out sp _) as [w2 r]. simpl in W, P, N.
    rewrite Wp in W. rewrite Po in P.
    exists wins, groups. cbv beta iota. rewrite conclude_outcome, !conclude_world.
    destruct r as [s|e|]; simpl; try destruct (is_stdout (self_output cfg)); simpl;
      rewrite ?posts_app; simpl; rewrite ?app_nil_r;
      (split; [exact W | split; [exact P | split; [exact A |]]]);
      intros ND; apply N; congruence.
  - destruct (is_stdout (self_output cfg)); apply none; simpl; auto.
    now rewrite posts_app, app_nil_r.
Qed.





End RunFrames.

(** ** Edges: skipped items, sinks that cannot be bound, paths opened *)

Section Edges.

Context {backend : Type} (E : env backend).
Notation world := (world backend).

Arguments flush : simpl never.
Arguments get_logs : simpl never.
Arguments tell : simpl never.
Arguments poll : simpl never.
Arguments date_boundaries : simpl never.

(** X17: an item of a user access page whose key is made of digits is
    never passed over in silence: the test on line 113 cannot fail, as
    [response['flog']] has been read before it, so the item is written or
    its failure is logged. *)
Theorem digit_keys_are_never_skipped (timestamp : string) (response : Py.value) :
  Py.isdigit timestamp = true ->
  access_line E timestamp response <> Py.Ok None.
Proof.
  unfold access_line. intros ->. cbn [negb].
  destruct response as [| | | |l|d]; cbn [Py.subscript Py.bind]; try discriminate.
  destruct (Py.assoc "flog" d) as [v|]; cbn [Py.bind]; [| discriminate].
  destruct (Date.fromtimestamp (utcoffset E) (Py.int timestamp / 1000));
    cbn [Py.bind]; [| discriminate].
  destruct v; discriminate.
Qed.

(** X18: when the output cannot be bound (the path cannot be opened, or
    the object has no [write]) the function returns with the failure as
    the fault of its report and has done nothing: no request, no window,
    no call on any sink, nothing closed. *)
Theorem unbound_sink_changes_nothing
    (fuel : nat) (cfg : config) (w : world) (lt : EventType) :
  EventType_of (log_type cfg) = Some lt ->
  (exists p, self_output cfg = TPath p /\ disk w p = Denied) \/ self_output cfg = TOther ->
  fst (fetch_logs E fuel cfg w) = w /\
  exists e, snd (fetch_logs E fuel cfg w) = Ret (mkReport None (Some e)).
Proof.
  intros HT H. rewrite (fetch_logs_run E fuel cfg w lt HT).
  assert (N : sink_of (self_output cfg) w = None).
  { unfold sink_of. destruct H as [(p & -> & ->) | ->]; reflexivity. }
  rewrite N. simpl. split; [reflexivity | eexists; reflexivity].
Qed.

Lemma paged_calls (evs : list event) :
  paged evs -> forall p, ~ In (EvOpen p) evs.
Proof.
  induction 1 as [|a ls ok rest _ IH]; intros p; [intros [] |].
  intros [I | I]; [discriminate |].
  apply in_app_or in I. destruct I as [I | [I | I]]; [| discriminate | now apply IH in I].
  apply in_map_iff in I. destruct I as (s & I & _). discriminate.
Qed.

(** X19: the only path a run opens is the one given as the output, and it
    is never the empty path: with no output, or an empty one,
    [sys.stdout] is written to and no file is opened. *)
Theorem only_the_named_path_is_opened (fuel : nat) (cfg : config) (w : world) :
  exists evs,
    trace (fst (fetch_logs E fuel cfg w)) = (trace w ++ evs)%list /\
    forall p, In (EvOpen p) evs -> output cfg = Some (TPath p) /\ p <> EmptyString.
Proof.
  assert (none : forall w' : world, trace w' = trace w ->
            exists evs,
              trace w' = (trace w ++ evs)%list /\
              forall p, In (EvOpen p) evs ->
                        output cfg = Some (TPath p) /\ p <> EmptyString).
  { intros w' T. exists []. rewrite T, app_nil_r. split; [reflexivity | intros p []]. }
  destruct (EventType_of (log_type cfg)) as [lt|] eqn:HT;
    [| unfold fetch_logs; rewrite HT; now apply none].
  rewrite (fetch_logs_run E fuel cfg w lt HT).
  destruct (prepared_keeps (self_output cfg) w) as (_ & _ & _ & _ & Tp).
  assert (Op : forall p, In (EvOpen p) (opening (self_output cfg) w) ->
                         output cfg = Some (TPath p) /\ p <> EmptyString).
  { intros p. unfold opening, self_output.
    destruct (output cfg) as [[q|h|]|]; simpl; try (intros []).
    destruct q as [|c q]; simpl; [intros [] |].
    destruct (disk w (String c q)); simpl; intros I;
      try destruct I as [I | []]; try contradiction;
      injection I as <-; (split; [reflexivity | discriminate]). }
  assert (Cl : forall p, ~ In (EvOpen p)
                           (if is_stdout (self_output cfg) then [] else [EvClose])).
  { intros p. destruct (is_stdout (self_output cfg)); simpl; intros I;
      try destruct I as [I | []]; try discriminate; assumption. }
  destruct (sink_of (self_output cfg) w) as [out|]; [| now apply none].
  assert (closed : forall (w2 : world) (body : list event),
            trace w2 = (trace (prepared (self_output cfg) w) ++ body)%list ->
            (forall p, ~ In (EvOpen p) body) ->
            exists evs,
              trace (if is_stdout (self_output cfg) then w2 else log_event EvClose w2)
              = (trace w ++ evs)%list /\
              forall p, In (EvOpen p) evs ->
                        output cfg = Some (TPath p) /\ p <> EmptyString).
  { intros w2 body T B.
    exists (opening (self_output cfg) w ++ body
            ++ (if is_stdout (self_output cfg) then [] else [EvClose]))%list.
    split.
    - rewrite Tp, <- app_assoc in T.
      destruct (is_stdout (self_output cfg)); simpl; rewrite T;
        [now rewrite app_nil_r | now rewrite <- !app_assoc].
    - intros p I. apply in_app_or in I. destruct I as [I | I]; [now apply Op |].
      apply in_app_or in I. destruct I as [I | I];
        [now apply B in I | now apply Cl in I]. }
  destruct (tell out _) as [sp|e].
  - destruct (poll_stepped E fuel 0 cfg lt out sp (prepared (self_output cfg) w))
      as (body & Pg & [T _ _ _ _ _]).
    destruct (poll E fuel 0 cfg lt out sp _) as [w2 r]. simpl in T.
    pose proof (paged_calls body Pg) as B.
    cbv beta iota. rewrite !conclude_world.
    destruct r as [s|e|]; cbn [fst]; [now apply (closed w2 body) ..|].
    exists (opening (self_output cfg) w ++ body)%list. split.
    + now rewrite T, Tp, <- app_assoc.
    + intros p I. apply in_app_or in I. destruct I as [I | I];
        [now apply Op | now apply B in I].
  - cbn [fst]. apply (closed _ []); [now rewrite app_nil_r | intros p []].
Qed.

End Edges.

(** ** Instances of the further properties *)

(** A tail run whose overrides are set: the window is the rolling one. *)
Lemma rolling_window_witness :
  snd (date_boundaries (17000001005 # 10) (mkConfig true (Some 5%Z) (Some 9%Z) false "access" None))
  = fst (date_boundaries (17000001005 # 10)
           (mkConfig true (Some 5%Z) (Some 9%Z) false "access" None)) - 15000 /\
  fst (date_boundaries (17000001005 # 10)
         (mkConfig true (Some 5%Z) (Some 9%Z) false "access" None)) mod 1000 = 0 /\
  (inject_Z (fst (date_boundaries (17000001005 # 10)
                    (mkConfig true (Some 5%Z) (Some 9%Z) false "access" None)))
   <= (17000001005 # 10) * 1000 - 60000)%Q /\
  ((17000001005 # 10) * 1000 - 61000
   < inject_Z (fst (date_boundaries (17000001005 # 10)
                      (mkConfig true (Some 5%Z) (Some 9%Z) false "access" None))))%Q.
Proof.
  exact (rolling_window (17000001005 # 10)
           (mkConfig true (Some 5%Z) (Some 9%Z) false "access" None) (or_introl eq_refl)).
Defined.

(** An answer of status 503. *)
Lemma unusable_answer_witness :
  snd (get_logs quiet first_request ADMIN (SHandle Stdout)
         (fresh [Py.Ok (mkResponse 503 (Py.Ok (Py.VDict [])))])) = Py.VNone /\
  trace (fst (get_logs quiet first_request ADMIN (SHandle Stdout)
                (fresh [Py.Ok (mkResponse 503 (Py.Ok (Py.VDict [])))])))
  = (trace (fresh [Py.Ok (mkResponse 503 (Py.Ok (Py.VDict [])))])
     ++ [EvPost first_request])%list.
Proof.
  destruct (unusable_answer_is_silent quiet first_request ADMIN (SHandle Stdout)
              (fresh [Py.Ok (mkResponse 503 (Py.Ok (Py.VDict [])))])
              (Py.Ok (mkResponse 503 (Py.Ok (Py.VDict [])))) [] eq_refl
              (unusable_status (mkResponse 503 (Py.Ok (Py.VDict [])))
                 ltac:(discriminate)))
    as (A & B & _).
  split; [exact A | exact B].
Defined.

(** The user access page of the specification's example. *)
Lemma access_page_witness :
  writes (trace (fst (get_logs quiet first_request USER_ACCESS (SHandle Stdout)
                        (fresh [nested_page]))))
  = (writes (trace (fresh [nested_page]))
     ++ access_lines quiet [("metadata", Py.VDict []); line_A])%list /\
  (List.length (access_lines quiet [("metadata", Py.VDict []); line_A]) <= 2)%nat.
Proof.
  destruct (access_page_writes_its_lines quiet first_request (SHandle Stdout)
              (fresh [nested_page])
              (mkResponse 200 (Py.Ok (access_message [("metadata", Py.VDict []); line_A])))
              [] (access_message [("metadata", Py.VDict []); line_A]) Py.VNone
              [("metadata", Py.VDict []); line_A]
              eq_refl eq_refl eq_refl eq_refl eq_refl)
    as (A & B & _).
  split; [exact A | exact B].
Defined.

(** The admin page with a record that has no timestamp. *)
Lemma admin_page_witness :
  writes (trace (fst (get_logs quiet first_request ADMIN (SHandle Stdout)
                        (fresh [admin_page]))))
  = (writes (trace (fresh [admin_page]))
     ++ admin_lines quiet [record_B; record_C; record_D])%list /\
  (List.length (admin_lines quiet [record_B; record_C; record_D]) <= 3)%nat.
Proof.
  destruct (admin_page_writes_its_lines quiet first_request (SHandle Stdout)
              (fresh [admin_page])
              (mkResponse 200 (Py.Ok (admin_message admin_msg)))
              [] (admin_message admin_msg) Py.VNone (Py.VDict admin_msg)
              [record_B; record_C; record_D]
              eq_refl eq_refl eq_refl eq_refl eq_refl eq_refl)
    as (A & B & _).
  split; [exact A | exact B].
Defined.

(** A run on a pipe: [tell] fails on it. *)
Lemma unseekable_stream_witness :
  snd (fetch_logs quiet 5 (bounded "access" (Some (TStream (Fd 3))))
         (mkWorld [page_last] 0 0 (fun _ => Absent)
                  (fun _ => mkStream EmptyString 0 false) false 0 [] []))
  = Ret (mkReport None (Some Py.OSError)) /\
  posts (trace (fst (fetch_logs quiet 5 (bounded "access" (Some (TStream (Fd 3))))
                       (mkWorld [page_last] 0 0 (fun _ => Absent)
                                (fun _ => mkStream EmptyString 0 false) false 0 [] []))))
  = posts [].
Proof.
  destruct (unseekable_stream_fetches_nothing quiet 5
              (bounded "access" (Some (TStream (Fd 3))))
              (mkWorld [page_last] 0 0 (fun _ => Absent)
                       (fun _ => mkStream EmptyString 0 false) false 0 [] [])
              USER_ACCESS (Fd 3) eq_refl eq_refl eq_refl)
    as (A & B & _).
  split; [exact A | exact B].
Defined.

(** An output that is no path and has no [write]. *)
Lemma unbound_sink_witness :
  fst (fetch_logs quiet 5 (bounded "admin" (Some TOther)) (fresh [admin_page]))
  = fresh [admin_page] /\
  exists e,
    snd (fetch_logs quiet 5 (bounded "admin" (Some TOther)) (fresh [admin_page]))
    = Ret (mkReport None (Some e)).
Proof.
  exact (unbound_sink_changes_nothing quiet 5 (bounded "admin" (Some TOther))
           (fresh [admin_page]) ADMIN eq_refl (or_intror eq_refl)).
Defined.

(** The summary of a bounded run of one page. *)
Lemma summary_reports_witness :
  tail (bounded "access" (Some (TPath "eaa.log"))) = false /\
  batch (bounded "access" (Some (TPath "eaa.log"))) = false /\
  (1700000025000, 1700000040000)
  = window_of quiet (bounded "access" (Some (TPath "eaa.log"))) 0 /\
  1 = line_count (fst (fetch_logs quiet 5 (bounded "access" (Some (TPath "eaa.log")))
                         (fresh [page_last]))).
Proof.
  assert (S : snd (fetch_logs quiet 5 (bounded "access" (Some (TPath "eaa.log")))
                              (fresh [page_last]))
              = Ret (mkReport (Some (mkSummary 1700000025000 1700000040000 1 0 18))
                              None)) by reflexivity.
  destruct (summary_reports quiet 5 (bounded "access" (Some (TPath "eaa.log")))
              (fresh [page_last]) _ _
              (mkSummary 1700000025000 1700000040000 1 0 18)
              (eq_trans (surjective_pairing _) (f_equal (pair _) S)) eq_refl)
    as (A & B & _ & C & D & _).
  split; [exact A | split; [exact B | split; [exact C | exact D]]].
Defined.

(** Two cycles read off a clock that stands: the second window starts
    fifteen seconds before the end of the first. *)
Lemma tail_windows_gap_witness :
  1700000025000 - 1700000040000
  = 1000 * (Qfloor (now idle 1) - Qfloor (now idle 0) - 15).
Proof.
  exact (tail_windows_gap idle 9 (tailing "access" None) idle_world 0
           1700000025000 1700000040000 1700000025000 1700000040000
           eq_refl eq_refl eq_refl).
Defined.



(** A digit key with a response that is no mapping: the failure is logged. *)
Lemma digit_keys_witness :
  access_line quiet "1700000000000" (Py.VStr "x") <> Py.Ok None.
Proof.
  exact (digit_keys_are_never_skipped quiet "1700000000000" (Py.VStr "x") eq_refl).
Defined.
